(** * mapstructure: decoding [map[string]any] into Go structs

    A shallow embedding of the decoding engine ([Unmarshal],
    [unmarshalValue] and its helpers), the struct metadata builder
    ([buildMetadata], [parseFieldTag]) and the error types, over a model
    of the part of Go's [reflect] package they use.

    A call that mutates its destination is a function from the slot
    (its type, its contents, its flags) to an [outcome]: the contents of
    the slot after the call with the returned error, or a panic.

    Layout: the reflect model, the error types, the metadata cache, the
    converter registry, the engine, the built-in integer converters, the
    vocabulary of the statements and the sample programs; then the
    lemmas, the theorems C1 to C10, and the theorems applied to the
    sample programs; then the further properties X1 to X17 of the
    engine, the descriptor and its cache, and their applications. *)

From Stdlib Require Import ZArith List String Ascii Bool Arith Lia Sorted.
From Stdlib Require Import Floats.SpecFloat Numbers.DecimalString.
Import ListNotations.
Open Scope string_scope.
Open Scope Z_scope.

#[local] Set Warnings "-register-all".

(* ================================================================== *)
(** ** Go types, as [reflect.Type] presents them *)
(* ================================================================== *)

(** [reflect.Kind]. *)
Inductive Kind : Type :=
| KInvalid | KBool
| KInt | KInt8 | KInt16 | KInt32 | KInt64
| KUint | KUint8 | KUint16 | KUint32 | KUint64 | KUintptr
| KFloat32 | KFloat64
| KArray | KInterface | KMap | KPointer | KSlice | KString | KStruct.

(** The predeclared types with a value representation in this model
    (complex numbers, channels, functions and unsafe pointers are not
    represented). *)
Inductive Basic : Type :=
| BBool
| BInt | BInt8 | BInt16 | BInt32 | BInt64
| BUint | BUint8 | BUint16 | BUint32 | BUint64 | BUintptr
| BFloat32 | BFloat64
| BString.

(** A struct tag, already split into its [key:"value"] pairs, in the
    order they are written. *)
Definition StructTag : Type := list (string * string).

(** The type-independent part of a struct field declaration. *)
Record FieldDecl : Type := mkFieldDecl {
  declName : string;       (* field name; the type's name when embedded *)
  declPkgPath : string;    (* empty for exported fields *)
  declTag : StructTag;
  declAnonymous : bool     (* embedded field *)
}.

(** Types are finite trees: a defined type that refers to itself
    ([type Node struct { Next *Node }]) is outside the model.  [TNamed]
    is a defined type ([type N U]); [TInterface] is the empty interface
    [any], the only interface type of the model: interface types with
    methods, and with them the method sets of the other types, are
    outside the model. *)
Inductive rtype : Type :=
| TBasic (b : Basic)
| TInterface
| TArray (len : nat) (elem : rtype)
| TMap (key elem : rtype)
| TPointer (elem : rtype)
| TSlice (elem : rtype)
| TStruct (fields : list (FieldDecl * rtype))
| TNamed (name : string) (underlying : rtype).

(** [reflect.StructField]. *)
Record StructField : Type := mkStructField {
  Name : string;
  PkgPath : string;
  Typ : rtype;
  Tag : StructTag;
  Anonymous : bool
}.

Definition toStructField (p : FieldDecl * rtype) : StructField :=
  mkStructField (declName (fst p)) (declPkgPath (fst p)) (snd p)
                (declTag (fst p)) (declAnonymous (fst p)).

(** [f.IsExported()]. *)
Definition IsExported (f : StructField) : bool := String.eqb (PkgPath f) EmptyString.

(** [tag.Lookup(key)] and [tag.Get(key)]. *)
Fixpoint Tag_Lookup (tag : StructTag) (key : string) : option string :=
  match tag with
  | [] => None
  | (k, v) :: rest => if String.eqb k key then Some v else Tag_Lookup rest key
  end.

Definition Tag_Get (tag : StructTag) (key : string) : string :=
  match Tag_Lookup tag key with Some v => v | None => EmptyString end.

Definition Basic_kind (b : Basic) : Kind :=
  match b with
  | BBool => KBool
  | BInt => KInt | BInt8 => KInt8 | BInt16 => KInt16
  | BInt32 => KInt32 | BInt64 => KInt64
  | BUint => KUint | BUint8 => KUint8 | BUint16 => KUint16
  | BUint32 => KUint32 | BUint64 => KUint64 | BUintptr => KUintptr
  | BFloat32 => KFloat32 | BFloat64 => KFloat64
  | BString => KString
  end.

(** The underlying type: defined types are unfolded. *)
Fixpoint underlying_of (t : rtype) : rtype :=
  match t with
  | TNamed _ u => underlying_of u
  | _ => t
  end.

(** [t.Kind()]. *)
Definition Type_Kind (t : rtype) : Kind :=
  match underlying_of t with
  | TBasic b => Basic_kind b
  | TInterface => KInterface
  | TArray _ _ => KArray
  | TMap _ _ => KMap
  | TPointer _ => KPointer
  | TSlice _ => KSlice
  | TStruct _ => KStruct
  | TNamed _ _ => KInvalid
  end.

(** [t.Elem()]; Go panics where this is [None]. *)
Definition Type_Elem (t : rtype) : option rtype :=
  match underlying_of t with
  | TArray _ e | TMap _ e | TPointer e | TSlice e => Some e
  | _ => None
  end.

(** The declared fields of a struct type, [t.Field(0) .. t.Field(n-1)]. *)
Definition Type_Fields (t : rtype) : list StructField :=
  match underlying_of t with
  | TStruct fs => map toStructField fs
  | _ => []
  end.

Definition Type_NumField (t : rtype) : nat := List.length (Type_Fields t).

Definition Type_Field (t : rtype) (i : nat) : option StructField :=
  nth_error (Type_Fields t) i.

(** Whether the type has a name: predeclared and defined types do. *)
Definition hasName (t : rtype) : bool :=
  match t with
  | TBasic _ | TNamed _ _ => true
  | _ => false
  end.

Definition Kind_eqb (a b : Kind) : bool :=
  match a, b with
  | KInvalid, KInvalid | KBool, KBool
  | KInt, KInt | KInt8, KInt8 | KInt16, KInt16 | KInt32, KInt32
  | KInt64, KInt64
  | KUint, KUint | KUint8, KUint8 | KUint16, KUint16 | KUint32, KUint32
  | KUint64, KUint64 | KUintptr, KUintptr
  | KFloat32, KFloat32 | KFloat64, KFloat64
  | KArray, KArray | KInterface, KInterface | KMap, KMap
  | KPointer, KPointer | KSlice, KSlice | KString, KString
  | KStruct, KStruct => true
  | _, _ => false
  end.

Definition Basic_eqb (a b : Basic) : bool :=
  Kind_eqb (Basic_kind a) (Basic_kind b).

Fixpoint Tag_eqb (a b : StructTag) : bool :=
  match a, b with
  | [], [] => true
  | (k1, v1) :: a', (k2, v2) :: b' =>
      String.eqb k1 k2 && String.eqb v1 v2 && Tag_eqb a' b'
  | _, _ => false
  end.

Definition FieldDecl_eqb (a b : FieldDecl) : bool :=
  String.eqb (declName a) (declName b)
  && String.eqb (declPkgPath a) (declPkgPath b)
  && Tag_eqb (declTag a) (declTag b)
  && Bool.eqb (declAnonymous a) (declAnonymous b).

(** Type identity, [T == V] on [reflect.Type]: defined types are
    identical when they are the same declaration, composite types when
    their components are identical (struct tags included). *)
Fixpoint rtype_eqb (a b : rtype) {struct a} : bool :=
  match a, b with
  | TBasic x, TBasic y => Basic_eqb x y
  | TInterface, TInterface => true
  | TArray n x, TArray m y => Nat.eqb n m && rtype_eqb x y
  | TMap k x, TMap l y => rtype_eqb k l && rtype_eqb x y
  | TPointer x, TPointer y => rtype_eqb x y
  | TSlice x, TSlice y => rtype_eqb x y
  | TStruct fs, TStruct gs =>
      (fix fields_eqb (fs : list (FieldDecl * rtype))
                      (gs : list (FieldDecl * rtype)) {struct fs} : bool :=
         match fs, gs with
         | [], [] => true
         | (d, x) :: fs', (e, y) :: gs' =>
             FieldDecl_eqb d e && rtype_eqb x y && fields_eqb fs' gs'
         | _, _ => false
         end) fs gs
  | TNamed n x, TNamed m y => String.eqb n m && rtype_eqb x y
  | _, _ => false
  end.

(** [directlyAssignable(T, V)] of package reflect: a [V] value can be
    stored in a [T] slot without conversion. *)
Definition directlyAssignable (T V : rtype) : bool :=
  if rtype_eqb T V then true
  else if (hasName T && hasName V) || negb (Kind_eqb (Type_Kind T) (Type_Kind V))
  then false
  else rtype_eqb (underlying_of T) (underlying_of V).

(** [implements(T, V)] for the interface types of the model: [T] is the
    empty interface [interface{}] (under a name or not), which every
    type satisfies.  An interface type with methods ([io.Writer],
    [io.ReadCloser]) is not among the types of the model, and no
    statement below is about a slot of such a type. *)
Definition implements (T V : rtype) : bool :=
  rtype_eqb (underlying_of T) TInterface.

(** [V.AssignableTo(T)]. *)
Definition AssignableTo (V T : rtype) : bool :=
  directlyAssignable T V || implements T V.

(** Nesting depth of a type, the measure the decoder descends on. *)
Fixpoint depth (t : rtype) : nat :=
  match t with
  | TBasic _ | TInterface => O
  | TArray _ e | TPointer e | TSlice e => S (depth e)
  | TMap k e => S (Nat.max (depth k) (depth e))
  | TStruct fs => S (list_max (map (fun p => depth (snd p)) fs))
  | TNamed _ u => S (depth u)
  end.

(* ================================================================== *)
(** ** Go values, as an [any] holds them *)
(* ================================================================== *)

(** A dynamic value: [VNil] is the nil interface; every other value
    carries its dynamic type.  A nil pointer, slice or map is [None]
    under its constructor.  A slot of interface type holds a dynamic
    value directly; a slot of any other type holds a value carrying the
    slot's type.  Pointers own their pointee (two pointers of one
    destination are not aliased in this model). *)
Inductive value : Type :=
| VNil
| VBool (t : rtype) (b : bool)
| VInt (t : rtype) (n : Z)
| VFloat (t : rtype) (f : spec_float)
| VString (t : rtype) (s : string)
| VPtr (t : rtype) (p : option value)
| VSlice (t : rtype) (s : option (list value))
| VArray (t : rtype) (elems : list value)
| VMap (t : rtype) (m : option (list (value * value)))
| VStruct (t : rtype) (fields : list value).

(** [reflect.TypeOf(v)]; [None] for the nil interface. *)
Definition TypeOf (v : value) : option rtype :=
  match v with
  | VNil => None
  | VBool t _ | VInt t _ | VFloat t _ | VString t _ | VPtr t _
  | VSlice t _ | VArray t _ | VMap t _ | VStruct t _ => Some t
  end.

(** The same contents seen at another type (what an assignment between
    directly assignable types stores). *)
Definition retag (t : rtype) (v : value) : value :=
  match v with
  | VNil => VNil
  | VBool _ b => VBool t b
  | VInt _ n => VInt t n
  | VFloat _ f => VFloat t f
  | VString _ s => VString t s
  | VPtr _ p => VPtr t p
  | VSlice _ s => VSlice t s
  | VArray _ l => VArray t l
  | VMap _ m => VMap t m
  | VStruct _ l => VStruct t l
  end.

(** The zero value of a type; [tag] is the type the value carries,
    [shape] the type whose structure is followed. *)
Fixpoint zeroAs (tag shape : rtype) {struct shape} : value :=
  match shape with
  | TBasic BBool => VBool tag false
  | TBasic BString => VString tag EmptyString
  | TBasic BFloat32 | TBasic BFloat64 => VFloat tag (S754_zero false)
  | TBasic _ => VInt tag 0
  | TInterface => VNil
  | TArray n e => VArray tag (repeat (zeroAs e e) n)
  | TMap _ _ => VMap tag None
  | TPointer _ => VPtr tag None
  | TSlice _ => VSlice tag None
  | TStruct fs => VStruct tag (map (fun p => zeroAs (snd p) (snd p)) fs)
  | TNamed _ u => zeroAs tag u
  end.

Definition zero (t : rtype) : value := zeroAs t t.

(** The Go strings a decoder meets are of the predeclared type. *)
Definition GoString (s : string) : value := VString (TBasic BString) s.

(** [map[string]any]. *)
Definition mapStringAny : rtype := TMap (TBasic BString) TInterface.

(** [m[key]] on a string-keyed map: the value and whether it exists. *)
Fixpoint MapIndex_entries (m : list (value * value)) (key : string)
  : option value :=
  match m with
  | [] => None
  | (VString _ k, v) :: rest =>
      if String.eqb k key then Some v else MapIndex_entries rest key
  | _ :: rest => MapIndex_entries rest key
  end.

Definition MapIndex (m : option (list (value * value))) (key : string)
  : option value :=
  match m with
  | Some entries => MapIndex_entries entries key
  | None => None
  end.

(** The type assertion [data.(map[string]any)]: it holds exactly when
    the dynamic type is [map[string]any]. *)
Definition asMapStringAny (data : value)
  : option (option (list (value * value))) :=
  match data with
  | VMap t m => if rtype_eqb t mapStringAny then Some m else None
  | _ => None
  end.

(** Replace element [i] of a list; nothing happens out of range. *)
Fixpoint list_set {A : Type} (l : list A) (i : nat) (x : A) : list A :=
  match l, i with
  | [], _ => []
  | _ :: l', O => x :: l'
  | y :: l', S i' => y :: list_set l' i' x
  end.

(* ================================================================== *)
(** ** [reflect.Value]: a typed slot *)
(* ================================================================== *)

(** A [reflect.Value]: the static type of the slot, its contents, and
    the two flag bits that decide [CanSet].  The zero [reflect.Value{}]
    is [None] of [option Value]. *)
Record Value : Type := mkValue {
  typ : rtype;
  val : value;
  flagAddr : bool;
  flagRO : bool
}.

Definition Value_Kind (v : Value) : Kind := Type_Kind (typ v).

(** [v.CanSet()]. *)
Definition CanSet (v : Value) : bool := flagAddr v && negb (flagRO v).

Definition with_val (v : Value) (x : value) : Value :=
  mkValue (typ v) x (flagAddr v) (flagRO v).

(** [reflect.ValueOf(data)]. *)
Definition ValueOf (data : value) : option Value :=
  match TypeOf data with
  | Some t => Some (mkValue t data false false)
  | None => None
  end.

(** [reflect.Zero(t)]. *)
Definition Zero (t : rtype) : Value := mkValue t (zero t) false false.

(** [reflect.New(t)]: a pointer to a fresh zero [t]. *)
Definition New (t : rtype) : Value :=
  mkValue (TPointer t) (VPtr (TPointer t) (Some (zero t))) false false.

(** [reflect.MakeSlice(t, n, n)]; Go panics where this is [None]. *)
Definition MakeSlice (t : rtype) (n : nat) : option Value :=
  match underlying_of t with
  | TSlice e => Some (mkValue t (VSlice t (Some (repeat (zero e) n))) false false)
  | _ => None
  end.

(** [v.IsNil()] for the kinds the decoder asks it of. *)
Definition IsNil (v : Value) : bool :=
  match val v with
  | VNil | VPtr _ None | VSlice _ None | VMap _ None => true
  | _ => false
  end.

(** [v.Len()] of a slice or array. *)
Definition Len (v : Value) : nat :=
  match val v with
  | VSlice _ (Some l) | VArray _ l => List.length l
  | _ => O
  end.

(** [v.Elem()] of a non-nil pointer: the pointee, addressable. *)
Definition Elem (v : Value) : option Value :=
  match Type_Elem (typ v), val v with
  | Some e, VPtr _ (Some p) =>
      if Kind_eqb (Value_Kind v) KPointer
      then Some (mkValue e p true (flagRO v)) else None
  | _, _ => None
  end.

(** [v.Index(i)] of a slice or array; [None] where Go panics.  Slice
    elements are addressable, array elements as the array is. *)
Definition Value_Index (v : Value) (i : nat) : option Value :=
  match Type_Elem (typ v), val v with
  | Some e, VSlice _ (Some l) =>
      match nth_error l i with
      | Some x => Some (mkValue e x true (flagRO v))
      | None => None
      end
  | Some e, VArray _ l =>
      match nth_error l i with
      | Some x => Some (mkValue e x (flagAddr v) (flagRO v))
      | None => None
      end
  | _, _ => None
  end.

(** [v.Field(i)] of a struct; [None] where Go panics.  A field reached
    through an unexported name is read-only. *)
Definition Field (v : Value) (i : nat) : option Value :=
  match Type_Field (typ v) i, val v with
  | Some f, VStruct _ l =>
      match nth_error l i with
      | Some x => Some (mkValue (Typ f) x (flagAddr v)
                                (flagRO v || negb (IsExported f)))
      | None => None
      end
  | _, _ => None
  end.

(** [v.Interface()]. *)
Definition Interface (v : Value) : value := val v.

(** Writing element [i] of a sequence, field [i] of a struct, or the
    pointee of a pointer, in place. *)
Definition store_index (s : value) (i : nat) (x : value) : value :=
  match s with
  | VSlice t (Some l) => VSlice t (Some (list_set l i x))
  | VArray t l => VArray t (list_set l i x)
  | _ => s
  end.

Definition store_field (s : value) (i : nat) (x : value) : value :=
  match s with
  | VStruct t l => VStruct t (list_set l i x)
  | _ => s
  end.

Definition store_elem (p : value) (x : value) : value :=
  match p with
  | VPtr t (Some _) => VPtr t (Some x)
  | _ => p
  end.

(** What [x] becomes when stored in a slot of type [dst]
    ([Value.assignTo]); [None] where Go panics. *)
Definition assignTo (dst : rtype) (x : Value) : option value :=
  if AssignableTo (typ x) dst
  then Some (if Kind_eqb (Type_Kind dst) KInterface
             then val x else retag dst (val x))
  else None.

(** [reflect.Copy(dst, src)] on equal element types: the first
    [min (len dst) (len src)] elements of [dst] are overwritten. *)
Definition copy_elems (dst src : list value) : list value :=
  firstn (List.length dst) src ++ skipn (List.length src) dst.

Definition Copy (dst src : Value) : Value :=
  match val dst, val src with
  | VSlice t (Some d), VSlice _ (Some s)
  | VSlice t (Some d), VArray _ s => with_val dst (VSlice t (Some (copy_elems d s)))
  | _, _ => dst
  end.

(* ================================================================== *)
(** ** Error types (errors.go) *)
(* ================================================================== *)

(** Go's [error] values that the package builds or passes on.
    [ConversionError] and [ValidationError] are the package's structs;
    [Errorf_wrap p e] is [fmt.Errorf("%s: %w", p, e)];
    [Errorf_noConverter p t] is
    [fmt.Errorf("%s: no converter registered for type %v", p, t)];
    [ErrorString] stands for the leaf errors converters return. *)
Inductive error : Type :=
| ErrorString (msg : string)
| ConversionError (FieldPath : string) (Value_ : value)
                  (TargetType : rtype) (Cause : option error)
| ValidationError (Message : string)
| Errorf_wrap (prefix : string) (err : error)
| Errorf_noConverter (fieldPath : string) (t : rtype).

(** NewConversionError creates a new ConversionError. *)
Definition NewConversionError (fieldPath : string) (v : value)
  (targetType : rtype) (cause : option error) : error :=
  let fieldPath := if String.eqb fieldPath EmptyString then "root" else fieldPath in
  ConversionError fieldPath v targetType cause.

(** NewValidationError creates a new ValidationError. *)
Definition NewValidationError (message : string) : error :=
  ValidationError message.

(** [(e *ConversionError) Unwrap()] and the unwrapping of [%w]. *)
Definition Unwrap (e : error) : option error :=
  match e with
  | ConversionError _ _ _ cause => cause
  | Errorf_wrap _ err => Some err
  | _ => None
  end.

(** [errors.As(err, &convErr)] for [*ConversionError]: the first
    conversion error of the chain. *)
Fixpoint AsConversionError (e : error) : option error :=
  match e with
  | ConversionError _ _ _ _ => Some e
  | Errorf_wrap _ err => AsConversionError err
  | _ => None
  end.

(** [errors.As(err, &valErr)] for [*ValidationError]. *)
Fixpoint AsValidationError (e : error) : option error :=
  match e with
  | ValidationError _ => Some e
  | ConversionError _ _ _ (Some cause) => AsValidationError cause
  | Errorf_wrap _ err => AsValidationError err
  | _ => None
  end.

Definition FieldPath_of (e : error) : option string :=
  match e with ConversionError p _ _ _ => Some p | _ => None end.

Definition Cause_of (e : error) : option error :=
  match e with ConversionError _ _ _ c => c | _ => None end.

Definition isValidationError (e : error) : bool :=
  match e with ValidationError _ => true | _ => false end.

(** How a call that mutates its destination ends: it returns, leaving
    [dst] in the destination slot and [err] as its result, or panics. *)
Inductive outcome : Type :=
| Return (dst : value) (err : option error)
| Panic (reason : string).

(** [rv.Set(x)], then [return nil]. *)
Definition SetValue (rv : Value) (x : option Value) : outcome :=
  if negb (CanSet rv)
  then Panic "reflect.Value.Set using unaddressable or read-only value"
  else match x with
       | None => Panic "reflect: call of reflect.Value.Set on zero Value"
       | Some xv =>
           if flagRO xv
           then Panic "reflect.Value.Set using value obtained using unexported field"
           else match assignTo (typ rv) xv with
                | Some c => Return c None
                | None => Panic "reflect.Set: value is not assignable to type"
                end
       end.

(* ================================================================== *)
(** ** Struct metadata (cache.go) *)
(* ================================================================== *)

(** DefaultTagName is the default struct tag name for field mapping. *)
Definition DefaultTagName : string := "schema".

(** DefaultValueTagName is the default struct tag name for default
    values. *)
Definition DefaultValueTagName : string := "default".

(** FieldMetadata holds cached struct field information (the fields
    are those of the README's API reference; [Type_] is Go's [Type]). *)
Record FieldMetadata : Type := mkFieldMetadata {
  StructFieldName : string;
  MapKey : string;
  Index : nat;
  Type_ : rtype;
  Embedded : bool;
  Default : option string
}.

Record StructMetadata : Type := mkStructMetadata {
  Fields : list FieldMetadata
}.

(** StructMetadataCache: the two tag names.  Its [sync.Map] only ever
    holds, under a type, the result of [buildMetadata] for that type
    (which depends on nothing but the type and the two names), so
    [GetMetadata] is modelled by the value it returns. *)
Record StructMetadataCache : Type := mkStructMetadataCache {
  tagName : string;
  defaultTagName : string
}.

(** NewStructMetadataCache creates a new struct metadata cache. *)
Definition NewStructMetadataCache (tagName defaultTagName : string)
  : StructMetadataCache :=
  let tagName := if String.eqb tagName EmptyString then DefaultTagName else tagName in
  let defaultTagName :=
    if String.eqb defaultTagName EmptyString then DefaultValueTagName
    else defaultTagName in
  mkStructMetadataCache tagName defaultTagName.

Definition NewDefaultStructMetadataCache : StructMetadataCache :=
  NewStructMetadataCache DefaultTagName DefaultValueTagName.

(** The result type of the external tag parser
    ([github.com/talav/tagparser]). *)
Module tagparser.
Record Tag : Type := mkTag {
  Name : string;
  Options : list (string * string)
}.
End tagparser.

Section Cache.

(** [tagparser.ParseWithName]: the parsed tag and the error. *)
Variable ParseWithName : string -> tagparser.Tag * option error.

(** parseFieldTag extracts the map key from a tag value.
    Returns (mapKey, skip). *)
Definition parseFieldTag (tagValue fieldName : string) : string * bool :=
  if String.eqb tagValue EmptyString then (fieldName, false)
  else if String.eqb tagValue "-" then (EmptyString, true)
  else
    let (tag, err) := ParseWithName tagValue in
    if (match err with Some _ => true | None => false end)
       || String.eqb (tagparser.Name tag) EmptyString
    then (fieldName, false)
    else if String.eqb (tagparser.Name tag) "-" then (EmptyString, true)
    else (tagparser.Name tag, false).

(** The body of [buildMetadata]'s loop, for fields [i, i+1, ...]. *)
Fixpoint buildMetadata_fields (c : StructMetadataCache) (i : nat)
  (fs : list StructField) : list FieldMetadata :=
  match fs with
  | [] => []
  | f :: rest =>
      if negb (IsExported f) then buildMetadata_fields c (S i) rest
      else
        let (mapKey, skip) :=
          if String.eqb (tagName c) "-" then (Name f, false)
          else parseFieldTag (Tag_Get (Tag f) (tagName c)) (Name f) in
        if skip then buildMetadata_fields c (S i) rest
        else
          let defaultPtr := Tag_Lookup (Tag f) (defaultTagName c) in
          mkFieldMetadata (Name f) mapKey i (Typ f) (Anonymous f) defaultPtr
          :: buildMetadata_fields c (S i) rest
  end.

(** buildMetadata builds struct metadata by parsing struct tags. *)
Definition buildMetadata (c : StructMetadataCache) (t : rtype)
  : StructMetadata :=
  mkStructMetadata (buildMetadata_fields c O (Type_Fields t)).

(** GetMetadata retrieves or builds cached struct field metadata: the
    value it returns (see [GetMetadata_stored] for the table). *)
Definition GetMetadata (c : StructMetadataCache) (t : rtype)
  : StructMetadata :=
  buildMetadata c t.

(** [cache.Load(t)] on the table of the [sync.Map]. *)
Fixpoint Load (table : list (rtype * StructMetadata)) (t : rtype)
  : option StructMetadata :=
  match table with
  | [] => None
  | (k, m) :: rest => if rtype_eqb k t then Some m else Load rest t
  end.

(** [cache.LoadOrStore(t, m)]: the actual value and the table after. *)
Definition LoadOrStore (table : list (rtype * StructMetadata)) (t : rtype)
  (m : StructMetadata) : StructMetadata * list (rtype * StructMetadata) :=
  match Load table t with
  | Some actual => (actual, table)
  | None => (m, (t, m) :: table)
  end.

(** [GetMetadata] with its table: check the cache first, else build and
    store. *)
Definition GetMetadata_stored (c : StructMetadataCache)
  (table : list (rtype * StructMetadata)) (t : rtype)
  : StructMetadata * list (rtype * StructMetadata) :=
  match Load table t with
  | Some metadata => (metadata, table)
  | None => LoadOrStore table t (buildMetadata c t)
  end.

(** Every entry of the table is what [buildMetadata] gives for its
    key. *)
Definition coherent (c : StructMetadataCache)
  (table : list (rtype * StructMetadata)) : Prop :=
  forall t m, Load table t = Some m -> m = buildMetadata c t.

End Cache.

(* ================================================================== *)
(** ** Converter registry *)
(* ================================================================== *)

(** Converter converts a value to a reflect.Value:
    [func(value any) (reflect.Value, error)]. *)
Definition Converter : Type := value -> option Value * option error.

(** Modelled from the spec: the [ConverterRegistry] type, whose
    declaration is not among the sources.  An immutable mapping from a
    target type to a converter, looked up by exact target-type match;
    the list is read front to back, so an earlier entry shadows a later
    one for the same type. *)
Definition ConverterRegistry : Type := list (rtype * Converter).

(** Modelled from the spec: [(r *ConverterRegistry) Find], whose body is
    not among the sources: [find(type) -> (Converter, found)], by exact
    match of the target type. *)
Fixpoint Find (r : ConverterRegistry) (t : rtype) : option Converter :=
  match r with
  | [] => None
  | (k, conv) :: rest => if rtype_eqb k t then Some conv else Find rest t
  end.

(** Modelled from the spec: [NewConverterRegistry], whose body is not
    among the sources: a registry with only the specified converters. *)
Definition NewConverterRegistry (converters : list (rtype * Converter))
  : ConverterRegistry := converters.

(* ================================================================== *)
(** ** The decoding engine (mapstructure.go) *)
(* ================================================================== *)

(** Unmarshaler handles unmarshaling of maps to Go structs. *)
Record Unmarshaler : Type := mkUnmarshaler {
  fieldCache : StructMetadataCache;
  converters : ConverterRegistry
}.

(** NewUnmarshaler creates a new unmarshaler with explicit
    dependencies. *)
Definition NewUnmarshaler (fieldCache : StructMetadataCache)
  (converters : ConverterRegistry) : Unmarshaler :=
  mkUnmarshaler fieldCache converters.

(** buildFieldPath builds a field path for error messages. *)
Definition buildFieldPath (base field : string) : string :=
  if String.eqb base EmptyString then field else base ++ "." ++ field.

(** [fmt.Sprintf("%s[%d]", fieldPath, i)]. *)
Definition elemPath (fieldPath : string) (i : nat) : string :=
  fieldPath ++ "[" ++ NilEmpty.string_of_uint (Nat.to_uint i) ++ "]".

(** [for i := range n { body }] over a local [s]: the body returns the
    new [s] and its error; the loop stops at the first error or panic. *)
Fixpoint forRange (n i : nat) (body : nat -> value -> outcome) (s : value)
  : outcome :=
  match n with
  | O => Return s None
  | S n' =>
      match body i s with
      | Return s' None => forRange n' (S i) body s'
      | stop => stop
      end
  end.

(** validateResultPointer validates that result is a non-nil pointer
    and returns its element. *)
Definition validateResultPointer (result : value) : option Value * option error :=
  match ValueOf result with
  | None => (None, Some (NewValidationError "result must be a pointer"))
  | Some rv =>
      if negb (Kind_eqb (Value_Kind rv) KPointer)
      then (None, Some (NewValidationError "result must be a pointer"))
      else if IsNil rv
      then (None, Some (NewValidationError "result pointer is nil"))
      else (Elem rv, None)
  end.

Section Engine.

Variable ParseWithName : string -> tagparser.Tag * option error.
Variable u : Unmarshaler.

Section Body.

(** The recursive calls [u.unmarshalValue(...)] of the helpers. *)
Variable self : value -> Value -> string -> outcome.

(** unmarshalPtr unmarshals a pointer value. *)
Definition unmarshalPtr (data : value) (rv : Value) (fieldPath : string)
  : outcome :=
  match data with
  | VNil => SetValue rv (Some (Zero (typ rv)))
  | _ =>
      let allocated :=
        if IsNil rv
        then match Type_Elem (typ rv) with
             | Some e => SetValue rv (Some (New e))
             | None => Panic "reflect: Elem of invalid type"
             end
        else Return (val rv) None in
      match allocated with
      | Return p _ =>
          match Elem (with_val rv p) with
          | Some pointee =>
              match self data pointee fieldPath with
              | Return x err => Return (store_elem p x) err
              | Panic m => Panic m
              end
          | None => Panic "reflect: call of reflect.Value.Elem on invalid Value"
          end
      | Panic m => Panic m
      end
  end.

(** unmarshalSliceElements handles the actual slice element
    unmarshaling with fast paths. *)
Definition unmarshalSliceElements (dataVal rv : Value) (fieldPath : string)
  (dataLen : nat) : outcome :=
  match MakeSlice (typ rv) dataLen, Type_Elem (typ rv) with
  | Some slice, Some sliceElemType =>
      (* Fast path 1: direct assignment for fully compatible types *)
      if AssignableTo (typ dataVal) (typ slice)
      then SetValue rv (Some dataVal)
      else
        match Type_Elem (typ dataVal) with
        | None => Panic "reflect: Elem of invalid type"
        | Some dataElemType =>
            (* Fast path 2: direct copy for same element type *)
            if rtype_eqb dataElemType sliceElemType
            then SetValue rv (Some (Copy slice dataVal))
            (* Fast path 3: direct element assignment for interface targets *)
            else if Kind_eqb (Type_Kind sliceElemType) KInterface
            then
              match forRange dataLen O
                      (fun i s =>
                         match Value_Index (with_val slice s) i with
                         | Some slot =>
                             match SetValue slot (Value_Index dataVal i) with
                             | Return x err => Return (store_index s i x) err
                             | Panic m => Panic m
                             end
                         | None => Panic "reflect: slice index out of range"
                         end)
                      (val slice) with
              | Return s None => SetValue rv (Some (with_val slice s))
              | Return _ (Some err) => Return (val rv) (Some err)
              | Panic m => Panic m
              end
            (* Regular conversion path: element-by-element with converters *)
            else
              match forRange dataLen O
                      (fun i s =>
                         match Value_Index dataVal i,
                               Value_Index (with_val slice s) i with
                         | Some src, Some slot =>
                             match self (Interface src) slot
                                        (elemPath fieldPath i) with
                             | Return x err => Return (store_index s i x) err
                             | Panic m => Panic m
                             end
                         | _, _ => Panic "reflect: slice index out of range"
                         end)
                      (val slice) with
              | Return s None => SetValue rv (Some (with_val slice s))
              | Return _ (Some err) => Return (val rv) (Some err)
              | Panic m => Panic m
              end
        end
  | _, _ => Panic "reflect.MakeSlice of non-slice type"
  end.

(** unmarshalSlice unmarshals a slice value. *)
Definition unmarshalSlice (data : value) (rv : Value) (fieldPath : string)
  : outcome :=
  match ValueOf data with
  | None => SetValue rv (Some (Zero (typ rv)))
  | Some dataVal =>
      if negb (Kind_eqb (Value_Kind dataVal) KSlice)
         && negb (Kind_eqb (Value_Kind dataVal) KArray)
      then Return (val rv) (Some (NewConversionError fieldPath data (typ rv) None))
      else
        let dataLen := Len dataVal in
        if Nat.eqb dataLen O
        then SetValue rv (MakeSlice (typ rv) O)
        else unmarshalSliceElements dataVal rv fieldPath dataLen
  end.

(** unmarshalEmbeddedField handles unmarshaling of embedded struct
    fields. *)
Definition unmarshalEmbeddedField (dataMap : option (list (value * value)))
  (fieldValue : Value) (field : FieldMetadata) (fieldPath : string)
  : outcome :=
  if negb (Kind_eqb (Type_Kind (Type_ field)) KStruct)
  then Return (val fieldValue) None
  else
    match (match MapIndex dataMap (StructFieldName field) with
           | Some nestedMap => asMapStringAny nestedMap
           | None => None
           end) with
    | Some nestedData =>
        (* Named embedded: unmarshal from nested map *)
        self (VMap mapStringAny nestedData) fieldValue fieldPath
    | None =>
        (* Anonymous embedded: pass entire data map (promoted fields) *)
        self (VMap mapStringAny dataMap) fieldValue fieldPath
    end.

(** The body of [unmarshalStruct]'s loop for one cached field: the
    outcome carries the struct after the step. *)
Definition unmarshalStruct_field (dataMap : option (list (value * value)))
  (rv : Value) (fieldPath : string) (field : FieldMetadata) : outcome :=
  match Field rv (Index field) with
  | None => Panic "reflect: Field index out of range"
  | Some fieldValue =>
      if Embedded field
      then
        match unmarshalEmbeddedField dataMap fieldValue field fieldPath with
        | Return x err => Return (store_field (val rv) (Index field) x) err
        | Panic m => Panic m
        end
      else
        match (match MapIndex dataMap (MapKey field) with
               | Some v => Some v
               | None => option_map GoString (Default field)
               end) with
        | None => Return (val rv) None
        | Some v =>
            let fullPath := buildFieldPath fieldPath (MapKey field) in
            match self v fieldValue fullPath with
            | Return x None =>
                Return (store_field (val rv) (Index field) x) None
            | Return x (Some err) =>
                Return (store_field (val rv) (Index field) x)
                       (Some (Errorf_wrap fullPath err))
            | Panic m => Panic m
            end
        end
  end.

(** [for _, field := range metadata.Fields { ... }]. *)
Fixpoint unmarshalStruct_fields (dataMap : option (list (value * value)))
  (rv : Value) (fieldPath : string) (fields : list FieldMetadata) : outcome :=
  match fields with
  | [] => Return (val rv) None
  | field :: rest =>
      match unmarshalStruct_field dataMap rv fieldPath field with
      | Return s None =>
          unmarshalStruct_fields dataMap (with_val rv s) fieldPath rest
      | stop => stop
      end
  end.

(** unmarshalStruct unmarshals a struct value using cached field
    metadata. *)
Definition unmarshalStruct (data : value) (rv : Value) (fieldPath : string)
  : outcome :=
  match asMapStringAny data with
  | None => Return (val rv) (Some (NewConversionError fieldPath data (typ rv) None))
  | Some dataMap =>
      let metadata := GetMetadata ParseWithName (fieldCache u) (typ rv) in
      unmarshalStruct_fields dataMap rv fieldPath (Fields metadata)
  end.

(** The body of [unmarshalValue]. *)
Definition unmarshalValue_body (data : value) (rv : Value)
  (fieldPath : string) : outcome :=
  if negb (CanSet rv) then Return (val rv) None
  else
    let kind := Value_Kind rv in
    let typ := typ rv in
    (* Direct assignment if types are compatible *)
    if (match TypeOf data with
        | Some dataType => AssignableTo dataType typ
        | None => false
        end)
    then SetValue rv (ValueOf data)
    else
      (* Try converter for the target type *)
      match Find (converters u) typ with
      | Some conv =>
          match conv data with
          | (_, Some err) =>
              Return (val rv) (Some (NewConversionError fieldPath data typ (Some err)))
          | (converted, None) => SetValue rv converted
          end
      | None =>
          match kind with
          | KPointer => unmarshalPtr data rv fieldPath
          | KSlice => unmarshalSlice data rv fieldPath
          | KStruct => unmarshalStruct data rv fieldPath
          | _ => Return (val rv) (Some (Errorf_noConverter fieldPath typ))
          end
      end.

End Body.

(** The recursion of [unmarshalValue]: every recursive call is on a
    slot of a type nested strictly deeper inside the current one, so
    [depth] many unfoldings of the body reach every call. *)
Fixpoint unmarshalValue_iter (n : nat) : value -> Value -> string -> outcome :=
  match n with
  | O => fun _ rv _ => Return (val rv) None
  | S n' => unmarshalValue_body (unmarshalValue_iter n')
  end.

(** unmarshalValue recursively unmarshals a value into the
    reflect.Value. *)
Definition unmarshalValue (data : value) (rv : Value) (fieldPath : string)
  : outcome :=
  unmarshalValue_iter (S (depth (typ rv))) data rv fieldPath.

(** Unmarshal transforms map[string]any into a Go struct pointed to by
    result.  The outcome carries [result] after the call: the pointer,
    with what it points to as the call left it. *)
Definition Unmarshal (data : option (list (value * value))) (result : value)
  : outcome :=
  match validateResultPointer result with
  | (_, Some err) => Return result (Some err)
  | (Some rv, None) =>
      match unmarshalValue (VMap mapStringAny data) rv EmptyString with
      | Return x err => Return (store_elem result x) err
      | Panic m => Panic m
      end
  | (None, None) => Panic "reflect: call of reflect.Value.Elem on invalid Value"
  end.

End Engine.

(* ================================================================== *)
(** ** Built-in integer converters *)
(* ================================================================== *)

(** Two's-complement wrap-around to [bits] bits. *)
Definition wrap_unsigned (bits n : Z) : Z := n mod 2 ^ bits.

Definition wrap_signed (bits n : Z) : Z :=
  (n + 2 ^ (bits - 1)) mod 2 ^ bits - 2 ^ (bits - 1).

Definition digit_of (c : ascii) : option Z :=
  let n := Z.of_nat (nat_of_ascii c) in
  if (48 <=? n) && (n <=? 57) then Some (n - 48) else None.

Fixpoint parseDigits (s : string) (acc : Z) : option Z :=
  match s with
  | EmptyString => Some acc
  | String c rest =>
      match digit_of c with
      | Some d => parseDigits rest (10 * acc + d)
      | None => None
      end
  end.

(** A decimal integer with an optional sign, as [strconv] reads one. *)
Definition parseDecimal (s : string) : option Z :=
  match s with
  | EmptyString => None
  | String "-" EmptyString | String "+" EmptyString => None
  | String "-" rest => option_map Z.opp (parseDigits rest 0)
  | String "+" rest => parseDigits rest 0
  | _ => parseDigits s 0
  end.

(** A finite float truncated toward zero (0 for infinities and NaN). *)
Definition truncate (f : spec_float) : Z :=
  match f with
  | S754_finite s m e =>
      let mag := if 0 <=? e then Z.pos m * 2 ^ e else Z.pos m / 2 ^ (- e) in
      if s then - mag else mag
  | _ => 0
  end.

Definition converted (t : rtype) (n : Z) : option Value * option error :=
  (Some (mkValue t (VInt t n) false false), None).

Definition failed (msg : string) : option Value * option error :=
  (None, Some (ErrorString msg)).

(** Modelled from the spec: the built-in converters to the signed
    integer types ([convertInt], [convertInt8], ...), whose bodies are
    not among the sources.  Integers of any width and signedness
    convert, floats are truncated toward zero, booleans become 0/1;
    strings are parsed as decimal integers and the result must fit the
    width or the conversion fails; the empty string gives 0
    (converter_numeric_test.go). *)
Definition convertSigned (t : rtype) (bits : Z) : Converter :=
  fun v =>
    match v with
    | VInt _ n => converted t (wrap_signed bits n)
    | VFloat _ f => converted t (wrap_signed bits (truncate f))
    | VBool _ b => converted t (if b then 1 else 0)
    | VString _ s =>
        if String.eqb s EmptyString then converted t 0
        else match parseDecimal s with
             | None => failed "invalid syntax"
             | Some n =>
                 if (- 2 ^ (bits - 1) <=? n) && (n <? 2 ^ (bits - 1))
                 then converted t n
                 else failed "value out of range"
             end
    | _ => failed "unsupported input type"
    end.

(** Modelled from the spec: the built-in converters to the unsigned
    integer types ([convertUint], [convertUint8], ...), whose bodies are
    not among the sources: as [convertSigned]; a negative input fails
    (converter_numeric_test.go). *)
Definition convertUnsigned (t : rtype) (bits : Z) : Converter :=
  fun v =>
    match v with
    | VInt _ n =>
        if n <? 0 then failed "negative value" else converted t (wrap_unsigned bits n)
    | VFloat _ f =>
        if truncate f <? 0 then failed "negative value"
        else converted t (wrap_unsigned bits (truncate f))
    | VBool _ b => converted t (if b then 1 else 0)
    | VString _ s =>
        if String.eqb s EmptyString then converted t 0
        else match parseDecimal s with
             | None => failed "invalid syntax"
             | Some n =>
                 if (0 <=? n) && (n <? 2 ^ bits)
                 then converted t n
                 else failed "value out of range"
             end
    | _ => failed "unsupported input type"
    end.

(** Modelled from the spec: the converters by name, one for each
    integer width, their bodies not being among the sources; [int] and
    [uint] are 64 bits wide. *)
Definition convertInt : Converter := convertSigned (TBasic BInt) 64.
Definition convertInt8 : Converter := convertSigned (TBasic BInt8) 8.
Definition convertInt16 : Converter := convertSigned (TBasic BInt16) 16.
Definition convertInt32 : Converter := convertSigned (TBasic BInt32) 32.
Definition convertInt64 : Converter := convertSigned (TBasic BInt64) 64.
Definition convertUint : Converter := convertUnsigned (TBasic BUint) 64.
Definition convertUint8 : Converter := convertUnsigned (TBasic BUint8) 8.
Definition convertUint16 : Converter := convertUnsigned (TBasic BUint16) 16.
Definition convertUint32 : Converter := convertUnsigned (TBasic BUint32) 32.
Definition convertUint64 : Converter := convertUnsigned (TBasic BUint64) 64.

(** Modelled from the spec: the integer rows of the fixed built-in
    table, which is not among the sources.  The table has rows for
    boolean, string, floating point, byte sequence and stream targets
    as well; these are not modelled.  No row targets a sequence of
    integers, a map, a pointer or a struct. *)
Definition integerConverters : list (rtype * Converter) :=
  [ (TBasic BInt, convertInt); (TBasic BInt8, convertInt8);
    (TBasic BInt16, convertInt16); (TBasic BInt32, convertInt32);
    (TBasic BInt64, convertInt64);
    (TBasic BUint, convertUint); (TBasic BUint8, convertUint8);
    (TBasic BUint16, convertUint16); (TBasic BUint32, convertUint32);
    (TBasic BUint64, convertUint64) ].

(** Modelled from the spec: [NewDefaultConverterRegistry], whose body
    is not among the sources: the default registry seeds the built-in
    table, then merges the additional mappings left to right, a later
    one overriding an earlier one for the same target type.  The
    built-in table, of which only the integer rows are modelled, is a
    parameter. *)
Definition NewDefaultConverterRegistry
  (builtinConverters : list (rtype * Converter))
  (additional : list (list (rtype * Converter))) : ConverterRegistry :=
  (List.concat (rev additional) ++ builtinConverters)%list.

(** NewDefaultUnmarshaler creates a new unmarshaler with default
    settings; the built-in table of its registry is a parameter. *)
Definition NewDefaultUnmarshaler
  (builtinConverters : list (rtype * Converter)) : Unmarshaler :=
  NewUnmarshaler NewDefaultStructMetadataCache
                 (NewDefaultConverterRegistry builtinConverters []).

(* ================================================================== *)
(** ** Induction on types *)
(* ================================================================== *)

(** Induction on types, through the field lists of struct types. *)
Section rtype_induction.

Variable P : rtype -> Prop.
Hypothesis HBasic : forall b, P (TBasic b).
Hypothesis HInterface : P TInterface.
Hypothesis HArray : forall n e, P e -> P (TArray n e).
Hypothesis HMap : forall k e, P k -> P e -> P (TMap k e).
Hypothesis HPointer : forall e, P e -> P (TPointer e).
Hypothesis HSlice : forall e, P e -> P (TSlice e).
Hypothesis HStruct : forall fs, Forall (fun p => P (snd p)) fs -> P (TStruct fs).
Hypothesis HNamed : forall n t, P t -> P (TNamed n t).

Fixpoint rtype_ind' (t : rtype) : P t :=
  match t with
  | TBasic b => HBasic b
  | TInterface => HInterface
  | TArray n e => HArray n e (rtype_ind' e)
  | TMap k e => HMap k e (rtype_ind' k) (rtype_ind' e)
  | TPointer e => HPointer e (rtype_ind' e)
  | TSlice e => HSlice e (rtype_ind' e)
  | TStruct fs =>
      HStruct fs
        ((fix all (l : list (FieldDecl * rtype)) : Forall (fun p => P (snd p)) l :=
            match l with
            | [] => Forall_nil _
            | p :: l' => Forall_cons p (rtype_ind' (snd p)) (all l')
            end) fs)
  | TNamed n t => HNamed n t (rtype_ind' t)
  end.

End rtype_induction.

(* ================================================================== *)
(** ** Vocabulary of the statements *)
(* ================================================================== *)

(** Two candidates for the recursive call agree below [rv] when they
    agree on every slot whose type is nested strictly inside [rv]'s. *)
Definition agree_below (rv : Value)
  (self1 self2 : value -> Value -> string -> outcome) : Prop :=
  forall d rv' p, (depth (typ rv') < depth (typ rv))%nat ->
                  self1 d rv' p = self2 d rv' p.

(** Two candidates for the recursive call agree on the slots that can
    be set. *)
Definition agree_settable
  (self1 self2 : value -> Value -> string -> outcome) : Prop :=
  forall d rv' p, CanSet rv' = true -> self1 d rv' p = self2 d rv' p.

(** [self], with a panic on every slot that cannot be set. *)
Definition only_settable (self : value -> Value -> string -> outcome)
  : value -> Value -> string -> outcome :=
  fun d rv p =>
    if CanSet rv then self d rv p
    else Panic "unmarshalValue on a slot that cannot be set".

(** A non-nil slice. *)
Definition isSliceValue (x : value) : Prop :=
  exists t l, x = VSlice t (Some l).

(** What a slot of type [t] holds after [x] is stored in it. *)
Definition stored (t : rtype) (x : value) : value :=
  if Kind_eqb (Type_Kind t) KInterface then x else retag t x.

(** The value is not directly assignable: it is nil, or its dynamic
    type is not assignable to the slot's type. *)
Definition notAssignable (data : value) (t : rtype) : Prop :=
  match TypeOf data with
  | Some dataType => AssignableTo dataType t = false
  | None => True
  end.

(** The outcome carries no validation error as its error. *)
Definition noValidationError (o : outcome) : Prop :=
  match o with
  | Return _ (Some err) => isValidationError err = false
  | _ => True
  end.

(** [reflect.ValueOf(result).Kind()]. *)
Definition Kind_of_any (x : value) : Kind :=
  match ValueOf x with
  | Some rv => Value_Kind rv
  | None => KInvalid
  end.

(** [result] is a nil pointer. *)
Definition isNilPointer (x : value) : bool :=
  match ValueOf x with
  | Some rv => Kind_eqb (Value_Kind rv) KPointer && IsNil rv
  | None => false
  end.

(** The value is a map with string keys, of whatever map type. *)
Definition isStringKeyedMap (data : value) : bool :=
  match data with
  | VMap t _ =>
      match underlying_of t with
      | TMap k _ => Kind_eqb (Type_Kind k) KString
      | _ => false
      end
  | _ => false
  end.

(** Field [i] of a struct value. *)
Definition field_at (s : value) (i : nat) : option value :=
  match s with
  | VStruct _ l => nth_error l i
  | _ => None
  end.

Section Vocabulary.

Variable ParseWithName : string -> tagparser.Tag * option error.
Variable u : Unmarshaler.

(** The key annotation asks to skip the field: its value is "-", or it
    parses, without error, to the canonical name "-". *)
Definition skipAnnotated (c : StructMetadataCache) (f : StructField) : Prop :=
  Tag_Get (Tag f) (tagName c) = "-"
  \/ (Tag_Get (Tag f) (tagName c) <> EmptyString
      /\ exists tag, ParseWithName (Tag_Get (Tag f) (tagName c)) = (tag, None)
                  /\ tagparser.Name tag = "-").

(** How the loop takes the outcome of decoding a field's value. *)
Definition decodedField (rv : Value) (path : string) (field : FieldMetadata)
  (fieldValue : Value) (v : value) : outcome :=
  match unmarshalValue ParseWithName u v fieldValue
                       (buildFieldPath path (MapKey field)) with
  | Return x None => Return (store_field (val rv) (Index field) x) None
  | Return x (Some err) =>
      Return (store_field (val rv) (Index field) x)
             (Some (Errorf_wrap (buildFieldPath path (MapKey field)) err))
  | Panic m => Panic m
  end.

End Vocabulary.

(* ================================================================== *)
(** ** Sample programs *)
(* ================================================================== *)

(** [field] with another default literal. *)
Definition withDefault (field : FieldMetadata) (d : option string)
  : FieldMetadata :=
  mkFieldMetadata (StructFieldName field) (MapKey field) (Index field)
                  (Type_ field) (Embedded field) d.

(** A tag parser for the examples: the canonical name is the text before
    the first comma, and parsing never fails. *)
Fixpoint beforeComma (s : string) : string :=
  match s with
  | EmptyString => EmptyString
  | String c rest =>
      if Ascii.eqb c "," then EmptyString else String c (beforeComma rest)
  end.

Definition sampleParseWithName (s : string) : tagparser.Tag * option error :=
  (tagparser.mkTag (beforeComma s) [], None).

Definition goInt : rtype := TBasic BInt.
Definition goString : rtype := TBasic BString.
Definition goBool : rtype := TBasic BBool.
Definition goFloat64 : rtype := TBasic BFloat64.

(** An exported, named field with the given tag. *)
Definition exported (name : string) (tag : StructTag) (t : rtype)
  : FieldDecl * rtype :=
  (mkFieldDecl name EmptyString tag false, t).

(** An exported embedded field: its name is the type's name. *)
Definition embedded (name : string) (tag : StructTag) (t : rtype)
  : FieldDecl * rtype :=
  (mkFieldDecl name EmptyString tag true, t).

(** A map[string]any literal. *)
Definition mapOf (entries : list (string * value))
  : option (list (value * value)) :=
  Some (map (fun kv => (GoString (fst kv), snd kv)) entries).

Definition anyMap (entries : list (string * value)) : value :=
  VMap mapStringAny (mapOf entries).

(** [&T{}]: a pointer to a fresh zero [T]. *)
Definition newOf (t : rtype) : value := VPtr (TPointer t) (Some (zero t)).

(** A settable slot of type [t] holding [x]. *)
Definition slot (t : rtype) (x : value) : Value := mkValue t x true false.

(** [type SliceInt struct { Values []int }]
    (TestUnmarshaler_Unmarshal_Slices). *)
Definition SliceInt : rtype :=
  TNamed "SliceInt" (TStruct [exported "Values" [] (TSlice goInt)]).

Definition intSlice (l : list Z) : value :=
  VSlice (TSlice goInt) (Some (map (VInt goInt) l)).

Definition anySlice (l : list value) : value :=
  VSlice (TSlice TInterface) (Some l).

(** The float64 3.0: 6755399441055744 * 2^-51. *)
Definition float3 : value :=
  VFloat goFloat64 (S754_finite false 6755399441055744 (-51)).

(** [type Nested struct { Inner struct { Value int `schema:"value"` }
    `schema:"inner"` }] (README, error messages). *)
Definition NestedInner : rtype :=
  TStruct [exported "Value" [("schema", "value")] goInt].

Definition Nested : rtype :=
  TNamed "Nested" (TStruct [exported "Inner" [("schema", "inner")] NestedInner]).

(** [type Metadata struct { Version, Author string }] and
    [type Document struct { Metadata; Title, Content string }]
    (TestUnmarshaler_Unmarshal_EmbeddedStructs). *)
Definition Metadata : rtype :=
  TNamed "Metadata"
    (TStruct [exported "Version" [("schema", "version")] goString;
              exported "Author" [("schema", "author")] goString]).

Definition Document : rtype :=
  TNamed "Document"
    (TStruct [embedded "Metadata" [] Metadata;
              exported "Title" [("schema", "title")] goString;
              exported "Content" [("schema", "content")] goString]).

(** [type CustomInt int] and
    [type Outer struct { CustomInt; Name string `schema:"name"` }]
    (TestUnmarshaler_Unmarshal_EmbeddedStructs_NonStruct). *)
Definition CustomInt : rtype := TNamed "CustomInt" goInt.

Definition Outer : rtype :=
  TNamed "Outer"
    (TStruct [embedded "CustomInt" [] CustomInt;
              exported "Name" [("schema", "name")] goString]).

(** [type Audited struct { Metadata `default:"v1"`; Count int
    `schema:"count" default:"42"`; Ignored int `schema:"-"` }]. *)
Definition Audited : rtype :=
  TNamed "Audited"
    (TStruct [embedded "Metadata" [("default", "v1")] Metadata;
              exported "Count" [("schema", "count"); ("default", "42")] goInt;
              exported "Ignored" [("schema", "-")] goInt]).

(** The descriptor entries of [Audited]'s first two fields. *)
Definition Audited_Metadata : FieldMetadata :=
  mkFieldMetadata "Metadata" "Metadata" 0 Metadata true (Some "v1").

Definition Audited_Count : FieldMetadata :=
  mkFieldMetadata "Count" "count" 1 goInt false (Some "42").

(** [type Dict map[string]string]-like values: string-keyed maps whose
    dynamic type is not [map[string]any]. *)
Definition mapStringString : rtype := TMap goString goString.

Definition stringMap (entries : list (string * string)) : value :=
  VMap mapStringString
       (Some (map (fun kv => (GoString (fst kv), GoString (snd kv))) entries)).

(** The engine of the examples: the default engine over the integer
    rows of the built-in table.  It has the default engine's converters
    for the integer types and none for any other type, where the
    default engine has converters for boolean, string, floating point,
    byte sequence and stream targets too.  The examples convert to
    integers only; where one shows a target without converter, the
    target is of a type for which the default engine has none
    either. *)
Definition sampleUnmarshaler : Unmarshaler :=
  NewDefaultUnmarshaler integerConverters.

(* ================================================================== *)
(** ** Vocabulary of the further properties *)
(* ================================================================== *)

(** [data] is a non-nil slice or an array of type [t] with the elements
    [l]. *)
Definition sequenceOf (data : value) (t : rtype) (l : list value) : Prop :=
  (data = VSlice t (Some l) /\ Type_Kind t = KSlice)
  \/ (data = VArray t l /\ Type_Kind t = KArray).

(** A fresh element of [reflect.MakeSlice]: a settable zero. *)
Definition elementSlot (elemType : rtype) : Value :=
  mkValue elemType (zero elemType) true false.

(** How decoding the elements of a sequence one by one ends. *)
Inductive elements : Type :=
| Elements (xs : list value)
| ElementError (err : error)
| ElementPanic (reason : string).

(** The elements [src], the first of index [i], decoded in order, each
    into a fresh zero element under the path of its index, up to the
    first that fails. *)
Fixpoint decodeElements (self : value -> Value -> string -> outcome)
  (elemType : rtype) (fieldPath : string) (i : nat) (src : list value)
  : elements :=
  match src with
  | [] => Elements []
  | x :: rest =>
      match self x (elementSlot elemType) (elemPath fieldPath i) with
      | Return y None =>
          match decodeElements self elemType fieldPath (S i) rest with
          | Elements ys => Elements (y :: ys)
          | stop => stop
          end
      | Return _ (Some err) => ElementError err
      | Panic m => ElementPanic m
      end
  end.

(** An error that the engine itself built: a conversion error, a
    no-converter error, or such an error wrapped by a field path. *)
Fixpoint engineError (e : error) : bool :=
  match e with
  | ConversionError _ _ _ _ => true
  | Errorf_noConverter _ _ => true
  | Errorf_wrap _ err => engineError err
  | _ => false
  end.

(** The path that the innermost error of the engine carries. *)
Fixpoint errorPath (e : error) : option string :=
  match e with
  | ConversionError p _ _ _ => Some p
  | Errorf_noConverter p _ => Some p
  | Errorf_wrap _ err => errorPath err
  | _ => None
  end.

(** A step of a field path: [.key] into the field of a struct, [[i]]
    into the element of a slice. *)
Inductive selector : Type :=
| FieldSelector (key : string)
| IndexSelector (i : nat).

(** The text of a selector, as [buildFieldPath] and the [Sprintf] of the
    element loop append it to a non-empty path. *)
Definition selectorText (sel : selector) : string :=
  match sel with
  | FieldSelector key => "." ++ key
  | IndexSelector i => "[" ++ NilEmpty.string_of_uint (Nat.to_uint i) ++ "]"
  end.

Fixpoint selectorsText (sels : list selector) : string :=
  match sels with
  | [] => EmptyString
  | sel :: rest => selectorText sel ++ selectorsText rest
  end.

(** The error of an outcome, if any, satisfies [Q] at the path of the
    call. *)
Definition errorAt (Q : string -> error -> Prop) (path : string)
  (o : outcome) : Prop :=
  match o with
  | Return _ (Some e) => Q path e
  | _ => True
  end.

(** A struct slot whose contents have one value for each declared
    field. *)
Definition wellShaped (rv : Value) : Prop :=
  exists tag l, val rv = VStruct tag l
                /\ List.length l = Type_NumField (typ rv).

Section FurtherVocabulary.

Variable ParseWithName : string -> tagparser.Tag * option error.

(** The key and the skip flag that [buildMetadata] computes for a
    field. *)
Definition keyOf (c : StructMetadataCache) (f : StructField) : string * bool :=
  if String.eqb (tagName c) "-" then (Name f, false)
  else parseFieldTag ParseWithName (Tag_Get (Tag f) (tagName c)) (Name f).

(** The descriptor entry of field [f], declared at index [i], under the
    key [key]. *)
Definition entryOf (c : StructMetadataCache) (i : nat) (f : StructField)
  (key : string) : FieldMetadata :=
  mkFieldMetadata (Name f) key i (Typ f) (Anonymous f)
                  (Tag_Lookup (Tag f) (defaultTagName c)).

End FurtherVocabulary.

(** A descriptor entry that the loop of [unmarshalStruct] passes over on
    the map [m]: a plain field whose key is absent and that has no
    default, or an embedded field that is not of struct kind. *)
Definition inert (m : option (list (value * value))) (fm : FieldMetadata)
  : Prop :=
  (Embedded fm = false /\ MapIndex m (MapKey fm) = None /\ Default fm = None)
  \/ (Embedded fm = true /\ Type_Kind (Type_ fm) <> KStruct).

(** An unexported field of package [main]. *)
Definition unexported (name : string) (tag : StructTag) (t : rtype)
  : FieldDecl * rtype :=
  (mkFieldDecl name "main" tag false, t).

(** [type Account struct { Name string; secret string }]. *)
Definition Account : rtype :=
  TNamed "Account"
    (TStruct [exported "Name" [] goString; unexported "secret" [] goString]).

(** [type Point struct { X int `schema:"x"`; Y int `schema:"y"` }]. *)
Definition Point : rtype :=
  TNamed "Point"
    (TStruct [exported "X" [("schema", "x")] goInt;
              exported "Y" [("schema", "y")] goInt]).

(** A converter registered for the record type [Audited] itself: it
    builds the record from the source mapping, reading its key
    "Ignored". *)
Definition convertAudited : Converter :=
  fun v =>
    match asMapStringAny v with
    | Some m =>
        match MapIndex m "Ignored" with
        | Some (VInt _ n) =>
            (Some (mkValue Audited
                     (VStruct Audited [zero Metadata; VInt goInt 0; VInt goInt n])
                     false false), None)
        | _ => (Some (Zero Audited), None)
        end
    | None => (None, Some (ErrorString "unsupported input type"))
    end.

(** An engine with the default cache and that converter alone. *)
Definition auditedUnmarshaler : Unmarshaler :=
  NewUnmarshaler NewDefaultStructMetadataCache
                 (NewConverterRegistry [(Audited, convertAudited)]).

(** A cache that does not read tags. *)
Definition untaggedCache : StructMetadataCache :=
  NewStructMetadataCache "-" DefaultValueTagName.

(* ================================================================== *)
(** ** Properties of the reflect model *)
(* ================================================================== *)


Lemma Kind_eqb_eq (a b : Kind) : Kind_eqb a b = true <-> a = b.
Proof.
  split.
  - destruct a, b; simpl; intro H; try reflexivity; discriminate H.
  - intros ->. destruct b; reflexivity.
Qed.

Lemma Basic_eqb_eq (a b : Basic) : Basic_eqb a b = true <-> a = b.
Proof.
  unfold Basic_eqb. split.
  - destruct a, b; simpl; intro H; try reflexivity; discriminate H.
  - intros ->. destruct b; reflexivity.
Qed.

Lemma Tag_eqb_eq (a b : StructTag) : Tag_eqb a b = true <-> a = b.
Proof.
  revert b. induction a as [|[k v] a IH]; intros [|[k' v'] b]; simpl;
    split; intro H; try reflexivity; try discriminate H.
  - apply andb_true_iff in H as [H Hab]. apply andb_true_iff in H as [Hk Hv].
    apply String.eqb_eq in Hk, Hv. apply IH in Hab. congruence.
  - inversion H; subst. rewrite !String.eqb_refl. simpl. apply IH. reflexivity.
Qed.

Lemma FieldDecl_eqb_eq (a b : FieldDecl) : FieldDecl_eqb a b = true <-> a = b.
Proof.
  unfold FieldDecl_eqb. destruct a as [n p t an], b as [n' p' t' an']; simpl.
  rewrite !andb_true_iff, !String.eqb_eq, Tag_eqb_eq, Bool.eqb_true_iff.
  split.
  - intros [[[-> ->] ->] ->]. reflexivity.
  - intro H. inversion H. auto.
Qed.

(** Type identity as computed is equality of the type trees. *)
Lemma rtype_eqb_eq (a b : rtype) : rtype_eqb a b = true <-> a = b.
Proof.
  revert b. induction a using rtype_ind';
    intros b'; destruct b' as [b'| |n' e'|k' e'|e'|e'|gs|n' t']; simpl;
    try (split; intro E; discriminate E).
  - rewrite Basic_eqb_eq. split; congruence.
  - split; reflexivity.
  - rewrite andb_true_iff, Nat.eqb_eq, IHa. split; [intros [-> ->]|intro E; inversion E]; auto.
  - rewrite andb_true_iff, IHa1, IHa2. split; [intros [-> ->]|intro E; inversion E]; auto.
  - rewrite IHa. split; congruence.
  - rewrite IHa. split; congruence.
  - revert gs.
    induction H as [|[d x] fs Hx Hfs IH]; intros [|[e y] gs]; simpl.
    + split; reflexivity.
    + split; intro E; discriminate E.
    + split; intro E; discriminate E.
    + simpl in Hx. rewrite !andb_true_iff, FieldDecl_eqb_eq, Hx, IH.
      split; [intros [[-> ->] E]; inversion E|intro E; inversion E]; auto.
  - rewrite andb_true_iff, String.eqb_eq, IHa. split; [intros [-> ->]|intro E; inversion E]; auto.
Qed.

Lemma rtype_eqb_refl (t : rtype) : rtype_eqb t t = true.
Proof. apply rtype_eqb_eq. reflexivity. Qed.

Lemma AssignableTo_refl (t : rtype) : AssignableTo t t = true.
Proof. unfold AssignableTo, directlyAssignable. rewrite rtype_eqb_refl. reflexivity. Qed.

Lemma depth_underlying_of (t : rtype) : (depth (underlying_of t) <= depth t)%nat.
Proof. induction t; simpl; lia. Qed.

Lemma Type_Elem_depth (t e : rtype) :
  Type_Elem t = Some e -> (depth e < depth t)%nat.
Proof.
  unfold Type_Elem. intro H. pose proof (depth_underlying_of t) as Hu.
  destruct (underlying_of t); inversion H; subst; simpl in Hu; lia.
Qed.

Lemma list_max_In (l : list nat) (n : nat) : In n l -> (n <= list_max l)%nat.
Proof.
  induction l as [|m l IH]; simpl; [intros []|intros [E|Hin]].
  - subst. lia.
  - specialize (IH Hin). lia.
Qed.

Lemma Type_Field_depth (t : rtype) (i : nat) (f : StructField) :
  Type_Field t i = Some f -> (depth (Typ f) < depth t)%nat.
Proof.
  unfold Type_Field, Type_Fields. intro H.
  pose proof (depth_underlying_of t) as Hu.
  destruct (underlying_of t) as [| | | | | |fs|]; try (destruct i; discriminate H).
  apply nth_error_In in H. apply in_map_iff in H as [p [<- Hp]].
  simpl in *. assert (depth (snd p) <= list_max (map (fun p => depth (snd p)) fs))%nat.
  { apply list_max_In. apply in_map_iff. exists p. auto. }
  lia.
Qed.

Lemma Elem_depth (v p : Value) : Elem v = Some p -> (depth (typ p) < depth (typ v))%nat.
Proof.
  unfold Elem. destruct (Type_Elem (typ v)) as [e|] eqn:He; [|discriminate].
  apply Type_Elem_depth in He.
  destruct (val v) as [| | | | |t [x|]| | | |]; try discriminate.
  destruct (Kind_eqb _ _); [|discriminate].
  intro H; inversion H; subst; simpl. exact He.
Qed.

Lemma Value_Index_depth (v s : Value) (i : nat) :
  Value_Index v i = Some s -> (depth (typ s) < depth (typ v))%nat.
Proof.
  unfold Value_Index. destruct (Type_Elem (typ v)) as [e|] eqn:He; [|discriminate].
  apply Type_Elem_depth in He.
  destruct (val v) as [| | | | | |t [l|]|t l| |]; try discriminate;
    (destruct (nth_error l i); [|discriminate]);
    intro H; inversion H; subst; simpl; exact He.
Qed.

Lemma Field_depth (v f : Value) (i : nat) :
  Field v i = Some f -> (depth (typ f) < depth (typ v))%nat.
Proof.
  unfold Field. destruct (Type_Field (typ v) i) as [sf|] eqn:Hf; [|discriminate].
  apply Type_Field_depth in Hf.
  destruct (val v) as [| | | | | | | | |t l]; try discriminate.
  destruct (nth_error l i); [|discriminate].
  intro H; inversion H; subst; simpl. exact Hf.
Qed.

Lemma forRange_ext (n i : nat) (body1 body2 : nat -> value -> outcome) (s : value) :
  (forall j x, body1 j x = body2 j x) ->
  forRange n i body1 s = forRange n i body2 s.
Proof.
  intro Hb. revert i s. induction n as [|n IH]; intros i s; simpl; [reflexivity|].
  rewrite Hb. destruct (body2 i s) as [s' [e|]|m]; auto.
Qed.

(* ================================================================== *)
(** ** The metadata cache is transparent *)
(* ================================================================== *)

(** On a coherent table, [GetMetadata] returns what [buildMetadata]
    gives and leaves the table coherent; the empty table is coherent. *)
Lemma GetMetadata_stored_spec ParseWithName c table t :
  coherent ParseWithName c table ->
  fst (GetMetadata_stored ParseWithName c table t) = GetMetadata ParseWithName c t
  /\ coherent ParseWithName c (snd (GetMetadata_stored ParseWithName c table t)).
Proof.
  intro Hc. unfold GetMetadata_stored, LoadOrStore, GetMetadata.
  destruct (Load table t) as [m|] eqn:E; simpl.
  - split; [apply Hc; exact E|exact Hc].
  - split; [reflexivity|].
    intros t' m'. simpl. destruct (rtype_eqb t t') eqn:Et.
    + intro H; inversion H; subst. apply rtype_eqb_eq in Et. subst. reflexivity.
    + apply Hc.
Qed.

Lemma coherent_empty ParseWithName c : coherent ParseWithName c [].
Proof. intros t m H. discriminate H. Qed.

(* ================================================================== *)
(** ** The recursion of [unmarshalValue] *)
(* ================================================================== *)

Section Recursion.

Variable ParseWithName : string -> tagparser.Tag * option error.
Variable u : Unmarshaler.


Lemma unmarshalPtr_ext self1 self2 data rv path :
  agree_below rv self1 self2 ->
  unmarshalPtr self1 data rv path = unmarshalPtr self2 data rv path.
Proof.
  intro H. unfold unmarshalPtr.
  destruct data; try reflexivity;
    (match goal with |- context [if IsNil rv then ?a else ?b] =>
       destruct (if IsNil rv then a else b) as [q e|msg]; [|reflexivity] end;
     destruct (Elem (with_val rv q)) as [pointee|] eqn:E; [|reflexivity];
     rewrite (H _ pointee path); [reflexivity|];
     apply Elem_depth in E; exact E).
Qed.

Lemma unmarshalSliceElements_ext self1 self2 dataVal rv path n :
  agree_below rv self1 self2 ->
  unmarshalSliceElements self1 dataVal rv path n
  = unmarshalSliceElements self2 dataVal rv path n.
Proof.
  intro H. unfold unmarshalSliceElements.
  destruct (MakeSlice (typ rv) n) as [slice|] eqn:Hs; [|reflexivity].
  destruct (Type_Elem (typ rv)) as [se|]; [|reflexivity].
  destruct (AssignableTo _ _); [reflexivity|].
  destruct (Type_Elem (typ dataVal)) as [de|]; [|reflexivity].
  destruct (rtype_eqb de se); [reflexivity|].
  destruct (Kind_eqb _ _); [reflexivity|].
  assert (Hty : typ slice = typ rv).
  { unfold MakeSlice in Hs. destruct (underlying_of (typ rv)); inversion Hs. reflexivity. }
  match goal with |- match forRange _ _ ?b1 _ with _ => _ end
                     = match forRange _ _ ?b2 _ with _ => _ end =>
    rewrite (forRange_ext n O b1 b2) end; [reflexivity|].
  intros j x. destruct (Value_Index dataVal j) as [src|]; [|reflexivity].
  destruct (Value_Index (with_val slice x) j) as [slot|] eqn:E; [|reflexivity].
  rewrite (H _ slot); [reflexivity|].
  apply Value_Index_depth in E. simpl in E. rewrite Hty in E. exact E.
Qed.

Lemma unmarshalSlice_ext self1 self2 data rv path :
  agree_below rv self1 self2 ->
  unmarshalSlice self1 data rv path = unmarshalSlice self2 data rv path.
Proof.
  intro H. unfold unmarshalSlice.
  destruct (ValueOf data); [|reflexivity].
  destruct (_ && _); [reflexivity|].
  destruct (Nat.eqb _ _); [reflexivity|].
  apply unmarshalSliceElements_ext. exact H.
Qed.

Lemma unmarshalEmbeddedField_ext self1 self2 dataMap fieldValue field path :
  (forall d p, self1 d fieldValue p = self2 d fieldValue p) ->
  unmarshalEmbeddedField self1 dataMap fieldValue field path
  = unmarshalEmbeddedField self2 dataMap fieldValue field path.
Proof.
  intro H. unfold unmarshalEmbeddedField.
  destruct (negb _); [reflexivity|].
  destruct (match MapIndex dataMap (StructFieldName field) with
            | Some nestedMap => asMapStringAny nestedMap | None => None end);
    apply H.
Qed.

Lemma unmarshalStruct_field_ext self1 self2 dataMap rv path field :
  agree_below rv self1 self2 ->
  unmarshalStruct_field self1 dataMap rv path field
  = unmarshalStruct_field self2 dataMap rv path field.
Proof.
  intro H. unfold unmarshalStruct_field.
  destruct (Field rv (Index field)) as [fv|] eqn:E; [|reflexivity].
  apply Field_depth in E.
  destruct (Embedded field).
  - rewrite (unmarshalEmbeddedField_ext self1 self2); [reflexivity|].
    intros d p. apply H. exact E.
  - destruct (match MapIndex dataMap (MapKey field) with
              | Some v => Some v | None => option_map GoString (Default field) end);
      [|reflexivity].
    rewrite (H _ fv); [reflexivity|exact E].
Qed.

Lemma unmarshalStruct_fields_ext self1 self2 dataMap rv path fields :
  agree_below rv self1 self2 ->
  unmarshalStruct_fields self1 dataMap rv path fields
  = unmarshalStruct_fields self2 dataMap rv path fields.
Proof.
  revert rv. induction fields as [|f rest IH]; intros rv H; simpl; [reflexivity|].
  rewrite (unmarshalStruct_field_ext self1 self2 dataMap rv path f H).
  destruct (unmarshalStruct_field self2 dataMap rv path f) as [s [e|]|m]; try reflexivity.
  apply IH. exact H.
Qed.

Lemma unmarshalStruct_ext self1 self2 data rv path :
  agree_below rv self1 self2 ->
  unmarshalStruct ParseWithName u self1 data rv path
  = unmarshalStruct ParseWithName u self2 data rv path.
Proof.
  intro H. unfold unmarshalStruct.
  destruct (asMapStringAny data); [|reflexivity].
  apply unmarshalStruct_fields_ext. exact H.
Qed.

Lemma unmarshalValue_body_ext self1 self2 data rv path :
  agree_below rv self1 self2 ->
  unmarshalValue_body ParseWithName u self1 data rv path
  = unmarshalValue_body ParseWithName u self2 data rv path.
Proof.
  intro H. unfold unmarshalValue_body.
  destruct (negb (CanSet rv)); [reflexivity|].
  destruct (match TypeOf data with
            | Some dataType => AssignableTo dataType (typ rv) | None => false end);
    [reflexivity|].
  destruct (Find (converters u) (typ rv)); [reflexivity|].
  destruct (Value_Kind rv); try reflexivity.
  - apply unmarshalPtr_ext; exact H.
  - apply unmarshalSlice_ext; exact H.
  - apply unmarshalStruct_ext; exact H.
Qed.

(** Beyond the depth of the slot's type, further unfoldings change
    nothing. *)
Lemma unmarshalValue_iter_stable (k : nat) :
  forall n m data rv path,
    (depth (typ rv) <= k)%nat ->
    (depth (typ rv) < n)%nat -> (depth (typ rv) < m)%nat ->
    unmarshalValue_iter ParseWithName u n data rv path
    = unmarshalValue_iter ParseWithName u m data rv path.
Proof.
  induction k as [|k IH]; intros n m data rv path Hk Hn Hm;
    (destruct n as [|n]; [lia|]); (destruct m as [|m]; [lia|]); simpl;
    apply unmarshalValue_body_ext; intros d rv' p Hlt.
  - lia.
  - apply IH; lia.
Qed.

(** [unmarshalValue] satisfies its defining equation: it is its body,
    with itself for the recursive calls. *)
Lemma unmarshalValue_unfold data rv path :
  unmarshalValue ParseWithName u data rv path
  = unmarshalValue_body ParseWithName u (unmarshalValue ParseWithName u)
                        data rv path.
Proof.
  unfold unmarshalValue at 1. simpl.
  apply unmarshalValue_body_ext. intros d rv' p Hlt.
  unfold unmarshalValue.
  apply (unmarshalValue_iter_stable (depth (typ rv'))); lia.
Qed.

End Recursion.

(* ================================================================== *)
(** ** Assignment *)
(* ================================================================== *)


Lemma SetValue_assignable (rv x : Value) :
  CanSet rv = true -> flagRO x = false ->
  AssignableTo (typ x) (typ rv) = true ->
  SetValue rv (Some x) = Return (stored (typ rv) (val x)) None.
Proof.
  intros Hs Hro Ha. unfold SetValue, assignTo, stored.
  rewrite Hs, Hro, Ha. reflexivity.
Qed.

Lemma SetValue_ValueOf (rv : Value) (data : value) (dt : rtype) :
  CanSet rv = true -> TypeOf data = Some dt ->
  AssignableTo dt (typ rv) = true ->
  SetValue rv (ValueOf data) = Return (stored (typ rv) data) None.
Proof.
  intros Hs Ht Ha. unfold ValueOf. rewrite Ht.
  apply SetValue_assignable; simpl; auto.
Qed.

(** The types of interface kind are those whose underlying type is the
    empty interface. *)
Lemma implements_Kind (T V : rtype) :
  implements T V = Kind_eqb (Type_Kind T) KInterface.
Proof.
  unfold implements, Type_Kind.
  destruct (underlying_of T) as [b| | | | | | |]; try reflexivity.
  destruct b; reflexivity.
Qed.

(** A type assignable to a non-interface type has that type's kind. *)
Lemma AssignableTo_Kind (V T : rtype) :
  AssignableTo V T = true -> Type_Kind T <> KInterface ->
  Type_Kind V = Type_Kind T.
Proof.
  unfold AssignableTo, directlyAssignable. rewrite implements_Kind.
  intros H Hk.
  apply orb_true_iff in H as [H|H].
  - destruct (rtype_eqb T V) eqn:E.
    + apply rtype_eqb_eq in E. subst. reflexivity.
    + destruct (hasName T && hasName V); simpl in H; [discriminate|].
      destruct (Kind_eqb (Type_Kind T) (Type_Kind V)) eqn:Ek; simpl in H;
        [|discriminate].
      apply Kind_eqb_eq in Ek. auto.
  - apply Kind_eqb_eq in H. contradiction.
Qed.

Lemma zeroAs_slice (tag shape e : rtype) :
  underlying_of shape = TSlice e -> zeroAs tag shape = VSlice tag None.
Proof.
  induction shape; simpl; intro H; try discriminate; auto.
Qed.

Lemma Type_Kind_slice (t : rtype) :
  Type_Kind t = KSlice -> exists e, underlying_of t = TSlice e.
Proof.
  unfold Type_Kind. destruct (underlying_of t) as [b| | | | |e| |];
    try discriminate; [destruct b; discriminate|]. eauto.
Qed.

Lemma with_val_same (rv : Value) : with_val rv (val rv) = rv.
Proof. destruct rv; reflexivity. Qed.

(* ================================================================== *)
(** ** Precedence of direct assignment and converters *)
(* ================================================================== *)

Section Precedence.

Variable ParseWithName : string -> tagparser.Tag * option error.
Variable u : Unmarshaler.

Lemma unmarshalValue_not_settable data rv path :
  CanSet rv = false ->
  unmarshalValue ParseWithName u data rv path = Return (val rv) None.
Proof.
  intro H. rewrite unmarshalValue_unfold. unfold unmarshalValue_body.
  rewrite H. reflexivity.
Qed.

Lemma unmarshalValue_assignable data rv path dt :
  CanSet rv = true -> TypeOf data = Some dt ->
  AssignableTo dt (typ rv) = true ->
  unmarshalValue ParseWithName u data rv path
  = Return (stored (typ rv) data) None.
Proof.
  intros Hs Ht Ha. rewrite unmarshalValue_unfold. unfold unmarshalValue_body.
  rewrite Hs, Ht, Ha. simpl. eapply SetValue_ValueOf; eauto.
Qed.


Lemma notAssignable_test data t :
  notAssignable data t ->
  match TypeOf data with
  | Some dataType => AssignableTo dataType t
  | None => false
  end = false.
Proof. unfold notAssignable. destruct (TypeOf data); auto. Qed.

Lemma unmarshalValue_converter data rv path conv :
  CanSet rv = true -> notAssignable data (typ rv) ->
  Find (converters u) (typ rv) = Some conv ->
  unmarshalValue ParseWithName u data rv path
  = match conv data with
    | (_, Some err) =>
        Return (val rv) (Some (NewConversionError path data (typ rv) (Some err)))
    | (converted, None) => SetValue rv converted
    end.
Proof.
  intros Hs Hn Hf. rewrite unmarshalValue_unfold. unfold unmarshalValue_body.
  rewrite Hs, (notAssignable_test _ _ Hn), Hf. simpl.
  destruct (conv data) as [c [e|]]; reflexivity.
Qed.

Lemma unmarshalValue_dispatch data rv path :
  CanSet rv = true -> notAssignable data (typ rv) ->
  Find (converters u) (typ rv) = None ->
  unmarshalValue ParseWithName u data rv path
  = match Value_Kind rv with
    | KPointer => unmarshalPtr (unmarshalValue ParseWithName u) data rv path
    | KSlice => unmarshalSlice (unmarshalValue ParseWithName u) data rv path
    | KStruct =>
        unmarshalStruct ParseWithName u (unmarshalValue ParseWithName u)
                        data rv path
    | _ => Return (val rv) (Some (Errorf_noConverter path (typ rv)))
    end.
Proof.
  intros Hs Hn Hf. rewrite unmarshalValue_unfold. unfold unmarshalValue_body.
  rewrite Hs, (notAssignable_test _ _ Hn), Hf. reflexivity.
Qed.

(** C1.  Resolve obeys the precedence.  A slot that cannot be set is
    left alone, without error.  On a slot that can be set (every slot
    the engine reaches is one): a non-nil value whose dynamic type is
    assignable to the slot's type is stored as it is, whatever the
    registry holds; otherwise a converter registered for the slot's type
    alone decides: its result is stored by [rv.Set], or its failure
    comes back as a conversion error built from the path, the value, the
    type and the cause; the kind of the slot and the struct metadata
    play no part. *)
Theorem C1_resolve_precedence (data : value) (rv : Value) (path : string) :
  (CanSet rv = false ->
   unmarshalValue ParseWithName u data rv path = Return (val rv) None)
  /\
  (CanSet rv = true ->
   forall dt, TypeOf data = Some dt -> AssignableTo dt (typ rv) = true ->
     unmarshalValue ParseWithName u data rv path
     = Return (stored (typ rv) data) None)
  /\
  (CanSet rv = true ->
   forall conv,
     notAssignable data (typ rv) ->
     Find (converters u) (typ rv) = Some conv ->
     (forall converted,
        conv data = (converted, None) ->
        unmarshalValue ParseWithName u data rv path = SetValue rv converted)
     /\
     (forall x,
        conv data = (Some x, None) -> flagRO x = false ->
        AssignableTo (typ x) (typ rv) = true ->
        unmarshalValue ParseWithName u data rv path
        = Return (stored (typ rv) (val x)) None)
     /\
     (forall converted cause,
        conv data = (converted, Some cause) ->
        unmarshalValue ParseWithName u data rv path
        = Return (val rv)
                 (Some (ConversionError (if String.eqb path EmptyString then "root" else path)
                                        data (typ rv) (Some cause))))).
Proof.
  split; [|split].
  - apply unmarshalValue_not_settable.
  - intros Hs dt Ht Ha. eapply unmarshalValue_assignable; eauto.
  - intros Hs conv Hn Hf.
    pose proof (unmarshalValue_converter data rv path conv Hs Hn Hf) as E.
    repeat split.
    + intros c Hc. rewrite E, Hc. reflexivity.
    + intros x Hc Hro Ha. rewrite E, Hc. apply SetValue_assignable; auto.
    + intros c cause Hc. rewrite E, Hc. reflexivity.
Qed.

End Precedence.

(* ================================================================== *)
(** ** Validation of the result pointer *)
(* ================================================================== *)




Lemma SetValue_noValidationError rv x : noValidationError (SetValue rv x).
Proof.
  unfold SetValue. destruct (negb (CanSet rv)); simpl; auto.
  destruct x as [xv|]; simpl; auto.
  destruct (flagRO xv); simpl; auto.
  destruct (assignTo (typ rv) xv); simpl; auto.
Qed.

Lemma forRange_noValidationError n i body s :
  (forall j x, noValidationError (body j x)) ->
  noValidationError (forRange n i body s).
Proof.
  intro Hb. revert i s. induction n as [|n IH]; intros i s; simpl; auto.
  specialize (Hb i s). destruct (body i s) as [s' [e|]|m]; simpl in *; auto.
Qed.

Section Validation.

Variable ParseWithName : string -> tagparser.Tag * option error.
Variable u : Unmarshaler.

Section Body.

Variable self : value -> Value -> string -> outcome.
Hypothesis Hself : forall d rv p, noValidationError (self d rv p).

Lemma unmarshalPtr_noValidationError data rv path :
  noValidationError (unmarshalPtr self data rv path).
Proof.
  unfold unmarshalPtr.
  destruct data; try apply SetValue_noValidationError;
    (match goal with |- context [if IsNil rv then ?a else ?b] =>
       destruct (if IsNil rv then a else b) as [q e|msg]; simpl; auto end;
     destruct (Elem (with_val rv q)) as [pointee|]; simpl; auto;
     match goal with |- context [self ?d pointee path] =>
       pose proof (Hself d pointee path) as Hv;
       destruct (self d pointee path) as [x [e'|]|m']; simpl in *; auto end).
Qed.

Lemma unmarshalSliceElements_noValidationError dataVal rv path n :
  noValidationError (unmarshalSliceElements self dataVal rv path n).
Proof.
  unfold unmarshalSliceElements.
  destruct (MakeSlice (typ rv) n) as [slice|]; simpl; auto.
  destruct (Type_Elem (typ rv)) as [se|]; simpl; auto.
  destruct (AssignableTo _ _); [apply SetValue_noValidationError|].
  destruct (Type_Elem (typ dataVal)) as [de|]; simpl; auto.
  destruct (rtype_eqb de se); [apply SetValue_noValidationError|].
  destruct (Kind_eqb _ _).
  - match goal with |- context [forRange n O ?b ?s] =>
      pose proof (forRange_noValidationError n O b s) as Hl;
      destruct (forRange n O b s) as [s' [e|]|m] end;
      simpl; auto; try apply SetValue_noValidationError.
    apply Hl. intros j x.
    destruct (Value_Index (with_val slice x) j) as [sl|]; simpl; auto.
    pose proof (SetValue_noValidationError sl (Value_Index dataVal j)) as Hv.
    destruct (SetValue sl (Value_Index dataVal j)) as [y [e'|]|m']; simpl in *; auto.
  - match goal with |- context [forRange n O ?b ?s] =>
      pose proof (forRange_noValidationError n O b s) as Hl;
      destruct (forRange n O b s) as [s' [e|]|m] end;
      simpl; auto; try apply SetValue_noValidationError.
    apply Hl. intros j x.
    destruct (Value_Index dataVal j) as [src|]; simpl; auto.
    destruct (Value_Index (with_val slice x) j) as [sl|]; simpl; auto.
    specialize (Hself (Interface src) sl (elemPath path j)).
    destruct (self (Interface src) sl (elemPath path j)) as [y [e'|]|m']; simpl in *; auto.
Qed.

Lemma unmarshalSlice_noValidationError data rv path :
  noValidationError (unmarshalSlice self data rv path).
Proof.
  unfold unmarshalSlice.
  destruct (ValueOf data); [|apply SetValue_noValidationError].
  destruct (_ && _); simpl; auto.
  destruct (Nat.eqb _ _); [apply SetValue_noValidationError|].
  apply unmarshalSliceElements_noValidationError.
Qed.

Lemma unmarshalStruct_field_noValidationError dataMap rv path field :
  noValidationError (unmarshalStruct_field self dataMap rv path field).
Proof.
  unfold unmarshalStruct_field.
  destruct (Field rv (Index field)) as [fv|]; simpl; auto.
  destruct (Embedded field).
  - unfold unmarshalEmbeddedField.
    destruct (negb _); simpl; auto.
    destruct (match MapIndex dataMap (StructFieldName field) with
              | Some nestedMap => asMapStringAny nestedMap | None => None end);
      match goal with |- context [self ?d fv path] =>
        pose proof (Hself d fv path) as Hv;
        destruct (self d fv path) as [y [e'|]|m']; simpl in *; auto end.
  - destruct (match MapIndex dataMap (MapKey field) with
              | Some v => Some v | None => option_map GoString (Default field) end)
      as [v|]; simpl; auto.
    destruct (self v fv (buildFieldPath path (MapKey field))) as [y [e'|]|m'];
      simpl; auto.
Qed.

Lemma unmarshalStruct_fields_noValidationError dataMap rv path fields :
  noValidationError (unmarshalStruct_fields self dataMap rv path fields).
Proof.
  revert rv. induction fields as [|f rest IH]; intro rv; simpl; auto.
  pose proof (unmarshalStruct_field_noValidationError dataMap rv path f) as Hf.
  destruct (unmarshalStruct_field self dataMap rv path f) as [s [e|]|m];
    simpl in *; auto.
Qed.

Lemma unmarshalValue_body_noValidationError data rv path :
  noValidationError (unmarshalValue_body ParseWithName u self data rv path).
Proof.
  unfold unmarshalValue_body.
  destruct (negb (CanSet rv)); simpl; auto.
  destruct (match TypeOf data with
            | Some dataType => AssignableTo dataType (typ rv) | None => false end);
    [apply SetValue_noValidationError|].
  destruct (Find (converters u) (typ rv)) as [conv|].
  - destruct (conv data) as [c [e|]]; simpl; auto.
    apply SetValue_noValidationError.
  - destruct (Value_Kind rv); simpl; auto.
    + apply unmarshalPtr_noValidationError.
    + apply unmarshalSlice_noValidationError.
    + unfold unmarshalStruct. destruct (asMapStringAny data); simpl; auto.
      apply unmarshalStruct_fields_noValidationError.
Qed.

End Body.

Lemma unmarshalValue_iter_noValidationError n :
  forall data rv path,
    noValidationError (unmarshalValue_iter ParseWithName u n data rv path).
Proof.
  induction n as [|n IH]; intros data rv path; simpl; auto.
  apply unmarshalValue_body_noValidationError. exact IH.
Qed.

Lemma unmarshalValue_noValidationError data rv path :
  noValidationError (unmarshalValue ParseWithName u data rv path).
Proof. apply unmarshalValue_iter_noValidationError. Qed.

(** C8.  A destination that is not a pointer, or is a nil pointer, makes
    [Unmarshal] return the corresponding validation error at once: the
    result does not depend on the source mapping and the destination
    comes back as it was.  For a non-nil pointer the error [Unmarshal]
    returns, if any, is not a validation error. *)
Theorem C8_result_pointer_validation
  (data : option (list (value * value))) (result : value) :
  (Kind_of_any result <> KPointer ->
   Unmarshal ParseWithName u data result
   = Return result (Some (ValidationError "result must be a pointer")))
  /\
  (isNilPointer result = true ->
   Unmarshal ParseWithName u data result
   = Return result (Some (ValidationError "result pointer is nil")))
  /\
  (Kind_of_any result = KPointer -> isNilPointer result = false ->
   noValidationError (Unmarshal ParseWithName u data result)).
Proof.
  unfold Kind_of_any, isNilPointer, Unmarshal, validateResultPointer.
  destruct (ValueOf result) as [rv|]; (split; [|split]).
  - intro Hk. destruct (Kind_eqb (Value_Kind rv) KPointer) eqn:E.
    + apply Kind_eqb_eq in E. contradiction.
    + reflexivity.
  - intro Hn. apply andb_true_iff in Hn as [Hk Hn]. rewrite Hk, Hn. reflexivity.
  - intros Hk Hn. apply Kind_eqb_eq in Hk. rewrite Hk in *. simpl in *.
    rewrite Hn. destruct (Elem rv) as [p|]; simpl; auto.
    pose proof (unmarshalValue_noValidationError (VMap mapStringAny data) p EmptyString) as Hv.
    destruct (unmarshalValue _ _ _ p EmptyString) as [x [e|]|m]; simpl in *; auto.
  - intros _. reflexivity.
  - intro H. discriminate H.
  - intro H. discriminate H.
Qed.

End Validation.

(* ================================================================== *)
(** ** Sequence and record slots without a converter *)
(* ================================================================== *)


(** [NewConversionError] with its root sentinel spelled out. *)
Lemma NewConversionError_eq path v t cause :
  NewConversionError path v t cause
  = ConversionError (if String.eqb path EmptyString then "root" else path) v t cause.
Proof. reflexivity. Qed.

Lemma SetValue_Zero_slice rv :
  CanSet rv = true -> Value_Kind rv = KSlice ->
  SetValue rv (Some (Zero (typ rv))) = Return (VSlice (typ rv) None) None.
Proof.
  intros Hs Hk. rewrite SetValue_assignable; auto using AssignableTo_refl.
  unfold stored, Value_Kind in *. rewrite Hk. simpl.
  destruct (Type_Kind_slice _ Hk) as [e He].
  unfold zero. rewrite (zeroAs_slice _ _ e He). reflexivity.
Qed.

Lemma SetValue_MakeSlice_empty rv :
  CanSet rv = true -> Value_Kind rv = KSlice ->
  SetValue rv (MakeSlice (typ rv) O) = Return (VSlice (typ rv) (Some [])) None.
Proof.
  intros Hs Hk. unfold Value_Kind in Hk.
  destruct (Type_Kind_slice _ Hk) as [e He].
  unfold MakeSlice. rewrite He.
  rewrite SetValue_assignable; auto using AssignableTo_refl.
  unfold stored. simpl. rewrite Hk. reflexivity.
Qed.

Section Slots.

Variable ParseWithName : string -> tagparser.Tag * option error.
Variable u : Unmarshaler.

(** What [unmarshalSlice] does with nil, with a value that is no
    sequence, and with an empty sequence, whatever the recursive call. *)
Lemma unmarshalSlice_cases self data rv path :
  CanSet rv = true -> Value_Kind rv = KSlice ->
  (data = VNil ->
   unmarshalSlice self data rv path = Return (VSlice (typ rv) None) None)
  /\
  (forall dt, TypeOf data = Some dt ->
     Type_Kind dt <> KSlice -> Type_Kind dt <> KArray ->
     unmarshalSlice self data rv path
     = Return (val rv) (Some (NewConversionError path data (typ rv) None)))
  /\
  (forall dv, ValueOf data = Some dv ->
     Value_Kind dv = KSlice \/ Value_Kind dv = KArray -> Len dv = O ->
     unmarshalSlice self data rv path
     = Return (VSlice (typ rv) (Some [])) None).
Proof.
  intros Hs Hk. unfold unmarshalSlice. split; [|split].
  - intros ->. simpl. apply SetValue_Zero_slice; auto.
  - intros dt Ht Hns Hna. unfold ValueOf. rewrite Ht. unfold Value_Kind. simpl.
    destruct (Kind_eqb (Type_Kind dt) KSlice) eqn:E1;
      [apply Kind_eqb_eq in E1; contradiction|].
    destruct (Kind_eqb (Type_Kind dt) KArray) eqn:E2;
      [apply Kind_eqb_eq in E2; contradiction|].
    reflexivity.
  - intros dv Hv Hkind Hlen. rewrite Hv, Hlen. simpl.
    replace (negb (Kind_eqb (Value_Kind dv) KSlice)
             && negb (Kind_eqb (Value_Kind dv) KArray)) with false.
    + apply SetValue_MakeSlice_empty; auto.
    + destruct Hkind as [-> | ->]; reflexivity.
Qed.

(** C7, amended.  On a settable sequence-kind slot with no registered
    converter: a nil value leaves the destination the nil sequence; a
    non-nil value that is neither a slice nor an array gives a
    conversion error without cause; an empty sequence that is not
    directly assignable to the slot's type leaves the destination an
    empty, non-nil sequence; a directly assignable value, empty or not,
    nil or not, is stored as it is. *)
Theorem C7_sequence_slot (data : value) (rv : Value) (path : string) :
  CanSet rv = true -> Value_Kind rv = KSlice ->
  Find (converters u) (typ rv) = None ->
  (data = VNil ->
   unmarshalValue ParseWithName u data rv path
   = Return (VSlice (typ rv) None) None)
  /\
  (forall dt, TypeOf data = Some dt ->
     Type_Kind dt <> KSlice -> Type_Kind dt <> KArray ->
     unmarshalValue ParseWithName u data rv path
     = Return (val rv)
              (Some (ConversionError (if String.eqb path EmptyString then "root" else path)
                                     data (typ rv) None)))
  /\
  (forall dv, ValueOf data = Some dv ->
     Value_Kind dv = KSlice \/ Value_Kind dv = KArray -> Len dv = O ->
     notAssignable data (typ rv) ->
     unmarshalValue ParseWithName u data rv path
     = Return (VSlice (typ rv) (Some [])) None)
  /\
  (forall dt, TypeOf data = Some dt -> AssignableTo dt (typ rv) = true ->
     unmarshalValue ParseWithName u data rv path
     = Return (retag (typ rv) data) None).
Proof.
  intros Hs Hk Hf.
  destruct (unmarshalSlice_cases (unmarshalValue ParseWithName u) data rv path Hs Hk)
    as [Hnil [Hshape Hempty]].
  split; [|split; [|split]].
  - intro Hd. rewrite unmarshalValue_dispatch, Hk; auto.
    subst. exact I.
  - intros dt Ht Hns Hna.
    assert (Hn : notAssignable data (typ rv)).
    { unfold notAssignable. rewrite Ht.
      destruct (AssignableTo dt (typ rv)) eqn:Ha; [|reflexivity].
      apply AssignableTo_Kind in Ha.
      - unfold Value_Kind in Hk. rewrite Hk in Ha. contradiction.
      - unfold Value_Kind in Hk. rewrite Hk. discriminate. }
    rewrite unmarshalValue_dispatch, Hk; auto.
    rewrite <- NewConversionError_eq. eapply Hshape; eauto.
  - intros dv Hv Hkind Hlen Hn.
    rewrite unmarshalValue_dispatch, Hk; auto. eapply Hempty; eauto.
  - intros dt Ht Ha. erewrite unmarshalValue_assignable; eauto.
    unfold stored. unfold Value_Kind in Hk. rewrite Hk. reflexivity.
Qed.

(** C6, amended.  On a settable record-kind slot with no registered
    converter and a value that is not directly assignable: a value whose
    dynamic type is exactly [map[string]any] is decoded field by field,
    in descriptor order; every other value, a string-keyed map of
    another type included, gives a conversion error without cause. *)
Theorem C6_record_slot (data : value) (rv : Value) (path : string) :
  CanSet rv = true -> Value_Kind rv = KStruct ->
  Find (converters u) (typ rv) = None ->
  notAssignable data (typ rv) ->
  (forall m, asMapStringAny data = Some m ->
     unmarshalValue ParseWithName u data rv path
     = unmarshalStruct_fields (unmarshalValue ParseWithName u) m rv path
         (Fields (GetMetadata ParseWithName (fieldCache u) (typ rv))))
  /\
  (asMapStringAny data = None ->
     unmarshalValue ParseWithName u data rv path
     = Return (val rv)
              (Some (ConversionError (if String.eqb path EmptyString then "root" else path)
                                     data (typ rv) None)))
  /\
  (forall t m, data = VMap t m -> t <> mapStringAny ->
     unmarshalValue ParseWithName u data rv path
     = Return (val rv)
              (Some (ConversionError (if String.eqb path EmptyString then "root" else path)
                                     data (typ rv) None))).
Proof.
  intros Hs Hk Hf Hn.
  assert (E : unmarshalValue ParseWithName u data rv path
              = unmarshalStruct ParseWithName u (unmarshalValue ParseWithName u)
                                data rv path).
  { rewrite unmarshalValue_dispatch, Hk; auto. }
  assert (Hnone : asMapStringAny data = None ->
     unmarshalValue ParseWithName u data rv path
     = Return (val rv)
              (Some (ConversionError (if String.eqb path EmptyString then "root" else path)
                                     data (typ rv) None))).
  { intro Hm. rewrite E. unfold unmarshalStruct. rewrite Hm. reflexivity. }
  split; [|split].
  - intros m Hm. rewrite E. unfold unmarshalStruct. rewrite Hm. reflexivity.
  - exact Hnone.
  - intros t m -> Ht. apply Hnone. simpl.
    destruct (rtype_eqb t mapStringAny) eqn:Et; [|reflexivity].
    apply rtype_eqb_eq in Et. contradiction.
Qed.

End Slots.

(* ================================================================== *)
(** ** Struct metadata *)
(* ================================================================== *)


Lemma nth_error_list_set_other {A : Type} (l : list A) (i j : nat) (x : A) :
  i <> j -> nth_error (list_set l j x) i = nth_error l i.
Proof.
  revert i j. induction l as [|y l IH]; intros i j Hij; simpl.
  - reflexivity.
  - destruct j as [|j]; destruct i as [|i]; simpl; auto; try contradiction.
Qed.

Lemma list_set_same {A : Type} (l : list A) (i : nat) (x : A) :
  nth_error l i = Some x -> list_set l i x = l.
Proof.
  revert i. induction l as [|y l IH]; intros i H; simpl.
  - reflexivity.
  - destruct i as [|i]; simpl in H.
    + inversion H. reflexivity.
    + rewrite IH; auto.
Qed.

Lemma store_field_same rv i fv :
  Field rv i = Some fv -> store_field (val rv) i (val fv) = val rv.
Proof.
  unfold Field. destruct (Type_Field (typ rv) i); [|discriminate].
  destruct (val rv) as [| | | | | | | | |t l]; try discriminate.
  destruct (nth_error l i) as [x|] eqn:E; [|discriminate].
  intro H. inversion H; subst; simpl. rewrite list_set_same; auto.
Qed.

Lemma field_at_store_field_other s i j x :
  i <> j -> field_at (store_field s j x) i = field_at s i.
Proof.
  intro H. destruct s; simpl; auto. apply nth_error_list_set_other. exact H.
Qed.

Section Metadata.

Variable ParseWithName : string -> tagparser.Tag * option error.

(** Every descriptor entry describes an exported declared field that the
    key annotation did not skip, under that field's index. *)
Lemma buildMetadata_fields_In c fs : forall i fm,
  In fm (buildMetadata_fields ParseWithName c i fs) ->
  exists k f,
    nth_error fs k = Some f /\ Index fm = (i + k)%nat
    /\ IsExported f = true
    /\ StructFieldName fm = Name f /\ Type_ fm = Typ f
    /\ Embedded fm = Anonymous f
    /\ Default fm = Tag_Lookup (Tag f) (defaultTagName c)
    /\ (if String.eqb (tagName c) "-" then (Name f, false)
        else parseFieldTag ParseWithName (Tag_Get (Tag f) (tagName c)) (Name f))
       = (MapKey fm, false).
Proof.
  induction fs as [|f fs IH]; intros i fm Hin; simpl in Hin; [contradiction|].
  assert (Hrest : In fm (buildMetadata_fields ParseWithName c (S i) fs) ->
                  exists k f0,
                    nth_error (f :: fs) k = Some f0 /\ Index fm = (i + k)%nat
                    /\ IsExported f0 = true
                    /\ StructFieldName fm = Name f0 /\ Type_ fm = Typ f0
                    /\ Embedded fm = Anonymous f0
                    /\ Default fm = Tag_Lookup (Tag f0) (defaultTagName c)
                    /\ (if String.eqb (tagName c) "-" then (Name f0, false)
                        else parseFieldTag ParseWithName
                               (Tag_Get (Tag f0) (tagName c)) (Name f0))
                       = (MapKey fm, false)).
  { intro H. destruct (IH _ _ H) as [k [f0 [Hn [Hi Hr]]]].
    exists (S k), f0. split; [exact Hn|]. split; [lia|exact Hr]. }
  destruct (IsExported f) eqn:Hex; simpl in Hin; [|auto].
  destruct (if String.eqb (tagName c) "-" then (Name f, false)
            else parseFieldTag ParseWithName (Tag_Get (Tag f) (tagName c)) (Name f))
    as [mapKey skip] eqn:Hkey.
  destruct skip; [auto|].
  destruct Hin as [<-|Hin]; [|auto].
  exists O, f. simpl. repeat split; auto.
Qed.

Lemma buildMetadata_In c t fm :
  In fm (Fields (buildMetadata ParseWithName c t)) ->
  exists f,
    Type_Field t (Index fm) = Some f
    /\ IsExported f = true
    /\ StructFieldName fm = Name f /\ Type_ fm = Typ f
    /\ Embedded fm = Anonymous f
    /\ Default fm = Tag_Lookup (Tag f) (defaultTagName c)
    /\ (if String.eqb (tagName c) "-" then (Name f, false)
        else parseFieldTag ParseWithName (Tag_Get (Tag f) (tagName c)) (Name f))
       = (MapKey fm, false).
Proof.
  intro H. apply buildMetadata_fields_In in H as [k [f [Hn [Hi Hr]]]].
  exists f. unfold Type_Field. simpl in Hi. rewrite Hi. auto.
Qed.


Lemma parseFieldTag_skip c f :
  skipAnnotated ParseWithName c f ->
  parseFieldTag ParseWithName (Tag_Get (Tag f) (tagName c)) (Name f) = (EmptyString, true).
Proof.
  unfold skipAnnotated, parseFieldTag. intros [H|[Hne [tag [Hp Hn]]]].
  - rewrite H. reflexivity.
  - destruct (String.eqb (Tag_Get (Tag f) (tagName c)) EmptyString) eqn:E;
      [apply String.eqb_eq in E; contradiction|].
    destruct (String.eqb (Tag_Get (Tag f) (tagName c)) "-"); [reflexivity|].
    rewrite Hp, Hn. reflexivity.
Qed.

Lemma buildMetadata_skips c t i f :
  Type_Field t i = Some f -> tagName c <> "-" ->
  skipAnnotated ParseWithName c f ->
  forall fm, In fm (Fields (buildMetadata ParseWithName c t)) -> Index fm <> i.
Proof.
  intros Hf Hc Hskip fm Hin Hi.
  apply buildMetadata_In in Hin as [f' [Hf' [_ [_ [_ [_ [_ Hkey]]]]]]].
  rewrite Hi, Hf in Hf'. inversion Hf'; subst f'.
  destruct (String.eqb (tagName c) "-") eqn:E;
    [apply String.eqb_eq in E; contradiction|].
  rewrite parseFieldTag_skip in Hkey; auto. discriminate.
Qed.

End Metadata.

(* ================================================================== *)
(** ** The field loop of [unmarshalStruct] *)
(* ================================================================== *)

Section FieldLoop.

Variable self : value -> Value -> string -> outcome.
Variable dataMap : option (list (value * value)).
Variable path : string.

(** One step of the loop writes, at most, the field of its descriptor
    entry. *)
Lemma unmarshalStruct_field_keeps rv field i s err :
  Index field <> i ->
  unmarshalStruct_field self dataMap rv path field = Return s err ->
  field_at s i = field_at (val rv) i.
Proof.
  intros Hi. unfold unmarshalStruct_field.
  destruct (Field rv (Index field)) as [fv|]; [|discriminate].
  destruct (Embedded field).
  - destruct (unmarshalEmbeddedField self dataMap fv field path) as [x e|m];
      [|discriminate].
    intro H; inversion H; subst. apply field_at_store_field_other. auto.
  - destruct (match MapIndex dataMap (MapKey field) with
              | Some v => Some v | None => option_map GoString (Default field) end)
      as [v|].
    + destruct (self v fv (buildFieldPath path (MapKey field))) as [x [e|]|m];
        try discriminate;
        intro H; inversion H; subst; apply field_at_store_field_other; auto.
    + intro H; inversion H; subst. reflexivity.
Qed.

(** The loop leaves alone every field that has no descriptor entry. *)
Lemma unmarshalStruct_fields_keeps fields i : forall rv s err,
  (forall fm, In fm fields -> Index fm <> i) ->
  unmarshalStruct_fields self dataMap rv path fields = Return s err ->
  field_at s i = field_at (val rv) i.
Proof.
  induction fields as [|f rest IH]; intros rv s err Hall; simpl.
  - intro H; inversion H; subst. reflexivity.
  - destruct (unmarshalStruct_field self dataMap rv path f) as [s1 [e1|]|m] eqn:E;
      try discriminate.
    + intro H; inversion H; subst.
      eapply unmarshalStruct_field_keeps; eauto. apply Hall. left; reflexivity.
    + intro H. apply IH in H.
      * rewrite H. simpl.
        eapply unmarshalStruct_field_keeps; eauto. apply Hall. left; reflexivity.
      * intros fm Hin. apply Hall. right; exact Hin.
Qed.

(** An error of the loop is the error of the step of one descriptor
    entry. *)
Lemma unmarshalStruct_fields_error fields : forall rv s err,
  unmarshalStruct_fields self dataMap rv path fields = Return s (Some err) ->
  exists fm rv', In fm fields /\ typ rv' = typ rv
    /\ unmarshalStruct_field self dataMap rv' path fm = Return s (Some err).
Proof.
  induction fields as [|f rest IH]; intros rv s err; simpl.
  - discriminate.
  - destruct (unmarshalStruct_field self dataMap rv path f) as [s1 [e1|]|m] eqn:E;
      try discriminate.
    + intro H; inversion H; subst. exists f, rv. auto.
    + intro H. apply IH in H as [fm [rv' [Hin [Ht Hs]]]].
      exists fm, rv'. auto.
Qed.

End FieldLoop.

(* ================================================================== *)
(** ** The engine reaches settable slots only *)
(* ================================================================== *)

Lemma forRange_ext_inv (I : value -> Prop) (n i : nat)
  (body1 body2 : nat -> value -> outcome) (s : value) :
  I s ->
  (forall j x, I x -> body1 j x = body2 j x) ->
  (forall j x x', I x -> body2 j x = Return x' None -> I x') ->
  forRange n i body1 s = forRange n i body2 s.
Proof.
  intros Hs Hb Hi. revert i s Hs.
  induction n as [|n IH]; intros i s Hs; simpl; [reflexivity|].
  rewrite (Hb i s Hs).
  destruct (body2 i s) as [s' [e|]|m] eqn:E; auto.
  apply IH. eapply Hi; eauto.
Qed.

Lemma CanSet_flags (rv : Value) :
  CanSet rv = true -> flagAddr rv = true /\ flagRO rv = false.
Proof.
  unfold CanSet. destruct (flagAddr rv), (flagRO rv); simpl; intro H;
    try discriminate; auto.
Qed.

Lemma Elem_CanSet (rv p : Value) :
  flagRO rv = false -> Elem rv = Some p -> CanSet p = true.
Proof.
  intros Hro. unfold Elem.
  destruct (Type_Elem (typ rv)); [|discriminate].
  destruct (val rv) as [| | | | |t [x|]| | | |]; try discriminate.
  destruct (Kind_eqb _ _); [|discriminate].
  intro H; inversion H; subst. unfold CanSet; simpl. rewrite Hro. reflexivity.
Qed.

Lemma Value_Index_slice_CanSet (v s : Value) (i : nat) :
  isSliceValue (val v) -> flagRO v = false ->
  Value_Index v i = Some s -> CanSet s = true.
Proof.
  intros [t [l Hv]] Hro. unfold Value_Index. rewrite Hv.
  destruct (Type_Elem (typ v)); [|discriminate].
  destruct (nth_error l i); [|discriminate].
  intro H; inversion H; subst. unfold CanSet; simpl. rewrite Hro. reflexivity.
Qed.

Lemma store_index_isSliceValue (s : value) (i : nat) (x : value) :
  isSliceValue s -> isSliceValue (store_index s i x).
Proof. intros [t [l ->]]. simpl. eexists; eexists; reflexivity. Qed.

Lemma Field_exported_CanSet (rv fv : Value) (i : nat) (f : StructField) :
  CanSet rv = true -> Type_Field (typ rv) i = Some f -> IsExported f = true ->
  Field rv i = Some fv -> CanSet fv = true.
Proof.
  intros Hs Hf Hex. apply CanSet_flags in Hs as [Ha Hro].
  unfold Field. rewrite Hf.
  destruct (val rv) as [| | | | | | | | |t l]; try discriminate.
  destruct (nth_error l i); [|discriminate].
  intro H; inversion H; subst. unfold CanSet; simpl.
  rewrite Ha, Hro, Hex. reflexivity.
Qed.

Section Settable.

Variable ParseWithName : string -> tagparser.Tag * option error.
Variable u : Unmarshaler.
Variables self1 self2 : value -> Value -> string -> outcome.
Hypothesis Hagree : agree_settable self1 self2.

Lemma unmarshalPtr_settable data rv path :
  CanSet rv = true ->
  unmarshalPtr self1 data rv path = unmarshalPtr self2 data rv path.
Proof.
  intro Hs. apply CanSet_flags in Hs as [_ Hro]. unfold unmarshalPtr.
  destruct data; try reflexivity;
    (match goal with |- context [if IsNil rv then ?a else ?b] =>
       destruct (if IsNil rv then a else b) as [q e|msg]; [|reflexivity] end;
     destruct (Elem (with_val rv q)) as [pointee|] eqn:E; [|reflexivity];
     rewrite (Hagree _ pointee path); [reflexivity|];
     apply (Elem_CanSet (with_val rv q)); [exact Hro|exact E]).
Qed.

Lemma unmarshalSliceElements_settable dataVal rv path n :
  unmarshalSliceElements self1 dataVal rv path n
  = unmarshalSliceElements self2 dataVal rv path n.
Proof.
  unfold unmarshalSliceElements.
  destruct (MakeSlice (typ rv) n) as [slice|] eqn:Hs; [|reflexivity].
  destruct (Type_Elem (typ rv)) as [se|]; [|reflexivity].
  destruct (AssignableTo _ _); [reflexivity|].
  destruct (Type_Elem (typ dataVal)) as [de|]; [|reflexivity].
  destruct (rtype_eqb de se); [reflexivity|].
  destruct (Kind_eqb _ _); [reflexivity|].
  assert (Hslice : isSliceValue (val slice) /\ flagRO slice = false).
  { unfold MakeSlice in Hs. destruct (underlying_of (typ rv)); inversion Hs.
    simpl. split; [eexists; eexists; reflexivity|reflexivity]. }
  destruct Hslice as [Hsv Hro].
  match goal with |- match forRange _ _ ?b1 _ with _ => _ end
                     = match forRange _ _ ?b2 _ with _ => _ end =>
    rewrite (forRange_ext_inv isSliceValue n O b1 b2) end;
    [reflexivity|exact Hsv| |].
  - intros j x Hx. destruct (Value_Index dataVal j) as [src|]; [|reflexivity].
    destruct (Value_Index (with_val slice x) j) as [sl|] eqn:E; [|reflexivity].
    rewrite (Hagree _ sl); [reflexivity|].
    eapply (Value_Index_slice_CanSet (with_val slice x)); eauto.
  - intros j x x' Hx.
    destruct (Value_Index dataVal j) as [src|]; [|discriminate].
    destruct (Value_Index (with_val slice x) j) as [sl|]; [|discriminate].
    destruct (self2 (Interface src) sl (elemPath path j)) as [y e|m];
      [|discriminate].
    intro H; inversion H; subst. apply store_index_isSliceValue. exact Hx.
Qed.

Lemma unmarshalStruct_field_settable dataMap rv path field f :
  CanSet rv = true ->
  Type_Field (typ rv) (Index field) = Some f -> IsExported f = true ->
  unmarshalStruct_field self1 dataMap rv path field
  = unmarshalStruct_field self2 dataMap rv path field.
Proof.
  intros Hs Hf Hex. unfold unmarshalStruct_field.
  destruct (Field rv (Index field)) as [fv|] eqn:E; [|reflexivity].
  pose proof (Field_exported_CanSet rv fv _ f Hs Hf Hex E) as Hfv.
  destruct (Embedded field).
  - rewrite (unmarshalEmbeddedField_ext self1 self2); [reflexivity|].
    intros d p. apply Hagree. exact Hfv.
  - destruct (match MapIndex dataMap (MapKey field) with
              | Some v => Some v | None => option_map GoString (Default field) end);
      [|reflexivity].
    rewrite (Hagree _ fv); [reflexivity|exact Hfv].
Qed.

Lemma unmarshalStruct_fields_settable dataMap path fields : forall rv,
  CanSet rv = true ->
  (forall fm, In fm fields ->
     exists f, Type_Field (typ rv) (Index fm) = Some f /\ IsExported f = true) ->
  unmarshalStruct_fields self1 dataMap rv path fields
  = unmarshalStruct_fields self2 dataMap rv path fields.
Proof.
  induction fields as [|fm rest IH]; intros rv Hs Hall; simpl; [reflexivity|].
  destruct (Hall fm (or_introl eq_refl)) as [f [Hf Hex]].
  rewrite (unmarshalStruct_field_settable dataMap rv path fm f Hs Hf Hex).
  destruct (unmarshalStruct_field self2 dataMap rv path fm) as [s [e|]|m];
    try reflexivity.
  apply IH; [exact Hs|].
  intros fm' Hin. apply Hall. right. exact Hin.
Qed.

Lemma unmarshalValue_body_settable data rv path :
  unmarshalValue_body ParseWithName u self1 data rv path
  = unmarshalValue_body ParseWithName u self2 data rv path.
Proof.
  unfold unmarshalValue_body.
  destruct (CanSet rv) eqn:Hs; [|reflexivity]. simpl.
  destruct (match TypeOf data with
            | Some dataType => AssignableTo dataType (typ rv) | None => false end);
    [reflexivity|].
  destruct (Find (converters u) (typ rv)); [reflexivity|].
  destruct (Value_Kind rv); try reflexivity.
  - apply unmarshalPtr_settable. exact Hs.
  - unfold unmarshalSlice. destruct (ValueOf data); [|reflexivity].
    destruct (_ && _); [reflexivity|].
    destruct (Nat.eqb _ _); [reflexivity|].
    apply unmarshalSliceElements_settable.
  - unfold unmarshalStruct. destruct (asMapStringAny data); [|reflexivity].
    apply unmarshalStruct_fields_settable; [exact Hs|].
    intros fm Hin. apply buildMetadata_In in Hin as [f [Hf [Hex _]]].
    exists f. auto.
Qed.

End Settable.

(** [unmarshalValue] never calls itself on a slot that cannot be set:
    with a panic in the place of every such call it is the same
    function.  ([Unmarshal] starts it on the pointee of the result
    pointer, which can be set.) *)
Lemma unmarshalValue_reaches_settable ParseWithName u data rv path :
  unmarshalValue ParseWithName u data rv path
  = unmarshalValue_body ParseWithName u
      (only_settable (unmarshalValue ParseWithName u)) data rv path.
Proof.
  rewrite unmarshalValue_unfold. apply unmarshalValue_body_settable.
  intros d rv' p Hs. unfold only_settable. rewrite Hs. reflexivity.
Qed.

Lemma validateResultPointer_CanSet result rv :
  validateResultPointer result = (Some rv, None) -> CanSet rv = true.
Proof.
  unfold validateResultPointer. destruct (ValueOf result) as [v|] eqn:Hv;
    [|discriminate].
  destruct (negb _); [discriminate|]. destruct (IsNil v); [discriminate|].
  intro H; inversion H as [He].
  apply (Elem_CanSet v); [|exact He].
  unfold ValueOf in Hv. destruct (TypeOf result); inversion Hv. reflexivity.
Qed.

(* ================================================================== *)
(** ** Fields of a record: skipped, embedded, defaulted *)
(* ================================================================== *)

Lemma struct_notAssignable (rv : Value) (m : option (list (value * value))) :
  Value_Kind rv = KStruct -> notAssignable (VMap mapStringAny m) (typ rv).
Proof.
  intro Hk. unfold notAssignable. simpl.
  destruct (AssignableTo mapStringAny (typ rv)) eqn:E; [|reflexivity].
  apply AssignableTo_Kind in E.
  - unfold Value_Kind in Hk. rewrite Hk in E. discriminate.
  - unfold Value_Kind in Hk. rewrite Hk. discriminate.
Qed.

Lemma Type_Field_Kind (t : rtype) (i : nat) (f : StructField) :
  Type_Field t i = Some f -> Type_Kind t = KStruct.
Proof.
  unfold Type_Field, Type_Fields, Type_Kind.
  destruct (underlying_of t); try (destruct i; discriminate).
  reflexivity.
Qed.

Section Fields.

Variable ParseWithName : string -> tagparser.Tag * option error.
Variable u : Unmarshaler.

(** C9 (amended).  With a key annotation configured, a field whose
    annotation value is "-", or parses to the canonical name "-", has no
    entry in the descriptor.  So, when no converter is registered for
    the record type itself, decoding any source mapping into a slot of
    that type, by [unmarshalValue] or, through a pointer, by
    [Unmarshal], returns with that field as the destination had it, and
    an error of the decoding is the error of the step of a descriptor
    entry of another field. *)
Theorem C9_skipped_field (t : rtype) (i : nat) (f : StructField) :
  Type_Field t i = Some f ->
  tagName (fieldCache u) <> "-" ->
  skipAnnotated ParseWithName (fieldCache u) f ->
  (forall fm,
     In fm (Fields (buildMetadata ParseWithName (fieldCache u) t)) ->
     Index fm <> i)
  /\
  (Find (converters u) t = None ->
   (forall m rv path s err,
      typ rv = t ->
      unmarshalValue ParseWithName u (VMap mapStringAny m) rv path
      = Return s err ->
      field_at s i = field_at (val rv) i)
   /\
   (forall m rv path s err,
      typ rv = t ->
      unmarshalValue ParseWithName u (VMap mapStringAny m) rv path
      = Return s (Some err) ->
      exists fm rv',
        In fm (Fields (buildMetadata ParseWithName (fieldCache u) t))
        /\ Index fm <> i
        /\ unmarshalStruct_field (unmarshalValue ParseWithName u) m rv' path fm
           = Return s (Some err))
   /\
   (forall m pt x r err,
      Type_Kind pt = KPointer -> Type_Elem pt = Some t ->
      Unmarshal ParseWithName u m (VPtr pt (Some x)) = Return r err ->
      exists s, r = VPtr pt (Some s) /\ field_at s i = field_at x i)).
Proof.
  intros Hf Hc Hskip.
  pose proof (buildMetadata_skips ParseWithName _ _ _ _ Hf Hc Hskip) as Hno.
  split; [exact Hno|]. intro Hfind.
  pose proof (Type_Field_Kind _ _ _ Hf) as Hk.
  assert (Hrun : forall m rv path, typ rv = t -> CanSet rv = true ->
            unmarshalValue ParseWithName u (VMap mapStringAny m) rv path
            = unmarshalStruct_fields (unmarshalValue ParseWithName u) m rv path
                (Fields (buildMetadata ParseWithName (fieldCache u) t))).
  { intros m rv path Ht Hs. subst t.
    rewrite unmarshalValue_dispatch;
      [|exact Hs|apply struct_notAssignable; exact Hk|exact Hfind].
    unfold Value_Kind. rewrite Hk. reflexivity. }
  assert (Hkeep : forall m rv path s err,
            typ rv = t ->
            unmarshalValue ParseWithName u (VMap mapStringAny m) rv path
            = Return s err ->
            field_at s i = field_at (val rv) i).
  { intros m rv path s err Ht. destruct (CanSet rv) eqn:Hs.
    - rewrite (Hrun m rv path Ht Hs). intro H.
      eapply unmarshalStruct_fields_keeps; [|exact H]. exact Hno.
    - rewrite unmarshalValue_not_settable by exact Hs.
      intro H; inversion H; subst. reflexivity. }
  split; [exact Hkeep|]. split.
  - intros m rv path s err Ht. destruct (CanSet rv) eqn:Hs.
    + rewrite (Hrun m rv path Ht Hs). intro H.
      apply unmarshalStruct_fields_error in H as [fm [rv' [Hin [_ Hstep]]]].
      exists fm, rv'. auto.
    + rewrite unmarshalValue_not_settable by exact Hs. discriminate.
  - intros m pt x r err Hkp He. unfold Unmarshal, validateResultPointer, ValueOf.
    simpl TypeOf. cbv iota. unfold Value_Kind at 1. simpl typ. rewrite Hkp.
    simpl. unfold Elem, Value_Kind. simpl. rewrite He, Hkp. simpl.
    destruct (unmarshalValue ParseWithName u (VMap mapStringAny m)
                (mkValue t x true false) EmptyString) as [s e|msg] eqn:E;
      [|discriminate].
    intro H; inversion H; subst. exists s. split; [reflexivity|].
    apply (Hkeep m (mkValue t x true false) EmptyString s err eq_refl E).
Qed.

(** C10.  For a descriptor entry of an embedded field the default
    literal is never read: the step of the loop, and so the loop, is the
    same whatever default the entry holds, on every source mapping; the
    builder does record the default annotation of an embedded field as
    of any other; and an embedded field absent from the source is
    decoded from the whole source mapping when its type is a struct, and
    left as it is otherwise. *)
Theorem C10_embedded_default_unused
  (dataMap : option (list (value * value))) (rv : Value) (path : string)
  (field : FieldMetadata) :
  Embedded field = true ->
  (forall d,
     unmarshalStruct_field (unmarshalValue ParseWithName u) dataMap rv path
                           (withDefault field d)
     = unmarshalStruct_field (unmarshalValue ParseWithName u) dataMap rv path
                             field)
  /\
  (forall d rest,
     unmarshalStruct_fields (unmarshalValue ParseWithName u) dataMap rv path
                            (withDefault field d :: rest)
     = unmarshalStruct_fields (unmarshalValue ParseWithName u) dataMap rv path
                              (field :: rest))
  /\
  (forall c t fm,
     In fm (Fields (buildMetadata ParseWithName c t)) ->
     exists f, Type_Field t (Index fm) = Some f
               /\ Embedded fm = Anonymous f
               /\ Default fm = Tag_Lookup (Tag f) (defaultTagName c))
  /\
  (forall fieldValue,
     Field rv (Index field) = Some fieldValue ->
     MapIndex dataMap (StructFieldName field) = None ->
     (Type_Kind (Type_ field) = KStruct ->
      unmarshalStruct_field (unmarshalValue ParseWithName u) dataMap rv path field
      = match unmarshalValue ParseWithName u (VMap mapStringAny dataMap)
                             fieldValue path with
        | Return x err => Return (store_field (val rv) (Index field) x) err
        | Panic m => Panic m
        end)
     /\
     (Type_Kind (Type_ field) <> KStruct ->
      unmarshalStruct_field (unmarshalValue ParseWithName u) dataMap rv path field
      = Return (val rv) None)).
Proof.
  intro He.
  assert (Hstep : forall d,
     unmarshalStruct_field (unmarshalValue ParseWithName u) dataMap rv path
                           (withDefault field d)
     = unmarshalStruct_field (unmarshalValue ParseWithName u) dataMap rv path
                             field).
  { intro d. unfold unmarshalStruct_field, unmarshalEmbeddedField. simpl.
    rewrite He. reflexivity. }
  split; [exact Hstep|]. split; [|split].
  - intros d rest. simpl. rewrite Hstep. reflexivity.
  - intros c t fm Hin.
    apply buildMetadata_In in Hin as [f [Hf [_ [_ [_ [Ha [Hd _]]]]]]].
    exists f. auto.
  - intros fv Hfv Habsent. unfold unmarshalStruct_field, unmarshalEmbeddedField.
    rewrite Hfv, He, Habsent. split.
    + intro Hk. rewrite Hk. reflexivity.
    + intro Hk. destruct (Kind_eqb (Type_Kind (Type_ field)) KStruct) eqn:E.
      * apply Kind_eqb_eq in E. contradiction.
      * simpl. rewrite store_field_same; auto.
Qed.



Lemma unmarshalStruct_field_present dataMap rv path field fieldValue v :
  Embedded field = false -> Field rv (Index field) = Some fieldValue ->
  MapIndex dataMap (MapKey field) = Some v ->
  unmarshalStruct_field (unmarshalValue ParseWithName u) dataMap rv path field
  = decodedField ParseWithName u rv path field fieldValue v.
Proof.
  intros He Hfv Hv. unfold unmarshalStruct_field, decodedField.
  rewrite Hfv, He, Hv. reflexivity.
Qed.

Lemma unmarshalStruct_field_default dataMap rv path field fieldValue lit :
  Embedded field = false -> Field rv (Index field) = Some fieldValue ->
  MapIndex dataMap (MapKey field) = None -> Default field = Some lit ->
  unmarshalStruct_field (unmarshalValue ParseWithName u) dataMap rv path field
  = decodedField ParseWithName u rv path field fieldValue (GoString lit).
Proof.
  intros He Hfv Hv Hd. unfold unmarshalStruct_field, decodedField.
  rewrite Hfv, He, Hv, Hd. reflexivity.
Qed.

Lemma unmarshalStruct_field_absent dataMap rv path field fieldValue :
  Embedded field = false -> Field rv (Index field) = Some fieldValue ->
  MapIndex dataMap (MapKey field) = None -> Default field = None ->
  unmarshalStruct_field (unmarshalValue ParseWithName u) dataMap rv path field
  = Return (val rv) None.
Proof.
  intros He Hfv Hv Hd. unfold unmarshalStruct_field.
  rewrite Hfv, He, Hv, Hd. reflexivity.
Qed.

(** C2, amended.  For a field that is not embedded: a value present
    under the field's source key is what is decoded, whatever default
    the field carries; with the key absent and a default literal, the
    literal is decoded as a Go string by the same [unmarshalValue], with
    the outcome an explicit entry holding that string would have; with
    the key absent and no default, the struct is left as it is and the
    loop goes on with the next field. *)
Theorem C2_default_vs_explicit
  (dataMap : option (list (value * value))) (rv : Value) (path : string)
  (field : FieldMetadata) (fieldValue : Value) :
  Embedded field = false ->
  Field rv (Index field) = Some fieldValue ->
  (forall v d,
     MapIndex dataMap (MapKey field) = Some v ->
     unmarshalStruct_field (unmarshalValue ParseWithName u) dataMap rv path
                           (withDefault field d)
     = decodedField ParseWithName u rv path field fieldValue v)
  /\
  (forall lit,
     MapIndex dataMap (MapKey field) = None -> Default field = Some lit ->
     unmarshalStruct_field (unmarshalValue ParseWithName u) dataMap rv path field
     = decodedField ParseWithName u rv path field fieldValue (GoString lit)
     /\
     forall dataMap',
       MapIndex dataMap' (MapKey field) = Some (GoString lit) ->
       unmarshalStruct_field (unmarshalValue ParseWithName u) dataMap' rv path field
       = unmarshalStruct_field (unmarshalValue ParseWithName u) dataMap rv path field)
  /\
  (MapIndex dataMap (MapKey field) = None -> Default field = None ->
   unmarshalStruct_field (unmarshalValue ParseWithName u) dataMap rv path field
   = Return (val rv) None
   /\
   forall rest,
     unmarshalStruct_fields (unmarshalValue ParseWithName u) dataMap rv path
                            (field :: rest)
     = unmarshalStruct_fields (unmarshalValue ParseWithName u) dataMap rv path
                              rest).
Proof.
  intros He Hfv. split; [|split].
  - intros v d Hv.
    apply (unmarshalStruct_field_present dataMap rv path (withDefault field d));
      assumption.
  - intros lit Hv Hd. split.
    + apply unmarshalStruct_field_default; assumption.
    + intros dataMap' Hv'.
      rewrite (unmarshalStruct_field_present dataMap' rv path field fieldValue
                 (GoString lit)); try assumption.
      symmetry. apply unmarshalStruct_field_default; assumption.
  - intros Hv Hd.
    pose proof (unmarshalStruct_field_absent dataMap rv path field fieldValue
                  He Hfv Hv Hd) as E.
    split; [exact E|].
    intro rest. simpl. rewrite E, with_val_same. reflexivity.
Qed.

End Fields.

(* ================================================================== *)
(** ** Two decodings, end to end *)
(* ================================================================== *)

Section Scenarios.

Variable ParseWithName : string -> tagparser.Tag * option error.

(** C4.  With the sample engine, which has the integer converters of
    the default engine, decoding {"Values": []int{10,20,30}}
    and decoding {"Values": []any{10,20,30}} into fresh [SliceInt]
    destinations leave the same destination, holding [10,20,30]; calling
    the slice helper itself on the two sequences (fast path 1 for the
    first, the element-wise path for the second) gives one outcome too;
    and []any{1,"2",3.0,true} is decoded to [1,2,3,1]. *)
Theorem C4_fast_path_agrees_with_conversion :
  Unmarshal ParseWithName sampleUnmarshaler
            (mapOf [("Values", intSlice [10; 20; 30])]) (newOf SliceInt)
  = Return (VPtr (TPointer SliceInt)
                 (Some (VStruct SliceInt [intSlice [10; 20; 30]]))) None
  /\
  Unmarshal ParseWithName sampleUnmarshaler
            (mapOf [("Values", anySlice [VInt goInt 10; VInt goInt 20;
                                         VInt goInt 30])]) (newOf SliceInt)
  = Unmarshal ParseWithName sampleUnmarshaler
              (mapOf [("Values", intSlice [10; 20; 30])]) (newOf SliceInt)
  /\
  unmarshalSliceElements (unmarshalValue ParseWithName sampleUnmarshaler)
    (mkValue (TSlice TInterface)
             (anySlice [VInt goInt 10; VInt goInt 20; VInt goInt 30])
             false false)
    (slot (TSlice goInt) (zero (TSlice goInt))) "Values" 3
  = unmarshalSliceElements (unmarshalValue ParseWithName sampleUnmarshaler)
      (mkValue (TSlice goInt) (intSlice [10; 20; 30]) false false)
      (slot (TSlice goInt) (zero (TSlice goInt))) "Values" 3
  /\
  Unmarshal ParseWithName sampleUnmarshaler
            (mapOf [("Values", anySlice [VInt goInt 1; GoString "2"; float3;
                                         VBool goBool true])]) (newOf SliceInt)
  = Return (VPtr (TPointer SliceInt)
                 (Some (VStruct SliceInt [intSlice [1; 2; 3; 1]]))) None.
Proof. repeat split; vm_compute; reflexivity. Qed.

End Scenarios.

Section PathReporting.

Variable ParseWithName : string -> tagparser.Tag * option error.
Variable u : Unmarshaler.
Variable conv : Converter.
Variable converted : option Value.
Variable cause : error.
Variables opts1 opts2 : list (string * string).

Hypothesis Hcache : fieldCache u = NewDefaultStructMetadataCache.
Hypothesis Hinner : ParseWithName "inner" = (tagparser.mkTag "inner" opts1, None).
Hypothesis Hvalue : ParseWithName "value" = (tagparser.mkTag "value" opts2, None).
Hypothesis HNested : Find (converters u) Nested = None.
Hypothesis HNestedInner : Find (converters u) NestedInner = None.
Hypothesis Hint : Find (converters u) goInt = Some conv.
Hypothesis Hinvalid : conv (GoString "invalid") = (converted, Some cause).

Lemma Nested_metadata :
  Fields (GetMetadata ParseWithName (fieldCache u) Nested)
  = [mkFieldMetadata "Inner" "inner" O NestedInner false None].
Proof.
  rewrite Hcache. unfold GetMetadata, buildMetadata. simpl.
  unfold parseFieldTag. simpl.
  change (Tag_Get [("schema", "inner")] DefaultTagName) with "inner".
  rewrite Hinner. reflexivity.
Qed.

Lemma NestedInner_metadata :
  Fields (GetMetadata ParseWithName (fieldCache u) NestedInner)
  = [mkFieldMetadata "Value" "value" O goInt false None].
Proof.
  rewrite Hcache. unfold GetMetadata, buildMetadata. simpl.
  unfold parseFieldTag. simpl.
  change (Tag_Get [("schema", "value")] DefaultTagName) with "value".
  rewrite Hvalue. reflexivity.
Qed.

Lemma decode_Value :
  unmarshalValue ParseWithName u (GoString "invalid") (slot goInt (zero goInt))
                 "inner.value"
  = Return (zero goInt)
           (Some (ConversionError "inner.value" (GoString "invalid") goInt
                                  (Some cause))).
Proof.
  rewrite (unmarshalValue_converter ParseWithName u _ _ _ conv);
    [|reflexivity|reflexivity|exact Hint].
  rewrite Hinvalid. reflexivity.
Qed.

Lemma decode_Inner :
  unmarshalValue ParseWithName u (anyMap [("value", GoString "invalid")])
                 (slot NestedInner (zero NestedInner)) "inner"
  = Return (zero NestedInner)
           (Some (Errorf_wrap "inner.value"
                    (ConversionError "inner.value" (GoString "invalid") goInt
                                     (Some cause)))).
Proof.
  rewrite unmarshalValue_dispatch; [|reflexivity|reflexivity|exact HNestedInner].
  change (Value_Kind (slot NestedInner (zero NestedInner))) with KStruct.
  cbv iota. unfold unmarshalStruct.
  change (asMapStringAny (anyMap [("value", GoString "invalid")]))
    with (Some (mapOf [("value", GoString "invalid")])).
  cbv iota beta zeta.
  change (typ (slot NestedInner (zero NestedInner))) with NestedInner.
  rewrite NestedInner_metadata. cbn [unmarshalStruct_fields].
  rewrite (unmarshalStruct_field_present ParseWithName u _ _ _ _
             (slot goInt (zero goInt)) (GoString "invalid"));
    [|reflexivity|reflexivity|reflexivity].
  unfold decodedField.
  change (buildFieldPath "inner" (MapKey (mkFieldMetadata "Value" "value" O goInt false None)))
    with "inner.value".
  rewrite decode_Value. reflexivity.
Qed.

(** C5.  With the default tag names, a tag parser that reads "inner"
    and "value" as those names, no converter registered for the two
    struct types, and a converter for [int] that rejects the string
    "invalid": decoding {"inner": {"value": "invalid"}} into a [Nested]
    fails; the error wraps the conversion error of the field, and the
    path of that conversion error is "inner.value". *)
Theorem C5_nested_error_path :
  exists err,
    Unmarshal ParseWithName u
              (mapOf [("inner", anyMap [("value", GoString "invalid")])])
              (newOf Nested)
    = Return (newOf Nested) (Some err)
    /\ AsConversionError err
       = Some (ConversionError "inner.value" (GoString "invalid") goInt
                               (Some cause))
    /\ option_map FieldPath_of (AsConversionError err)
       = Some (Some "inner.value").
Proof.
  exists (Errorf_wrap "inner"
            (Errorf_wrap "inner.value"
               (ConversionError "inner.value" (GoString "invalid") goInt
                                (Some cause)))).
  split; [|split; reflexivity].
  unfold Unmarshal.
  change (validateResultPointer (newOf Nested))
    with (Some (slot Nested (zero Nested)), @None error).
  cbv iota beta.
  rewrite unmarshalValue_dispatch; [|reflexivity|reflexivity|exact HNested].
  change (Value_Kind (slot Nested (zero Nested))) with KStruct.
  cbv iota. unfold unmarshalStruct.
  change (asMapStringAny
            (VMap mapStringAny
                  (mapOf [("inner", anyMap [("value", GoString "invalid")])])))
    with (Some (mapOf [("inner", anyMap [("value", GoString "invalid")])])).
  cbv iota beta zeta.
  change (typ (slot Nested (zero Nested))) with Nested.
  rewrite Nested_metadata. cbn [unmarshalStruct_fields].
  rewrite (unmarshalStruct_field_present ParseWithName u _ _ _ _
             (slot NestedInner (zero NestedInner))
             (anyMap [("value", GoString "invalid")]));
    [|reflexivity|reflexivity|reflexivity].
  unfold decodedField.
  change (buildFieldPath EmptyString (MapKey (mkFieldMetadata "Inner" "inner" O NestedInner false None)))
    with "inner".
  rewrite decode_Inner. reflexivity.
Qed.

End PathReporting.

(* ================================================================== *)
(** ** The theorems at work on the sample programs *)
(* ================================================================== *)

(** C1 on an [int] slot: an [int] is stored as it is; the string "42"
    goes through the registered converter; the string "x" comes back as
    a conversion error carrying path, value, type and cause; a slot
    that cannot be set is left alone. *)
Lemma C1_witness :
  CanSet (slot goInt (zero goInt)) = true
  /\ unmarshalValue sampleParseWithName sampleUnmarshaler (VInt goInt 7)
                    (slot goInt (zero goInt)) "count"
     = Return (VInt goInt 7) None
  /\ unmarshalValue sampleParseWithName sampleUnmarshaler (GoString "42")
                    (slot goInt (zero goInt)) "count"
     = Return (VInt goInt 42) None
  /\ unmarshalValue sampleParseWithName sampleUnmarshaler (GoString "x")
                    (slot goInt (zero goInt)) "count"
     = Return (VInt goInt 0)
              (Some (ConversionError "count" (GoString "x") goInt
                                     (Some (ErrorString "invalid syntax"))))
  /\ unmarshalValue sampleParseWithName sampleUnmarshaler (VInt goInt 7)
                    (mkValue goInt (zero goInt) false false) "count"
     = Return (VInt goInt 0) None.
Proof.
  split; [reflexivity|]. split; [|split; [|split]].
  - destruct (C1_resolve_precedence sampleParseWithName sampleUnmarshaler
                (VInt goInt 7) (slot goInt (zero goInt)) "count")
      as [_ [Hdirect _]].
    apply (Hdirect eq_refl goInt); reflexivity.
  - destruct (C1_resolve_precedence sampleParseWithName sampleUnmarshaler
                (GoString "42") (slot goInt (zero goInt)) "count")
      as [_ [_ Hconv]].
    destruct (Hconv eq_refl convertInt eq_refl eq_refl) as [_ [Hok _]].
    apply (Hok (mkValue goInt (VInt goInt 42) false false)); reflexivity.
  - destruct (C1_resolve_precedence sampleParseWithName sampleUnmarshaler
                (GoString "x") (slot goInt (zero goInt)) "count")
      as [_ [_ Hconv]].
    destruct (Hconv eq_refl convertInt eq_refl eq_refl) as [_ [_ Hfail]].
    apply (Hfail None (ErrorString "invalid syntax")); reflexivity.
  - destruct (C1_resolve_precedence sampleParseWithName sampleUnmarshaler
                (VInt goInt 7) (mkValue goInt (zero goInt) false false) "count")
      as [Hnoop _].
    apply Hnoop. reflexivity.
Defined.

(** C2 (amended) on the [Count] field of [Audited], tagged
    [schema:"count" default:"42"]: with the key absent the literal "42"
    is decoded by the integer converter; with the key present, holding
    the zero value, the default is not used. *)
Lemma C2_witness :
  Embedded Audited_Count = false
  /\ Field (slot Audited (zero Audited)) (Index Audited_Count)
     = Some (slot goInt (zero goInt))
  /\ unmarshalStruct_field
       (unmarshalValue sampleParseWithName sampleUnmarshaler)
       (mapOf []) (slot Audited (zero Audited)) EmptyString Audited_Count
     = Return (VStruct Audited [zero Metadata; VInt goInt 42; VInt goInt 0]) None
  /\ unmarshalStruct_field
       (unmarshalValue sampleParseWithName sampleUnmarshaler)
       (mapOf [("count", VInt goInt 0)]) (slot Audited (zero Audited)) EmptyString
       (withDefault Audited_Count (Some "42"))
     = Return (VStruct Audited [zero Metadata; VInt goInt 0; VInt goInt 0]) None.
Proof.
  split; [reflexivity|]. split; [reflexivity|].
  destruct (C2_default_vs_explicit sampleParseWithName sampleUnmarshaler
              (mapOf []) (slot Audited (zero Audited)) EmptyString Audited_Count
              (slot goInt (zero goInt)) eq_refl eq_refl) as [_ [Hdefault _]].
  destruct (C2_default_vs_explicit sampleParseWithName sampleUnmarshaler
              (mapOf [("count", VInt goInt 0)]) (slot Audited (zero Audited)) EmptyString
              Audited_Count (slot goInt (zero goInt)) eq_refl eq_refl)
    as [Hpresent _].
  split.
  - rewrite (proj1 (Hdefault "42" eq_refl eq_refl)). reflexivity.
  - rewrite (Hpresent (VInt goInt 0) (Some "42") eq_refl). reflexivity.
Defined.

(** C2 as stated fails on an embedded field: the [Metadata] field of
    [Document] has its source key absent from {"version": "1.0"} and no
    default, yet the step of the loop decodes it from the outer mapping
    (TestUnmarshaler_Unmarshal_EmbeddedStructs, promoted fields). *)
Lemma C2_counterexample :
  let field := mkFieldMetadata "Metadata" "Metadata" 0 Metadata true None in
  let rv := slot Document (zero Document) in
  let dataMap := mapOf [("version", GoString "1.0")] in
  In field (Fields (GetMetadata sampleParseWithName
                      (fieldCache sampleUnmarshaler) Document))
  /\ MapIndex dataMap (MapKey field) = None
  /\ Default field = None
  /\ unmarshalStruct_field
       (unmarshalValue sampleParseWithName sampleUnmarshaler)
       dataMap rv EmptyString field
     = Return (VStruct Document
                 [VStruct Metadata [GoString "1.0"; GoString EmptyString];
                  GoString EmptyString; GoString EmptyString]) None
  /\ unmarshalStruct_field
       (unmarshalValue sampleParseWithName sampleUnmarshaler)
       dataMap rv EmptyString field
     <> Return (val rv) None.
Proof.
  cbv zeta. split; [left; reflexivity|]. split; [reflexivity|].
  split; [reflexivity|]. split; [reflexivity|].
  intro H. vm_compute in H. discriminate H.
Qed.



(** C5 with the sample parser and the sample engine. *)
Lemma C5_witness :
  exists err,
    Unmarshal sampleParseWithName sampleUnmarshaler
              (mapOf [("inner", anyMap [("value", GoString "invalid")])])
              (newOf Nested)
    = Return (newOf Nested) (Some err)
    /\ AsConversionError err
       = Some (ConversionError "inner.value" (GoString "invalid") goInt
                               (Some (ErrorString "invalid syntax")))
    /\ option_map FieldPath_of (AsConversionError err)
       = Some (Some "inner.value").
Proof.
  exact (C5_nested_error_path sampleParseWithName sampleUnmarshaler convertInt
           None (ErrorString "invalid syntax") [] []
           eq_refl eq_refl eq_refl eq_refl eq_refl eq_refl eq_refl).
Defined.

(** C6 (amended) on a slot of the struct with one [int] field tagged
    [schema:"value"]: a [map[string]any] is decoded field by field; a
    string is a conversion error without cause. *)
Lemma C6_witness :
  let rv := slot NestedInner (zero NestedInner) in
  CanSet rv = true /\ Value_Kind rv = KStruct
  /\ Find (converters sampleUnmarshaler) (typ rv) = None
  /\ unmarshalValue sampleParseWithName sampleUnmarshaler
                    (anyMap [("value", VInt goInt 5)]) rv "inner"
     = Return (VStruct NestedInner [VInt goInt 5]) None
  /\ unmarshalValue sampleParseWithName sampleUnmarshaler
                    (GoString "x") rv "inner"
     = Return (val rv)
              (Some (ConversionError "inner" (GoString "x") NestedInner None)).
Proof.
  cbv zeta. split; [reflexivity|]. split; [reflexivity|]. split; [reflexivity|].
  split.
  - destruct (C6_record_slot sampleParseWithName sampleUnmarshaler
                (anyMap [("value", VInt goInt 5)])
                (slot NestedInner (zero NestedInner)) "inner"
                eq_refl eq_refl eq_refl eq_refl) as [Hmap _].
    rewrite (Hmap (mapOf [("value", VInt goInt 5)]) eq_refl). reflexivity.
  - destruct (C6_record_slot sampleParseWithName sampleUnmarshaler
                (GoString "x") (slot NestedInner (zero NestedInner)) "inner"
                eq_refl eq_refl eq_refl eq_refl) as [_ [Hother _]].
    rewrite (Hother eq_refl). reflexivity.
Defined.

(** C6 as stated fails on a string-keyed map that is not a
    [map[string]any]: decoding the [map[string]string] {"value": "5"}
    into the struct slot does not proceed field by field, it is a
    conversion error without cause. *)
Lemma C6_counterexample :
  let rv := slot NestedInner (zero NestedInner) in
  let data := stringMap [("value", "5")] in
  CanSet rv = true /\ Value_Kind rv = KStruct
  /\ Find (converters sampleUnmarshaler) (typ rv) = None
  /\ notAssignable data (typ rv)
  /\ isStringKeyedMap data = true
  /\ unmarshalValue sampleParseWithName sampleUnmarshaler data rv "inner"
     = Return (val rv)
              (Some (ConversionError "inner" data NestedInner None))
  /\ unmarshalValue sampleParseWithName sampleUnmarshaler
                    (anyMap [("value", GoString "5")]) rv "inner"
     = Return (VStruct NestedInner [VInt goInt 5]) None.
Proof. cbv zeta. repeat split. Qed.

(** C7 (amended) on an [[]int] slot holding [1]: nil gives the nil
    slice, a string a conversion error without cause, a nil [[]string]
    and an empty [[]any] the empty non-nil slice. *)
Lemma C7_witness :
  let rv := slot (TSlice goInt) (intSlice [1]) in
  CanSet rv = true /\ Value_Kind rv = KSlice
  /\ Find (converters sampleUnmarshaler) (typ rv) = None
  /\ unmarshalValue sampleParseWithName sampleUnmarshaler VNil rv "Values"
     = Return (VSlice (TSlice goInt) None) None
  /\ unmarshalValue sampleParseWithName sampleUnmarshaler
                    (GoString "not a slice") rv "Values"
     = Return (val rv)
              (Some (ConversionError "Values" (GoString "not a slice")
                                     (TSlice goInt) None))
  /\ unmarshalValue sampleParseWithName sampleUnmarshaler
                    (VSlice (TSlice goString) None) rv "Values"
     = Return (VSlice (TSlice goInt) (Some [])) None
  /\ unmarshalValue sampleParseWithName sampleUnmarshaler
                    (anySlice []) rv "Values"
     = Return (VSlice (TSlice goInt) (Some [])) None.
Proof.
  cbv zeta. split; [reflexivity|]. split; [reflexivity|]. split; [reflexivity|].
  split; [|split; [|split]].
  - destruct (C7_sequence_slot sampleParseWithName sampleUnmarshaler VNil
                (slot (TSlice goInt) (intSlice [1])) "Values"
                eq_refl eq_refl eq_refl) as [Hnil _].
    exact (Hnil eq_refl).
  - destruct (C7_sequence_slot sampleParseWithName sampleUnmarshaler
                (GoString "not a slice")
                (slot (TSlice goInt) (intSlice [1])) "Values"
                eq_refl eq_refl eq_refl) as [_ [Hshape _]].
    apply (Hshape goString eq_refl); discriminate.
  - destruct (C7_sequence_slot sampleParseWithName sampleUnmarshaler
                (VSlice (TSlice goString) None)
                (slot (TSlice goInt) (intSlice [1])) "Values"
                eq_refl eq_refl eq_refl) as [_ [_ [Hempty _]]].
    apply (Hempty (mkValue (TSlice goString) (VSlice (TSlice goString) None)
                           false false) eq_refl);
      [left; reflexivity|reflexivity|reflexivity].
  - destruct (C7_sequence_slot sampleParseWithName sampleUnmarshaler
                (anySlice [])
                (slot (TSlice goInt) (intSlice [1])) "Values"
                eq_refl eq_refl eq_refl) as [_ [_ [Hempty _]]].
    apply (Hempty (mkValue (TSlice TInterface) (anySlice []) false false)
                  eq_refl);
      [left; reflexivity|reflexivity|reflexivity].
Defined.

(** C7 as stated fails on a nil slice of the slot's own type: [[]int(nil)]
    is no nil interface and is a sequence without element, the slot is
    of kind slice and [[]int] has no converter; the destination comes
    out nil, not empty and non-nil. *)
Lemma C7_counterexample :
  let rv := slot (TSlice goInt) (intSlice [1]) in
  let data := VSlice (TSlice goInt) None in
  CanSet rv = true /\ Value_Kind rv = KSlice
  /\ Find (converters sampleUnmarshaler) (typ rv) = None
  /\ data <> VNil
  /\ option_map Value_Kind (ValueOf data) = Some KSlice
  /\ option_map Len (ValueOf data) = Some O
  /\ unmarshalValue sampleParseWithName sampleUnmarshaler data rv "Values"
     = Return (VSlice (TSlice goInt) None) None
  /\ ~ (exists l,
          unmarshalValue sampleParseWithName sampleUnmarshaler data rv "Values"
          = Return (VSlice (TSlice goInt) (Some l)) None)
  /\ Unmarshal sampleParseWithName sampleUnmarshaler
               (mapOf [("Values", data)]) (newOf SliceInt)
     = Return (VPtr (TPointer SliceInt)
                    (Some (VStruct SliceInt [VSlice (TSlice goInt) None])))
              None.
Proof.
  cbv zeta. split; [reflexivity|]. split; [reflexivity|]. split; [reflexivity|].
  split; [discriminate|]. split; [reflexivity|]. split; [reflexivity|].
  split; [reflexivity|]. split; [|reflexivity].
  intros [l H]. vm_compute in H. discriminate H.
Qed.

(** C8 on an [int], on a nil [*SliceInt] and on a fresh [&SliceInt{}]. *)
Lemma C8_witness :
  Kind_of_any (VInt goInt 3) <> KPointer
  /\ Unmarshal sampleParseWithName sampleUnmarshaler
               (mapOf [("Values", intSlice [1])]) (VInt goInt 3)
     = Return (VInt goInt 3) (Some (ValidationError "result must be a pointer"))
  /\ Unmarshal sampleParseWithName sampleUnmarshaler
               (mapOf [("Values", intSlice [1])]) (VPtr (TPointer SliceInt) None)
     = Return (VPtr (TPointer SliceInt) None)
              (Some (ValidationError "result pointer is nil"))
  /\ noValidationError
       (Unmarshal sampleParseWithName sampleUnmarshaler
                  (mapOf [("Values", GoString "not a slice")]) (newOf SliceInt)).
Proof.
  split; [discriminate|]. split; [|split].
  - destruct (C8_result_pointer_validation sampleParseWithName sampleUnmarshaler
                (mapOf [("Values", intSlice [1])]) (VInt goInt 3)) as [H _].
    apply H. discriminate.
  - destruct (C8_result_pointer_validation sampleParseWithName sampleUnmarshaler
                (mapOf [("Values", intSlice [1])]) (VPtr (TPointer SliceInt) None))
      as [_ [H _]].
    apply H. reflexivity.
  - destruct (C8_result_pointer_validation sampleParseWithName sampleUnmarshaler
                (mapOf [("Values", GoString "not a slice")]) (newOf SliceInt))
      as [_ [_ H]].
    apply H; reflexivity.
Defined.

(** C9 (amended) on the [Ignored] field of [Audited], tagged
    [schema:"-"], with no converter for [Audited]: a source mapping with
    the key "Ignored" leaves the field at 0, decoded into a slot or
    through a pointer. *)
Lemma C9_witness :
  let f := toStructField (exported "Ignored" [("schema", "-")] goInt) in
  let m := mapOf [("Ignored", VInt goInt 7); ("count", VInt goInt 1)] in
  let s := VStruct Audited [zero Metadata; VInt goInt 1; VInt goInt 0] in
  Type_Field Audited 2 = Some f
  /\ tagName (fieldCache sampleUnmarshaler) <> "-"
  /\ skipAnnotated sampleParseWithName (fieldCache sampleUnmarshaler) f
  /\ Find (converters sampleUnmarshaler) Audited = None
  /\ unmarshalValue sampleParseWithName sampleUnmarshaler (VMap mapStringAny m)
                    (slot Audited (zero Audited)) EmptyString
     = Return s None
  /\ field_at s 2 = field_at (zero Audited) 2
  /\ Unmarshal sampleParseWithName sampleUnmarshaler m (newOf Audited)
     = Return (VPtr (TPointer Audited) (Some s)) None
  /\ exists s', VPtr (TPointer Audited) (Some s) = VPtr (TPointer Audited) (Some s')
                /\ field_at s' 2 = field_at (zero Audited) 2.
Proof.
  cbv zeta.
  assert (Hskip : skipAnnotated sampleParseWithName (fieldCache sampleUnmarshaler)
                    (toStructField (exported "Ignored" [("schema", "-")] goInt))).
  { left. reflexivity. }
  assert (Htag : tagName (fieldCache sampleUnmarshaler) <> "-").
  { discriminate. }
  destruct (C9_skipped_field sampleParseWithName sampleUnmarshaler Audited 2
              (toStructField (exported "Ignored" [("schema", "-")] goInt))
              eq_refl Htag Hskip) as [_ Hdecode].
  destruct (Hdecode eq_refl) as [Hkeep [_ Hpointer]].
  split; [reflexivity|]. split; [exact Htag|]. split; [exact Hskip|].
  split; [reflexivity|]. split; [reflexivity|]. split; [|split; [reflexivity|]].
  - apply (Hkeep (mapOf [("Ignored", VInt goInt 7); ("count", VInt goInt 1)])
                 (slot Audited (zero Audited)) EmptyString _ None eq_refl).
    reflexivity.
  - apply (Hpointer (mapOf [("Ignored", VInt goInt 7); ("count", VInt goInt 1)])
                    (TPointer Audited) (zero Audited) _ None eq_refl eq_refl).
    reflexivity.
Defined.

(** C9 as stated fails where a converter is registered for the record
    type itself: the [Ignored] field of [Audited] is tagged [schema:"-"]
    and has no entry in the descriptor, yet decoding the source mapping
    {"Ignored": 7} with [convertAudited] registered for [Audited] leaves
    7 in the field, since the converter of the slot's type is asked
    before the field loop is reached. *)
Lemma C9_counterexample :
  let f := toStructField (exported "Ignored" [("schema", "-")] goInt) in
  let m := mapOf [("Ignored", VInt goInt 7)] in
  let s := VStruct Audited [zero Metadata; VInt goInt 0; VInt goInt 7] in
  Type_Field Audited 2 = Some f
  /\ Tag_Get (Tag f) (tagName (fieldCache auditedUnmarshaler)) = "-"
  /\ (forall fm,
        In fm (Fields (buildMetadata sampleParseWithName
                         (fieldCache auditedUnmarshaler) Audited)) ->
        Index fm <> 2%nat)
  /\ Find (converters auditedUnmarshaler) Audited = Some convertAudited
  /\ Unmarshal sampleParseWithName auditedUnmarshaler m (newOf Audited)
     = Return (VPtr (TPointer Audited) (Some s)) None
  /\ field_at s 2 = Some (VInt goInt 7)
  /\ field_at (zero Audited) 2 = Some (VInt goInt 0)
  /\ field_at s 2 <> field_at (zero Audited) 2.
Proof.
  cbv zeta. split; [reflexivity|]. split; [reflexivity|]. split.
  - intros fm Hin. vm_compute in Hin.
    destruct Hin as [<-|[<-|[]]]; discriminate.
  - split; [reflexivity|]. split; [reflexivity|]. split; [reflexivity|].
    split; [reflexivity|]. discriminate.
Qed.

(** C10 on the embedded [Metadata] field of [Audited], tagged
    [default:"v1"]: the descriptor holds the literal, and the step of
    the loop on the empty mapping is the step without it. *)
Lemma C10_witness :
  Embedded Audited_Metadata = true
  /\ In Audited_Metadata
        (Fields (buildMetadata sampleParseWithName
                   (fieldCache sampleUnmarshaler) Audited))
  /\ Default Audited_Metadata = Some "v1"
  /\ unmarshalStruct_field
       (unmarshalValue sampleParseWithName sampleUnmarshaler)
       (mapOf []) (slot Audited (zero Audited)) EmptyString
       (withDefault Audited_Metadata None)
     = unmarshalStruct_field
         (unmarshalValue sampleParseWithName sampleUnmarshaler)
         (mapOf []) (slot Audited (zero Audited)) EmptyString Audited_Metadata
  /\ unmarshalStruct_field
       (unmarshalValue sampleParseWithName sampleUnmarshaler)
       (mapOf []) (slot Audited (zero Audited)) EmptyString Audited_Metadata
     = Return (zero Audited) None.
Proof.
  split; [reflexivity|]. split; [left; reflexivity|]. split; [reflexivity|].
  destruct (C10_embedded_default_unused sampleParseWithName sampleUnmarshaler
              (mapOf []) (slot Audited (zero Audited)) EmptyString Audited_Metadata
              eq_refl) as [Hstep [_ [_ Habsent]]].
  split; [exact (Hstep None)|].
  destruct (Habsent (slot Metadata (zero Metadata)) eq_refl eq_refl)
    as [Hpromoted _].
  rewrite (Hpromoted eq_refl). reflexivity.
Defined.

(* ================================================================== *)
(** ** Pointer slots, unsupported kinds, and what an error leaves *)
(* ================================================================== *)

Lemma zeroAs_pointer (tag shape e : rtype) :
  underlying_of shape = TPointer e -> zeroAs tag shape = VPtr tag None.
Proof.
  induction shape; simpl; intro H; try discriminate; auto.
Qed.

Lemma Type_Kind_pointer (t : rtype) :
  Type_Kind t = KPointer -> exists e, underlying_of t = TPointer e.
Proof.
  unfold Type_Kind. destruct (underlying_of t) as [b| | | |e| | |];
    try discriminate; [destruct b; discriminate|]. eauto.
Qed.

Lemma AssignableTo_unnamed_pointer (t e : rtype) :
  underlying_of t = TPointer e -> AssignableTo (TPointer e) t = true.
Proof.
  intro Hu. unfold AssignableTo, directlyAssignable.
  destruct (rtype_eqb t (TPointer e)); [reflexivity|].
  simpl hasName. rewrite andb_false_r. simpl.
  unfold Type_Kind. rewrite Hu. simpl. rewrite rtype_eqb_refl. reflexivity.
Qed.

Lemma SetValue_no_error (rv : Value) (x : option Value) (s : value) (e : error) :
  SetValue rv x <> Return s (Some e).
Proof.
  unfold SetValue. destruct (negb (CanSet rv)); [discriminate|].
  destruct x as [xv|]; [|discriminate].
  destruct (flagRO xv); [discriminate|].
  destruct (assignTo (typ rv) xv); discriminate.
Qed.

Lemma unmarshalPtr_non_nil self data rv path :
  data <> VNil ->
  unmarshalPtr self data rv path
  = match (if IsNil rv
           then match Type_Elem (typ rv) with
                | Some e => SetValue rv (Some (New e))
                | None => Panic "reflect: Elem of invalid type"
                end
           else Return (val rv) None) with
    | Return p _ =>
        match Elem (with_val rv p) with
        | Some pointee =>
            match self data pointee path with
            | Return x err => Return (store_elem p x) err
            | Panic m => Panic m
            end
        | None => Panic "reflect: call of reflect.Value.Elem on invalid Value"
        end
    | Panic m => Panic m
    end.
Proof. intro H. destruct data; try reflexivity. contradiction. Qed.

Section PointerSlots.

Variable ParseWithName : string -> tagparser.Tag * option error.
Variable u : Unmarshaler.

(** X1.  Decoding through a pointer.  On a settable pointer slot with no
    converter for the pointer type and a value that is not directly
    assignable: nil makes the pointer nil; any other value is decoded
    into the pointee, in place when the pointer is not nil, and into a
    fresh zero pointee when it is; the pointer then points to what the
    decoding left, also when the decoding failed. *)
Theorem X1_pointer_slot (data : value) (rv : Value) (path : string) (e : rtype) :
  CanSet rv = true -> Value_Kind rv = KPointer ->
  Type_Elem (typ rv) = Some e ->
  Find (converters u) (typ rv) = None ->
  notAssignable data (typ rv) ->
  (data = VNil ->
   unmarshalValue ParseWithName u data rv path
   = Return (VPtr (typ rv) None) None)
  /\
  (data <> VNil -> IsNil rv = true ->
   unmarshalValue ParseWithName u data rv path
   = match unmarshalValue ParseWithName u data (elementSlot e) path with
     | Return x err => Return (VPtr (typ rv) (Some x)) err
     | Panic m => Panic m
     end)
  /\
  (data <> VNil ->
   forall t p, val rv = VPtr t (Some p) ->
   unmarshalValue ParseWithName u data rv path
   = match unmarshalValue ParseWithName u data (mkValue e p true false) path with
     | Return x err => Return (VPtr t (Some x)) err
     | Panic m => Panic m
     end).
Proof.
  intros Hs Hk He Hf Hn.
  destruct (Type_Kind_pointer _ Hk) as [e' Hu].
  assert (e' = e).
  { unfold Type_Elem in He. rewrite Hu in He. congruence. }
  subst e'.
  destruct (proj1 (andb_true_iff _ _) Hs) as [_ Hro'].
  assert (Hro : flagRO rv = false) by (destruct (flagRO rv); [discriminate|reflexivity]).
  assert (E : unmarshalValue ParseWithName u data rv path
              = unmarshalPtr (unmarshalValue ParseWithName u) data rv path).
  { rewrite unmarshalValue_dispatch by assumption. rewrite Hk. reflexivity. }
  split; [|split].
  - intros ->. rewrite E. simpl.
    rewrite SetValue_assignable; auto using AssignableTo_refl.
    unfold stored. unfold Value_Kind in Hk. simpl. rewrite Hk. simpl.
    unfold zero. rewrite (zeroAs_pointer _ _ e Hu). reflexivity.
  - intros Hd Hnil. rewrite E, unmarshalPtr_non_nil; auto.
    rewrite Hnil, He.
    rewrite SetValue_assignable;
      [|exact Hs|reflexivity|apply AssignableTo_unnamed_pointer; exact Hu].
    unfold stored. unfold Value_Kind in Hk. rewrite Hk. simpl.
    unfold Elem, Value_Kind. simpl. rewrite He, Hk, Hro. simpl.
    reflexivity.
  - intros Hd t p Hv. rewrite E, unmarshalPtr_non_nil; auto.
    unfold IsNil. rewrite Hv. unfold Value_Kind in Hk.
    unfold Elem, Value_Kind. simpl. rewrite He, Hk, Hro. simpl.
    reflexivity.
Qed.

(** X2.  Slots of the other kinds.  On a settable slot whose type is
    the empty interface ([any], under a name or not) every non-nil value
    is stored as it is, whatever the registry holds.  On a settable slot
    that is no pointer, slice or struct, with no converter for its type
    and a value that is not directly assignable (nil, for a slot of the
    empty interface), the destination is left as it was and the error
    is the no-converter error of the path and the type, which is no
    conversion error. *)
Theorem X2_other_kinds (data : value) (rv : Value) (path : string) :
  CanSet rv = true ->
  (underlying_of (typ rv) = TInterface -> data <> VNil ->
   unmarshalValue ParseWithName u data rv path = Return data None)
  /\
  (Value_Kind rv <> KPointer -> Value_Kind rv <> KSlice ->
   Value_Kind rv <> KStruct ->
   Find (converters u) (typ rv) = None ->
   notAssignable data (typ rv) ->
   unmarshalValue ParseWithName u data rv path
   = Return (val rv) (Some (Errorf_noConverter path (typ rv)))
   /\ AsConversionError (Errorf_noConverter path (typ rv)) = None).
Proof.
  intro Hs. split.
  - intros Hu Hd.
    destruct (TypeOf data) as [dt|] eqn:Ht; [|destruct data; try discriminate; contradiction].
    rewrite (unmarshalValue_assignable ParseWithName u data rv path dt); auto.
    + unfold stored, Type_Kind. rewrite Hu. reflexivity.
    + unfold AssignableTo, implements. rewrite Hu. apply orb_true_r.
  - intros Hp Hsl Hst Hf Hn. split; [|reflexivity].
    rewrite unmarshalValue_dispatch; auto.
    destruct (Value_Kind rv); try reflexivity; contradiction.
Qed.

Lemma unmarshalSlice_error_keeps self data rv path s e :
  unmarshalSlice self data rv path = Return s (Some e) -> s = val rv.
Proof.
  unfold unmarshalSlice.
  destruct (ValueOf data) as [dataVal|];
    [|intro H; apply SetValue_no_error in H; contradiction].
  destruct (_ && _); [intro H; inversion H; reflexivity|].
  destruct (Nat.eqb _ _); [intro H; apply SetValue_no_error in H; contradiction|].
  unfold unmarshalSliceElements.
  destruct (MakeSlice (typ rv) (Len dataVal)) as [slice|]; [|discriminate].
  destruct (Type_Elem (typ rv)) as [se|]; [|discriminate].
  destruct (AssignableTo _ _);
    [intro H; apply SetValue_no_error in H; contradiction|].
  destruct (Type_Elem (typ dataVal)) as [de|]; [|discriminate].
  destruct (rtype_eqb de se);
    [intro H; apply SetValue_no_error in H; contradiction|].
  destruct (Kind_eqb _ _);
    match goal with |- context [forRange ?n O ?b ?x] =>
      destruct (forRange n O b x) as [s' [e'|]|m] end;
    try discriminate;
    try (intro H; inversion H; reflexivity);
    intro H; apply SetValue_no_error in H; contradiction.
Qed.

(** X3.  Only pointer and struct destinations can be left partly
    written: when decoding into a slot of any other kind (a slice among
    them) returns an error, the destination is as it was before the
    call. *)
Theorem X3_error_leaves_destination
  (data : value) (rv : Value) (path : string) (s : value) (e : error) :
  Value_Kind rv <> KPointer -> Value_Kind rv <> KStruct ->
  unmarshalValue ParseWithName u data rv path = Return s (Some e) ->
  s = val rv.
Proof.
  intros Hp Hst. rewrite unmarshalValue_unfold. unfold unmarshalValue_body.
  destruct (negb (CanSet rv)); [intro H; inversion H|].
  destruct (match TypeOf data with
            | Some dataType => AssignableTo dataType (typ rv) | None => false end);
    [intro H; apply SetValue_no_error in H; contradiction|].
  destruct (Find (converters u) (typ rv)) as [conv|].
  - destruct (conv data) as [c [err|]].
    + intro H; inversion H; reflexivity.
    + intro H; apply SetValue_no_error in H; contradiction.
  - destruct (Value_Kind rv); try contradiction;
      try (intro H; inversion H; reflexivity).
    apply unmarshalSlice_error_keeps.
Qed.

End PointerSlots.

(* ================================================================== *)
(** ** Slices: the copying paths and the element-wise path *)
(* ================================================================== *)

Lemma nth_error_app_length {A : Type} (l1 : list A) (x : A) (r : list A) :
  nth_error (l1 ++ x :: r)%list (List.length l1) = Some x.
Proof. induction l1; simpl; auto. Qed.

Lemma list_set_app_length {A : Type} (l1 : list A) (y x : A) (r : list A) :
  list_set (l1 ++ y :: r) (List.length l1) x = (l1 ++ x :: r)%list.
Proof. induction l1; simpl; congruence. Qed.

Lemma copy_elems_fresh (z : value) (l : list value) :
  copy_elems (repeat z (List.length l)) l = l.
Proof.
  unfold copy_elems. rewrite repeat_length, firstn_all.
  rewrite skipn_all2 by (rewrite repeat_length; lia).
  apply app_nil_r.
Qed.

Lemma sequenceOf_ValueOf data t l :
  sequenceOf data t l ->
  ValueOf data = Some (mkValue t data false false)
  /\ TypeOf data = Some t
  /\ Len (mkValue t data false false) = List.length l
  /\ negb (Kind_eqb (Type_Kind t) KSlice) && negb (Kind_eqb (Type_Kind t) KArray)
     = false.
Proof.
  intros [[-> Hk]|[-> Hk]]; unfold ValueOf; simpl; rewrite Hk; auto.
Qed.

Lemma sequenceOf_Index data t l e' i x :
  sequenceOf data t l -> Type_Elem t = Some e' -> nth_error l i = Some x ->
  exists a, Value_Index (mkValue t data false false) i
            = Some (mkValue e' x a false).
Proof.
  intros [[-> Hk]|[-> Hk]] He Hx; unfold Value_Index; simpl;
    rewrite He, Hx; eauto.
Qed.

Lemma decodeElements_length self e path src :
  forall i xs, decodeElements self e path i src = Elements xs ->
               List.length xs = List.length src.
Proof.
  induction src as [|x rest IH]; simpl; intros i xs H.
  - inversion H. reflexivity.
  - destruct (self x (elementSlot e) (elemPath path i)) as [y [err|]|m];
      try discriminate.
    destruct (decodeElements self e path (S i) rest) as [ys| |] eqn:E;
      try discriminate.
    inversion H. simpl. f_equal. eapply IH; eauto.
Qed.

(** The loop of the element-wise path, from any index on: it fills the
    fresh slice with what [decodeElements] gives. *)
Lemma forRange_decodeElements (t e : rtype) self path
  (body : nat -> value -> outcome) (full : list value) :
  (forall ys x k, nth_error full (List.length ys) = Some x ->
     body (List.length ys) (VSlice t (Some (ys ++ zero e :: repeat (zero e) k)%list))
     = match self x (elementSlot e) (elemPath path (List.length ys)) with
       | Return y err =>
           Return (VSlice t (Some (ys ++ y :: repeat (zero e) k)%list)) err
       | Panic m => Panic m
       end) ->
  forall l2 l1 ys i, full = (l1 ++ l2)%list ->
    List.length ys = i -> List.length l1 = i ->
    match decodeElements self e path i l2 with
    | Elements xs =>
        forRange (List.length l2) i body
                 (VSlice t (Some (ys ++ repeat (zero e) (List.length l2))%list))
        = Return (VSlice t (Some (ys ++ xs)%list)) None
    | ElementError err =>
        exists s,
        forRange (List.length l2) i body
                 (VSlice t (Some (ys ++ repeat (zero e) (List.length l2))%list))
        = Return s (Some err)
    | ElementPanic m =>
        forRange (List.length l2) i body
                 (VSlice t (Some (ys ++ repeat (zero e) (List.length l2))%list))
        = Panic m
    end.
Proof.
  intros Hbody. induction l2 as [|x l2 IH]; intros l1 ys i Hfull Hys Hl1.
  - simpl. reflexivity.
  - subst i. simpl.
    assert (Hx : nth_error full (List.length ys) = Some x).
    { rewrite Hfull, <- Hl1. apply nth_error_app_length. }
    rewrite (Hbody ys x (List.length l2) Hx).
    destruct (self x (elementSlot e) (elemPath path (List.length ys)))
      as [y [err|]|m]; eauto.
    specialize (IH (l1 ++ [x])%list (ys ++ [y])%list (S (List.length ys))).
    rewrite <- app_assoc in IH. simpl in IH.
    rewrite !length_app in IH. simpl in IH.
    specialize (IH Hfull (Nat.add_1_r _)).
    rewrite Hl1 in IH. specialize (IH (Nat.add_1_r _)).
    rewrite <- !app_assoc in IH. simpl in IH.
    destruct (decodeElements self e path (S (List.length ys)) l2)
      as [xs|err|m]; auto.
    rewrite IH, <- app_assoc. reflexivity.
Qed.

Lemma SetValue_fresh_slice rv e l a :
  CanSet rv = true -> underlying_of (typ rv) = TSlice e ->
  SetValue rv (Some (mkValue (typ rv) (VSlice (typ rv) (Some l)) a false))
  = Return (VSlice (typ rv) (Some l)) None.
Proof.
  intros Hs Hu. rewrite SetValue_assignable; auto using AssignableTo_refl.
  unfold stored. simpl. unfold Type_Kind. rewrite Hu. reflexivity.
Qed.

Section SlicePaths.

Variable ParseWithName : string -> tagparser.Tag * option error.
Variable u : Unmarshaler.

(** The element-wise path of [unmarshalSliceElements], for any decoder
    of the elements. *)
Lemma unmarshalSliceElements_elementwise self data rv path t l e e' :
  CanSet rv = true -> underlying_of (typ rv) = TSlice e ->
  sequenceOf data t l -> Type_Elem t = Some e' ->
  AssignableTo t (typ rv) = false -> rtype_eqb e' e = false ->
  Type_Kind e <> KInterface ->
  unmarshalSliceElements self (mkValue t data false false) rv path
                         (List.length l)
  = match decodeElements self e path O l with
    | Elements xs => Return (VSlice (typ rv) (Some xs)) None
    | ElementError err => Return (val rv) (Some err)
    | ElementPanic m => Panic m
    end.
Proof.
  intros Hs Hu Hseq He' Hna Hne Hk.
  unfold unmarshalSliceElements, MakeSlice, Type_Elem at 1. rewrite Hu.
  simpl typ. rewrite Hna, He', Hne.
  destruct (Kind_eqb (Type_Kind e) KInterface) eqn:Ek;
    [apply Kind_eqb_eq in Ek; contradiction|].
  simpl val.
  match goal with |- context [forRange _ O ?b _] => set (body := b) end.
  assert (Hbody : forall ys x k, nth_error l (List.length ys) = Some x ->
     body (List.length ys)
          (VSlice (typ rv) (Some (ys ++ zero e :: repeat (zero e) k)%list))
     = match self x (elementSlot e) (elemPath path (List.length ys)) with
       | Return y err =>
           Return (VSlice (typ rv) (Some (ys ++ y :: repeat (zero e) k)%list)) err
       | Panic m => Panic m
       end).
  { intros ys x k Hx. unfold body.
    destruct (sequenceOf_Index _ _ _ _ _ _ Hseq He' Hx) as [a ->].
    unfold Value_Index, with_val. simpl. unfold Type_Elem. rewrite Hu.
    rewrite nth_error_app_length. unfold Interface, elementSlot. simpl.
    destruct (self x _ _) as [y err|m]; auto.
    rewrite list_set_app_length. reflexivity. }
  pose proof (forRange_decodeElements (typ rv) e self path body l Hbody
                l [] [] O eq_refl eq_refl eq_refl) as H.
  simpl in H.
  destruct (decodeElements self e path O l) as [xs|err|m].
  - rewrite H. unfold with_val. simpl.
    apply SetValue_fresh_slice with (e := e); auto.
  - destruct H as [s ->]. reflexivity.
  - rewrite H. reflexivity.
Qed.

(** X4.  Where no element needs converting, none is converted.  On a
    settable slice slot with no converter for the slice type, a non-nil
    slice or an array whose type is assignable to the slot's, or whose
    element type is the slot's element type, or any at all when the
    slot's element type is the empty interface ([any], under a name or
    not), is taken over element for element: the destination becomes a
    slice of the slot's type with exactly the elements of the source. *)
Theorem X4_elements_taken_over
  (data : value) (rv : Value) (path : string) (t e e' : rtype) (l : list value) :
  CanSet rv = true -> underlying_of (typ rv) = TSlice e ->
  Find (converters u) (typ rv) = None ->
  sequenceOf data t l -> Type_Elem t = Some e' ->
  AssignableTo t (typ rv) = true \/ rtype_eqb e' e = true
  \/ underlying_of e = TInterface ->
  unmarshalValue ParseWithName u data rv path
  = Return (VSlice (typ rv) (Some l)) None.
Proof.
  intros Hs Hu Hf Hseq He' Hany.
  assert (Hor : AssignableTo t (typ rv) = true \/ rtype_eqb e' e = true
                \/ Type_Kind e = KInterface).
  { destruct Hany as [H|[H|H]]; auto.
    right; right. unfold Type_Kind. rewrite H. reflexivity. }
  clear Hany.
  assert (Hk : Value_Kind rv = KSlice).
  { unfold Value_Kind, Type_Kind. rewrite Hu. reflexivity. }
  destruct (sequenceOf_ValueOf _ _ _ Hseq) as (Hv & Ht & Hlen & Hkind).
  destruct (AssignableTo t (typ rv)) eqn:Ha.
  - rewrite (unmarshalValue_assignable ParseWithName u data rv path t); auto.
    unfold stored. unfold Value_Kind in Hk. rewrite Hk. simpl.
    assert (Hkt : Type_Kind t = KSlice).
    { rewrite (AssignableTo_Kind _ _ Ha); auto. rewrite Hk. discriminate. }
    destruct Hseq as [[-> _]|[-> Hka]]; [reflexivity|].
    rewrite Hkt in Hka. discriminate.
  - rewrite unmarshalValue_dispatch; auto;
      [|unfold notAssignable; rewrite Ht; exact Ha].
    rewrite Hk. unfold unmarshalSlice. rewrite Hv.
    unfold Value_Kind at 1 2. simpl typ. rewrite Hkind, Hlen.
    destruct l as [|x0 l0] eqn:El.
    + simpl. apply SetValue_MakeSlice_empty; auto.
    + rewrite <- El in *. replace (Nat.eqb (List.length l) O) with false
        by (rewrite El; reflexivity).
      destruct (rtype_eqb e' e) eqn:Ee.
      * unfold unmarshalSliceElements, MakeSlice, Type_Elem at 1. rewrite Hu.
        simpl typ. rewrite Ha, He', Ee.
        assert (Hc : Copy (mkValue (typ rv)
                             (VSlice (typ rv) (Some (repeat (zero e) (List.length l))))
                             false false)
                          (mkValue t data false false)
                     = mkValue (typ rv) (VSlice (typ rv) (Some l)) false false).
        { unfold Copy, with_val. simpl.
          destruct Hseq as [[-> _]|[-> _]]; rewrite copy_elems_fresh;
            reflexivity. }
        rewrite Hc. apply SetValue_fresh_slice with (e := e); auto.
      * destruct Hor as [Hor|[Hor|Hor]]; try discriminate.
        unfold unmarshalSliceElements, MakeSlice, Type_Elem at 1. rewrite Hu.
        simpl typ. rewrite Ha, He', Ee, Hor. simpl Kind_eqb. cbv iota.
        simpl val.
        match goal with |- context [forRange _ O ?b _] => set (body := b) end.
        set (self := fun (x : value) (slot : Value) (_ : string) =>
                       Return x (@None error)).
        assert (Hbody : forall ys x k, nth_error l (List.length ys) = Some x ->
           body (List.length ys)
                (VSlice (typ rv) (Some (ys ++ zero e :: repeat (zero e) k)%list))
           = match self x (elementSlot e) (elemPath path (List.length ys)) with
             | Return y err =>
                 Return (VSlice (typ rv) (Some (ys ++ y :: repeat (zero e) k)%list)) err
             | Panic m => Panic m
             end).
        { intros ys x k Hx. unfold body, self.
          destruct (sequenceOf_Index _ _ _ _ _ _ Hseq He' Hx) as [a ->].
          unfold Value_Index, with_val. simpl. unfold Type_Elem. rewrite Hu.
          rewrite nth_error_app_length.
          rewrite SetValue_assignable; [|reflexivity|reflexivity|].
          - unfold stored. simpl. rewrite Hor. simpl.
            rewrite list_set_app_length. reflexivity.
          - simpl. unfold AssignableTo. rewrite implements_Kind, Hor.
            apply orb_true_r. }
        pose proof (forRange_decodeElements (typ rv) e self path body l Hbody
                      l [] [] O eq_refl eq_refl eq_refl) as H.
        simpl in H.
        assert (Hd : forall src i, decodeElements self e path i src = Elements src).
        { induction src as [|x src IH]; intro i; simpl; auto.
          rewrite IH. reflexivity. }
        rewrite Hd in H. rewrite H. unfold with_val. simpl.
        apply SetValue_fresh_slice with (e := e); auto.
Qed.

(** X5.  The element-wise path.  On a settable slice slot with no
    converter for the slice type, a non-nil slice or an array that none
    of the copying paths takes is decoded element by element, in the
    order of the indices, each element into a fresh zero element under
    the path of its index, [path[i]].  The first element that fails ends
    the decoding with its error and the destination as it was; when none
    fails, the destination is a fresh slice of the decoded elements, as
    many as the source has. *)
Theorem X5_elementwise_path
  (data : value) (rv : Value) (path : string) (t e e' : rtype) (l : list value) :
  CanSet rv = true -> underlying_of (typ rv) = TSlice e ->
  Find (converters u) (typ rv) = None ->
  sequenceOf data t l -> Type_Elem t = Some e' ->
  AssignableTo t (typ rv) = false -> rtype_eqb e' e = false ->
  Type_Kind e <> KInterface ->
  unmarshalValue ParseWithName u data rv path
  = match decodeElements (unmarshalValue ParseWithName u) e path O l with
    | Elements xs => Return (VSlice (typ rv) (Some xs)) None
    | ElementError err => Return (val rv) (Some err)
    | ElementPanic m => Panic m
    end
  /\ forall xs,
       decodeElements (unmarshalValue ParseWithName u) e path O l = Elements xs ->
       List.length xs = List.length l.
Proof.
  intros Hs Hu Hf Hseq He' Ha Hne Hki.
  split; [|intros xs; apply decodeElements_length].
  assert (Hk : Value_Kind rv = KSlice).
  { unfold Value_Kind, Type_Kind. rewrite Hu. reflexivity. }
  destruct (sequenceOf_ValueOf _ _ _ Hseq) as (Hv & Ht & Hlen & Hkind).
  rewrite unmarshalValue_dispatch; auto;
    [|unfold notAssignable; rewrite Ht; exact Ha].
  rewrite Hk. unfold unmarshalSlice. rewrite Hv.
  unfold Value_Kind at 1 2. simpl typ. rewrite Hkind, Hlen.
  destruct l as [|x0 l0] eqn:El.
  - simpl. apply SetValue_MakeSlice_empty; auto.
  - rewrite <- El in *. replace (Nat.eqb (List.length l) O) with false
      by (rewrite El; reflexivity).
    apply unmarshalSliceElements_elementwise with (t := t) (e' := e'); auto.
Qed.

End SlicePaths.

(* ================================================================== *)
(** ** The descriptor of a struct type and its cache *)
(* ================================================================== *)

Lemma FieldMetadata_eta (fm : FieldMetadata) :
  fm = mkFieldMetadata (StructFieldName fm) (MapKey fm) (Index fm) (Type_ fm)
                       (Embedded fm) (Default fm).
Proof. destruct fm; reflexivity. Qed.

Section Descriptor.

Variable ParseWithName : string -> tagparser.Tag * option error.

Lemma parseFieldTag_key tagValue fieldName key :
  parseFieldTag ParseWithName tagValue fieldName = (key, false) ->
  key = fieldName \/ (key <> EmptyString /\ key <> "-").
Proof.
  unfold parseFieldTag.
  destruct (String.eqb tagValue EmptyString);
    [intro H; inversion H; auto|].
  destruct (String.eqb tagValue "-"); [discriminate|].
  destruct (ParseWithName tagValue) as [tag err].
  destruct (_ || _) eqn:Eo; [intro H; inversion H; auto|].
  apply orb_false_iff in Eo as [_ E2].
  destruct (String.eqb (tagparser.Name tag) "-") eqn:E1; [discriminate|].
  intro H; inversion H; subst key. right.
  split; intro E; rewrite E in *; discriminate.
Qed.

Lemma buildMetadata_fields_complete c fs : forall i k f key,
  nth_error fs k = Some f -> IsExported f = true ->
  keyOf ParseWithName c f = (key, false) ->
  In (entryOf c (i + k) f key) (buildMetadata_fields ParseWithName c i fs).
Proof.
  induction fs as [|f0 fs IH]; intros i k f key Hn Hex Hkey.
  - destruct k; discriminate.
  - destruct k as [|k]; simpl in Hn.
    + inversion Hn; subst f0. simpl. rewrite Hex. simpl.
      unfold keyOf in Hkey. rewrite Hkey. left.
      rewrite Nat.add_0_r. reflexivity.
    + assert (Hin : In (entryOf c (i + S k) f key)
                       (buildMetadata_fields ParseWithName c (S i) fs)).
      { replace (i + S k)%nat with (S i + k)%nat by lia. apply IH; auto. }
      simpl. destruct (negb (IsExported f0)); [exact Hin|].
      destruct (if String.eqb (tagName c) "-" then (Name f0, false)
                else parseFieldTag ParseWithName (Tag_Get (Tag f0) (tagName c))
                                   (Name f0)) as [mapKey skip].
      destruct skip; [exact Hin|right; exact Hin].
Qed.

Lemma buildMetadata_fields_sorted c fs : forall i,
  StronglySorted lt (map Index (buildMetadata_fields ParseWithName c i fs)).
Proof.
  induction fs as [|f fs IH]; intro i; simpl; [constructor|].
  destruct (negb (IsExported f)); [apply IH|].
  destruct (if String.eqb (tagName c) "-" then (Name f, false)
            else parseFieldTag ParseWithName (Tag_Get (Tag f) (tagName c))
                               (Name f)) as [mapKey skip].
  destruct skip; [apply IH|].
  simpl. constructor; [apply IH|].
  apply Forall_forall. intros j Hj. apply in_map_iff in Hj as [fm [<- Hin]].
  apply buildMetadata_fields_In in Hin as [k [f' [_ [Hi _]]]]. lia.
Qed.

(** X6.  The descriptor of a struct type holds exactly one entry for
    each exported field whose key annotation does not ask to skip it,
    in the order of declaration: an entry is in the descriptor if and
    only if it is the entry of such a field, at the field's index, under
    the key computed for it; and the indices of the entries increase
    strictly. *)
Theorem X6_descriptor_entries (c : StructMetadataCache) (t : rtype) :
  (forall fm,
     In fm (Fields (buildMetadata ParseWithName c t))
     <-> exists i f key,
           Type_Field t i = Some f /\ IsExported f = true
           /\ keyOf ParseWithName c f = (key, false)
           /\ fm = entryOf c i f key)
  /\ StronglySorted lt (map Index (Fields (buildMetadata ParseWithName c t))).
Proof.
  split; [|apply buildMetadata_fields_sorted].
  intro fm. split.
  - intro H. apply buildMetadata_In in H
      as [f [Hf [Hex [Hn [Ht [He [Hd Hk]]]]]]].
    exists (Index fm), f, (MapKey fm). repeat split; auto.
    unfold entryOf. rewrite <- Hn, <- Ht, <- He, <- Hd.
    apply FieldMetadata_eta.
  - intros [i [f [key [Hf [Hex [Hk ->]]]]]].
    apply (buildMetadata_fields_complete c (Type_Fields t) O i f key); auto.
Qed.

Lemma buildMetadata_fields_sentinel c fs : forall i,
  tagName c = "-" ->
  map (fun fm => (StructFieldName fm, MapKey fm))
      (buildMetadata_fields ParseWithName c i fs)
  = map (fun f => (Name f, Name f)) (filter IsExported fs).
Proof.
  intros i Hc. revert i.
  induction fs as [|f fs IH]; intro i; simpl; [reflexivity|].
  rewrite Hc. simpl. destruct (IsExported f); simpl; [|apply IH].
  f_equal. apply IH.
Qed.

(** X7.  With the key tag name "-" the tags are not read: the
    descriptor has an entry for every exported field, in the order of
    declaration, each under the field's own name, also for a field whose
    tag asks to skip it. *)
Theorem X7_tags_disabled (c : StructMetadataCache) (t : rtype) :
  tagName c = "-" ->
  map (fun fm => (StructFieldName fm, MapKey fm))
      (Fields (buildMetadata ParseWithName c t))
  = map (fun f => (Name f, Name f)) (filter IsExported (Type_Fields t)).
Proof. intro Hc. apply buildMetadata_fields_sentinel. exact Hc. Qed.

(** X8.  The key of a descriptor entry is never empty and never "-":
    where the fields of the type have names that are neither (as Go
    identifiers are), every entry's key is the field's name or a
    non-empty canonical name from its tag, other than "-". *)
Theorem X8_keys_not_empty (c : StructMetadataCache) (t : rtype) :
  (forall f, In f (Type_Fields t) -> Name f <> EmptyString /\ Name f <> "-") ->
  forall fm, In fm (Fields (buildMetadata ParseWithName c t)) ->
             MapKey fm <> EmptyString /\ MapKey fm <> "-".
Proof.
  intros Hnames fm Hin.
  apply buildMetadata_In in Hin as [f [Hf [_ [_ [_ [_ [_ Hk]]]]]]].
  assert (HIn : In f (Type_Fields t)) by (eapply nth_error_In; exact Hf).
  specialize (Hnames f HIn).
  destruct (String.eqb (tagName c) "-").
  - injection Hk as E. rewrite <- E. exact Hnames.
  - apply parseFieldTag_key in Hk as [->|Hk]; auto.
Qed.

(** X9.  The table of the cache.  On a table whose entries are what
    [buildMetadata] gives for their types, [GetMetadata] returns what
    [buildMetadata] gives for the type asked, leaves such a table, never
    drops or changes an entry that was there, and answers the same
    question again with the same descriptor and without touching the
    table. *)
Theorem X9_cache_table (c : StructMetadataCache)
  (table : list (rtype * StructMetadata)) (t : rtype) :
  coherent ParseWithName c table ->
  fst (GetMetadata_stored ParseWithName c table t)
  = buildMetadata ParseWithName c t
  /\ coherent ParseWithName c (snd (GetMetadata_stored ParseWithName c table t))
  /\ (forall t' m, Load table t' = Some m ->
        Load (snd (GetMetadata_stored ParseWithName c table t)) t' = Some m)
  /\ GetMetadata_stored ParseWithName c
       (snd (GetMetadata_stored ParseWithName c table t)) t
     = GetMetadata_stored ParseWithName c table t.
Proof.
  intro Hc.
  destruct (GetMetadata_stored_spec ParseWithName c table t Hc) as [H1 H2].
  split; [exact H1|]. split; [exact H2|].
  unfold GetMetadata_stored, LoadOrStore.
  destruct (Load table t) as [m0|] eqn:E; simpl.
  - split; [auto|]. rewrite E. reflexivity.
  - split.
    + intros t' m Hl. destruct (rtype_eqb t t') eqn:Et; [|exact Hl].
      apply rtype_eqb_eq in Et. subst t'. congruence.
    + rewrite rtype_eqb_refl. reflexivity.
Qed.

End Descriptor.

(* ================================================================== *)
(** ** The errors of the engine and their paths *)
(* ================================================================== *)

Lemma SetValue_errorAt Q path rv x : errorAt Q path (SetValue rv x).
Proof.
  destruct (SetValue rv x) as [s [e|]|m] eqn:E; simpl; auto.
  apply SetValue_no_error in E. contradiction.
Qed.

Lemma forRange_error n body : forall i s s' e,
  forRange n i body s = Return s' (Some e) ->
  exists j s0, body j s0 = Return s' (Some e).
Proof.
  induction n as [|n IH]; intros i s s' e; simpl; [discriminate|].
  destruct (body i s) as [s1 [e1|]|m] eqn:E; try discriminate.
  - intro H; inversion H; subst. eauto.
  - apply IH.
Qed.

Lemma append_assoc (a b c : string) :
  ((a ++ b) ++ c = a ++ (b ++ c))%string.
Proof. induction a; simpl; congruence. Qed.

Lemma append_nil_r (a : string) : (a ++ EmptyString)%string = a.
Proof. induction a; simpl; congruence. Qed.

Lemma engineError_errorPath (e : error) :
  engineError e = true -> exists p, errorPath e = Some p.
Proof.
  induction e; simpl; intro H; try discriminate; eauto.
Qed.

Section ErrorInvariant.

Variable ParseWithName : string -> tagparser.Tag * option error.
Variable u : Unmarshaler.

(** A property of the errors, relative to the path of the call, that
    the four places where the engine builds or passes an error keep. *)
Variable Q : string -> error -> Prop.
Hypothesis Qconversion :
  forall path v t c, Q path (NewConversionError path v t c).
Hypothesis QnoConverter :
  forall path t, Q path (Errorf_noConverter path t).
Hypothesis Qwrap :
  forall path key e, Q (buildFieldPath path key) e ->
                     Q path (Errorf_wrap (buildFieldPath path key) e).
Hypothesis Qelement :
  forall path i e, Q (elemPath path i) e -> Q path e.

Section Body.

Variable self : value -> Value -> string -> outcome.
Hypothesis Hself : forall d rv p, errorAt Q p (self d rv p).

Lemma unmarshalPtr_errorAt data rv path :
  errorAt Q path (unmarshalPtr self data rv path).
Proof.
  unfold unmarshalPtr.
  destruct data; try apply SetValue_errorAt;
    (match goal with |- context [if IsNil rv then ?a else ?b] =>
       destruct (if IsNil rv then a else b) as [q e|msg]; simpl; auto end;
     destruct (Elem (with_val rv q)) as [pointee|]; simpl; auto;
     match goal with |- context [self ?d pointee path] =>
       pose proof (Hself d pointee path) as Hv;
       destruct (self d pointee path) as [x [e'|]|m']; simpl in *; auto end).
Qed.

Lemma unmarshalSliceElements_errorAt dataVal rv path n :
  errorAt Q path (unmarshalSliceElements self dataVal rv path n).
Proof.
  unfold unmarshalSliceElements.
  destruct (MakeSlice (typ rv) n) as [slice|]; simpl; auto.
  destruct (Type_Elem (typ rv)) as [se|]; simpl; auto.
  destruct (AssignableTo _ _); [apply SetValue_errorAt|].
  destruct (Type_Elem (typ dataVal)) as [de|]; simpl; auto.
  destruct (rtype_eqb de se); [apply SetValue_errorAt|].
  destruct (Kind_eqb _ _).
  - match goal with |- context [forRange n O ?b ?s] =>
      pose proof (forRange_error n b O s) as Hl;
      destruct (forRange n O b s) as [s' [e|]|m] end;
      simpl; auto; try apply SetValue_errorAt.
    destruct (Hl _ _ eq_refl) as [j [s0 Hb]].
    destruct (Value_Index (with_val slice s0) j) as [sl|]; [|discriminate].
    destruct (SetValue sl (Value_Index dataVal j)) as [y [e'|]|m'] eqn:E;
      try discriminate.
    apply SetValue_no_error in E. contradiction.
  - match goal with |- context [forRange n O ?b ?s] =>
      pose proof (forRange_error n b O s) as Hl;
      destruct (forRange n O b s) as [s' [e|]|m] end;
      simpl; auto; try apply SetValue_errorAt.
    destruct (Hl _ _ eq_refl) as [j [s0 Hb]].
    destruct (Value_Index dataVal j) as [src|]; [|discriminate].
    destruct (Value_Index (with_val slice s0) j) as [sl|]; [|discriminate].
    pose proof (Hself (Interface src) sl (elemPath path j)) as Hv.
    destruct (self (Interface src) sl (elemPath path j)) as [y [e'|]|m'];
      try discriminate.
    inversion Hb; subst. simpl in Hv. eapply Qelement; eauto.
Qed.

Lemma unmarshalSlice_errorAt data rv path :
  errorAt Q path (unmarshalSlice self data rv path).
Proof.
  unfold unmarshalSlice.
  destruct (ValueOf data); [|apply SetValue_errorAt].
  destruct (_ && _); simpl; auto.
  destruct (Nat.eqb _ _); [apply SetValue_errorAt|].
  apply unmarshalSliceElements_errorAt.
Qed.

Lemma unmarshalStruct_field_errorAt dataMap rv path field :
  errorAt Q path (unmarshalStruct_field self dataMap rv path field).
Proof.
  unfold unmarshalStruct_field.
  destruct (Field rv (Index field)) as [fv|]; simpl; auto.
  destruct (Embedded field).
  - unfold unmarshalEmbeddedField.
    destruct (negb _); simpl; auto.
    destruct (match MapIndex dataMap (StructFieldName field) with
              | Some nestedMap => asMapStringAny nestedMap | None => None end);
      match goal with |- context [self ?d fv path] =>
        pose proof (Hself d fv path) as Hv;
        destruct (self d fv path) as [y [e'|]|m']; simpl in *; auto end.
  - destruct (match MapIndex dataMap (MapKey field) with
              | Some v => Some v | None => option_map GoString (Default field) end)
      as [v|]; simpl; auto.
    pose proof (Hself v fv (buildFieldPath path (MapKey field))) as Hv.
    destruct (self v fv (buildFieldPath path (MapKey field))) as [y [e'|]|m'];
      simpl in *; auto.
Qed.

Lemma unmarshalStruct_fields_errorAt dataMap rv path fields :
  errorAt Q path (unmarshalStruct_fields self dataMap rv path fields).
Proof.
  revert rv. induction fields as [|f rest IH]; intro rv; simpl; auto.
  pose proof (unmarshalStruct_field_errorAt dataMap rv path f) as Hf.
  destruct (unmarshalStruct_field self dataMap rv path f) as [s [e|]|m];
    simpl in *; auto.
Qed.

Lemma unmarshalValue_body_errorAt data rv path :
  errorAt Q path (unmarshalValue_body ParseWithName u self data rv path).
Proof.
  unfold unmarshalValue_body.
  destruct (negb (CanSet rv)); simpl; auto.
  destruct (match TypeOf data with
            | Some dataType => AssignableTo dataType (typ rv) | None => false end);
    [apply SetValue_errorAt|].
  destruct (Find (converters u) (typ rv)) as [conv|].
  - destruct (conv data) as [c [e|]]; simpl; auto.
    apply SetValue_errorAt.
  - destruct (Value_Kind rv); simpl; auto.
    + apply unmarshalPtr_errorAt.
    + apply unmarshalSlice_errorAt.
    + unfold unmarshalStruct. destruct (asMapStringAny data); simpl; auto.
      apply unmarshalStruct_fields_errorAt.
Qed.

End Body.

Lemma unmarshalValue_iter_errorAt n :
  forall data rv path,
    errorAt Q path (unmarshalValue_iter ParseWithName u n data rv path).
Proof.
  induction n as [|n IH]; intros data rv path; simpl; auto.
  apply unmarshalValue_body_errorAt. exact IH.
Qed.

Lemma unmarshalValue_errorAt data rv path :
  errorAt Q path (unmarshalValue ParseWithName u data rv path).
Proof. apply unmarshalValue_iter_errorAt. Qed.

End ErrorInvariant.

Section ErrorPaths.

Variable ParseWithName : string -> tagparser.Tag * option error.
Variable u : Unmarshaler.

Lemma buildFieldPath_extends path key :
  path <> EmptyString ->
  buildFieldPath path key = (path ++ ("." ++ key))%string.
Proof.
  intro H. unfold buildFieldPath.
  destruct (String.eqb path EmptyString) eqn:E; [|reflexivity].
  apply String.eqb_eq in E. contradiction.
Qed.

Lemma append_not_empty (a b : string) :
  a <> EmptyString -> (a ++ b)%string <> EmptyString.
Proof. destruct a; simpl; [contradiction|discriminate]. Qed.

Lemma unmarshalValue_engineError data rv path s e :
  unmarshalValue ParseWithName u data rv path = Return s (Some e) ->
  engineError e = true.
Proof.
  intro H.
  pose proof (unmarshalValue_errorAt ParseWithName u
                (fun _ e => engineError e = true)) as Hq.
  specialize (Hq (fun _ _ _ _ => eq_refl) (fun _ _ => eq_refl)
                 (fun _ _ _ h => h) (fun _ _ _ h => h) data rv path).
  rewrite H in Hq. exact Hq.
Qed.

(** X10.  Every error of the engine is one the engine built: a
    conversion error, a no-converter error, or one of these wrapped in
    the paths of the fields it came through.  The error of a converter
    only ever appears as the cause of a conversion error, and [Unmarshal]
    adds to these only its two validation errors. *)
Theorem X10_errors_are_engine_built :
  (forall data rv path s e,
     unmarshalValue ParseWithName u data rv path = Return s (Some e) ->
     engineError e = true)
  /\
  (forall data result r e,
     Unmarshal ParseWithName u data result = Return r (Some e) ->
     engineError e = true \/ isValidationError e = true).
Proof.
  split; [apply unmarshalValue_engineError|].
  intros data result r e. unfold Unmarshal.
  destruct (validateResultPointer result) as [[rv|] [err|]] eqn:Hv;
    try discriminate.
  - unfold validateResultPointer in Hv.
    destruct (ValueOf result) as [v|]; [|discriminate].
    destruct (negb _); [discriminate|]. destruct (IsNil v); discriminate.
  - destruct (unmarshalValue ParseWithName u (VMap mapStringAny data) rv
                             EmptyString) as [x [e'|]|m] eqn:E;
      try discriminate.
    intro H; inversion H; subst. left.
    eapply unmarshalValue_engineError; eauto.
  - unfold validateResultPointer in Hv.
    destruct (ValueOf result) as [v|].
    + destruct (negb _);
        [intro H; inversion H; subst; inversion Hv; subst; right; reflexivity|].
      destruct (IsNil v); [|discriminate].
      intro H; inversion H; subst; inversion Hv; subst; right; reflexivity.
    + intro H; inversion H; subst; inversion Hv; subst; right; reflexivity.
Qed.

Lemma selectorsText_field (path key : string) (sels : list selector) :
  path <> EmptyString ->
  (buildFieldPath path key ++ selectorsText sels)%string
  = (path ++ selectorsText (FieldSelector key :: sels))%string.
Proof.
  intro Hp. rewrite buildFieldPath_extends by exact Hp.
  rewrite append_assoc. reflexivity.
Qed.

Lemma selectorsText_index (path : string) (i : nat) (sels : list selector) :
  (elemPath path i ++ selectorsText sels)%string
  = (path ++ selectorsText (IndexSelector i :: sels))%string.
Proof.
  unfold elemPath. simpl selectorsText. unfold selectorText.
  rewrite !append_assoc. reflexivity.
Qed.

(** X11.  The path of an error is the path of the call followed by
    selectors.  When decoding under a non-empty path fails, the error
    carries a path, the one of its innermost conversion or no-converter
    error, and that path is the path of the call followed by zero or
    more selectors, each a [.key] or an [[i]]: the engine never reports
    a path outside the one it was called under, and extends a path only
    by whole selectors. *)
Theorem X11_error_path_extends
  (data : value) (rv : Value) (path : string) (s : value) (e : error) :
  path <> EmptyString ->
  unmarshalValue ParseWithName u data rv path = Return s (Some e) ->
  exists p sels,
    errorPath e = Some p /\ p = (path ++ selectorsText sels)%string.
Proof.
  intros Hp H.
  destruct (engineError_errorPath e (unmarshalValue_engineError _ _ _ _ _ H))
    as [p Hpe].
  pose proof (unmarshalValue_errorAt ParseWithName u
                (fun path e => forall p, errorPath e = Some p ->
                   path = EmptyString
                   \/ exists sels, p = (path ++ selectorsText sels)%string))
    as Hq.
  assert (Hq' : errorAt
                  (fun path e => forall p, errorPath e = Some p ->
                     path = EmptyString
                     \/ exists sels, p = (path ++ selectorsText sels)%string)
                  path (unmarshalValue ParseWithName u data rv path)).
  { apply Hq; clear.
    - intros path v t c p. unfold NewConversionError. simpl.
      destruct (String.eqb path EmptyString) eqn:E.
      + apply String.eqb_eq in E. auto.
      + intro H; inversion H. right. exists [].
        symmetry. apply append_nil_r.
    - intros path t p. simpl. intro H; inversion H. right.
      exists []. symmetry. apply append_nil_r.
    - intros path key e IH p. simpl. intro H.
      destruct (String.eqb path EmptyString) eqn:E;
        [apply String.eqb_eq in E; auto|].
      apply String.eqb_neq in E.
      destruct (IH p H) as [Hb|[sels Hb]].
      + rewrite buildFieldPath_extends in Hb by exact E.
        apply append_not_empty in Hb; [contradiction|exact E].
      + right. exists (FieldSelector key :: sels).
        rewrite Hb. apply selectorsText_field. exact E.
    - intros path i e IH p H.
      destruct (String.eqb path EmptyString) eqn:E;
        [apply String.eqb_eq in E; auto|].
      apply String.eqb_neq in E.
      destruct (IH p H) as [Hb|[sels Hb]].
      + unfold elemPath in Hb.
        apply append_not_empty in Hb; [contradiction|exact E].
      + right. exists (IndexSelector i :: sels).
        rewrite Hb. apply selectorsText_index. }
  rewrite H in Hq'. simpl in Hq'.
  destruct (Hq' p Hpe) as [Hb|[sels Hb]]; [contradiction|eauto].
Qed.

(** X12.  A conversion error never has an empty path.  Whatever
    [Unmarshal] is given, the conversion error that [errors.As] finds in
    the error it returns names a place: its field path is not empty (at
    the top of the destination it is "root"). *)
Theorem X12_conversion_error_path_not_empty
  (data : option (list (value * value))) (result r : value) (e : error)
  (p : string) (v : value) (t : rtype) (c : option error) :
  Unmarshal ParseWithName u data result = Return r (Some e) ->
  AsConversionError e = Some (ConversionError p v t c) ->
  p <> EmptyString.
Proof.
  unfold Unmarshal.
  destruct (validateResultPointer result) as [[rv|] [err|]] eqn:Hv;
    try discriminate.
  - unfold validateResultPointer in Hv.
    destruct (ValueOf result) as [x|]; [|discriminate].
    destruct (negb _); [discriminate|]. destruct (IsNil x); discriminate.
  - pose proof (unmarshalValue_errorAt ParseWithName u
                  (fun _ e => forall p v t c,
                     AsConversionError e = Some (ConversionError p v t c) ->
                     p <> EmptyString)) as Hq.
    assert (Hq' : errorAt
                    (fun _ e => forall p v t c,
                       AsConversionError e = Some (ConversionError p v t c) ->
                       p <> EmptyString)
                    EmptyString
                    (unmarshalValue ParseWithName u (VMap mapStringAny data) rv
                                    EmptyString)).
    { apply Hq; clear.
      - intros path v t c p' v' t' c'. unfold NewConversionError. simpl.
        destruct (String.eqb path EmptyString) eqn:E;
          intro H; inversion H; subst; [discriminate|].
        apply String.eqb_neq in E. exact E.
      - intros path t p' v' t' c'. simpl. discriminate.
      - intros path key e0 IH. simpl. exact IH.
      - intros path i e0 IH. exact IH. }
    destruct (unmarshalValue ParseWithName u (VMap mapStringAny data) rv
                             EmptyString) as [x [e'|]|m]; try discriminate.
    intro H; inversion H; subst. simpl in Hq'. apply Hq'.
  - unfold validateResultPointer in Hv.
    destruct (ValueOf result) as [x|].
    + destruct (negb _);
        [intro H; inversion H; subst; inversion Hv; subst; discriminate|].
      destruct (IsNil x); [|discriminate].
      intro H; inversion H; subst; inversion Hv; subst; discriminate.
    + intro H; inversion H; subst; inversion Hv; subst; discriminate.
Qed.

End ErrorPaths.

(* ================================================================== *)
(** ** Structs: what the field loop reads and what it leaves *)
(* ================================================================== *)

Section FieldLoopReads.

Variable self : value -> Value -> string -> outcome.
Variable path : string.

Lemma unmarshalStruct_field_inert m rv fm s err :
  inert m fm ->
  unmarshalStruct_field self m rv path fm = Return s err ->
  s = val rv /\ err = None.
Proof.
  unfold unmarshalStruct_field.
  destruct (Field rv (Index fm)) as [fv|] eqn:Hf; [|discriminate].
  intros [[He [Hm Hd]]|[He Hk]]; rewrite He.
  - rewrite Hm, Hd. simpl. intro H; inversion H; auto.
  - unfold unmarshalEmbeddedField.
    destruct (Kind_eqb (Type_Kind (Type_ fm)) KStruct) eqn:E;
      [apply Kind_eqb_eq in E; contradiction|].
    simpl. intro H; inversion H; subst. split; [|reflexivity].
    apply store_field_same. exact Hf.
Qed.

Lemma unmarshalStruct_fields_keeps_inert m fields i : forall rv s err,
  (forall fm, In fm fields -> Index fm = i -> inert m fm) ->
  unmarshalStruct_fields self m rv path fields = Return s err ->
  field_at s i = field_at (val rv) i.
Proof.
  induction fields as [|f rest IH]; intros rv s err Hall; simpl.
  - intro H; inversion H; subst. reflexivity.
  - assert (Hstep : forall s1 e1,
              unmarshalStruct_field self m rv path f = Return s1 e1 ->
              field_at s1 i = field_at (val rv) i).
    { intros s1 e1 E. destruct (Nat.eq_dec (Index f) i) as [Hi|Hi].
      - destruct (unmarshalStruct_field_inert m rv f s1 e1
                    (Hall f (or_introl eq_refl) Hi) E) as [-> _].
        reflexivity.
      - eapply unmarshalStruct_field_keeps; eauto. }
    destruct (unmarshalStruct_field self m rv path f) as [s1 [e1|]|msg] eqn:E;
      try discriminate.
    + intro H; inversion H; subst. eapply Hstep; eauto.
    + intro H. apply IH in H.
      * rewrite H. simpl. eapply Hstep; eauto.
      * intros fm Hin. apply Hall. right; exact Hin.
Qed.

Lemma unmarshalStruct_fields_agree m m' fields : forall rv,
  (forall fm, In fm fields ->
     Embedded fm = false /\ MapIndex m (MapKey fm) = MapIndex m' (MapKey fm)) ->
  unmarshalStruct_fields self m rv path fields
  = unmarshalStruct_fields self m' rv path fields.
Proof.
  induction fields as [|f rest IH]; intros rv Hall; simpl; [reflexivity|].
  assert (E : unmarshalStruct_field self m rv path f
              = unmarshalStruct_field self m' rv path f).
  { unfold unmarshalStruct_field.
    destruct (Hall f (or_introl eq_refl)) as [He Hm]. rewrite He, Hm.
    reflexivity. }
  rewrite E.
  destruct (unmarshalStruct_field self m' rv path f) as [s [e|]|msg]; auto.
  apply IH. intros fm Hin. apply Hall. right; exact Hin.
Qed.

End FieldLoopReads.

Section StructFields.

Variable ParseWithName : string -> tagparser.Tag * option error.
Variable u : Unmarshaler.

(** X13.  The engine never meets a slot it cannot set.  The slot that
    [validateResultPointer] hands to the engine can be set, and from a
    slot that can be set every recursive call of the engine is on a slot
    that can be set: the engine behaves as if its recursive calls
    panicked on any other slot.  So the silent return of
    [unmarshalValue] on a slot that cannot be set never happens in a
    decoding that [Unmarshal] starts. *)
Theorem X13_slots_can_be_set :
  (forall result rv,
     validateResultPointer result = (Some rv, None) -> CanSet rv = true)
  /\
  (forall data rv path,
     unmarshalValue ParseWithName u data rv path
     = unmarshalValue_body ParseWithName u
         (only_settable (unmarshalValue ParseWithName u)) data rv path).
Proof.
  split.
  - apply validateResultPointer_CanSet.
  - apply unmarshalValue_reaches_settable.
Qed.

(** X14.  Unexported fields are never written by the field loop.  When
    a struct slot with no converter for its type is decoded from a value
    that is not directly assignable, every unexported field holds after
    the call, whether it succeeds or fails, what it held before. *)
Theorem X14_unexported_untouched
  (data : value) (rv : Value) (path : string) (i : nat) (f : StructField)
  (s : value) (err : option error) :
  Value_Kind rv = KStruct ->
  Find (converters u) (typ rv) = None ->
  notAssignable data (typ rv) ->
  Type_Field (typ rv) i = Some f -> IsExported f = false ->
  unmarshalValue ParseWithName u data rv path = Return s err ->
  field_at s i = field_at (val rv) i.
Proof.
  intros Hk Hf Hn Hfield Hex.
  rewrite unmarshalValue_unfold. unfold unmarshalValue_body.
  destruct (negb (CanSet rv)); [intro H; inversion H; reflexivity|].
  rewrite (notAssignable_test _ _ Hn), Hf, Hk.
  unfold unmarshalStruct.
  destruct (asMapStringAny data) as [m|];
    [|intro H; inversion H; reflexivity].
  apply unmarshalStruct_fields_keeps.
  intros fm Hin Hi.
  apply buildMetadata_In in Hin as [f' [Hf' [Hex' _]]].
  rewrite Hi, Hfield in Hf'. inversion Hf'; subst f'. congruence.
Qed.

(** X15.  Keys that the descriptor does not name are ignored.  For a
    struct slot without embedded fields and with no converter for its
    type, two maps that hold the same under every key of the descriptor
    decode alike: the same destination, the same error. *)
Theorem X15_unknown_keys_ignored
  (m m' : option (list (value * value))) (rv : Value) (path : string) :
  Value_Kind rv = KStruct ->
  Find (converters u) (typ rv) = None ->
  (forall fm,
     In fm (Fields (GetMetadata ParseWithName (fieldCache u) (typ rv))) ->
     Embedded fm = false /\ MapIndex m (MapKey fm) = MapIndex m' (MapKey fm)) ->
  unmarshalValue ParseWithName u (VMap mapStringAny m) rv path
  = unmarshalValue ParseWithName u (VMap mapStringAny m') rv path.
Proof.
  intros Hk Hf Hall.
  rewrite !unmarshalValue_unfold. unfold unmarshalValue_body.
  destruct (negb (CanSet rv)); [reflexivity|].
  rewrite !(notAssignable_test _ _ (struct_notAssignable rv _ Hk)), Hf, Hk.
  unfold unmarshalStruct. simpl asMapStringAny. cbv iota.
  apply unmarshalStruct_fields_agree. exact Hall.
Qed.

(** X16.  A field whose key is absent keeps its value.  When a struct
    slot with no converter for its type is decoded from a map, a field
    whose descriptor entry has a key that the map lacks and no default,
    or is an embedded field not of struct kind (a pointer to a struct,
    say), holds after the call what it held before, whatever happens to
    the other fields. *)
Theorem X16_absent_key_keeps_field
  (m : option (list (value * value))) (rv : Value) (path : string) (i : nat)
  (s : value) (err : option error) :
  Value_Kind rv = KStruct ->
  Find (converters u) (typ rv) = None ->
  (forall fm,
     In fm (Fields (GetMetadata ParseWithName (fieldCache u) (typ rv))) ->
     Index fm = i -> inert m fm) ->
  unmarshalValue ParseWithName u (VMap mapStringAny m) rv path = Return s err ->
  field_at s i = field_at (val rv) i.
Proof.
  intros Hk Hf Hall.
  rewrite unmarshalValue_unfold. unfold unmarshalValue_body.
  destruct (negb (CanSet rv)); [intro H; inversion H; reflexivity|].
  rewrite (notAssignable_test _ _ (struct_notAssignable rv _ Hk)), Hf, Hk.
  unfold unmarshalStruct. simpl asMapStringAny. cbv iota.
  apply unmarshalStruct_fields_keeps_inert. exact Hall.
Qed.

End StructFields.

(* ================================================================== *)
(** ** Structs: where the field loop stops *)
(* ================================================================== *)

Section FieldLoopStops.

Variable self : value -> Value -> string -> outcome.
Variable path : string.

Lemma unmarshalStruct_field_wraps m rv fm s e :
  Embedded fm = false ->
  unmarshalStruct_field self m rv path fm = Return s (Some e) ->
  exists e', e = Errorf_wrap (buildFieldPath path (MapKey fm)) e'.
Proof.
  intro He. unfold unmarshalStruct_field.
  destruct (Field rv (Index fm)) as [fv|]; [|discriminate].
  rewrite He.
  destruct (match MapIndex m (MapKey fm) with
            | Some v => Some v | None => option_map GoString (Default fm) end)
    as [v|]; [|discriminate].
  destruct (self v fv (buildFieldPath path (MapKey fm))) as [x [e'|]|msg];
    try discriminate.
  intro H; inversion H; subst. eauto.
Qed.

Lemma unmarshalStruct_fields_stops m fields : forall rv s e,
  StronglySorted lt (map Index fields) ->
  unmarshalStruct_fields self m rv path fields = Return s (Some e) ->
  exists fm,
    In fm fields
    /\ (forall j, (Index fm < j)%nat -> field_at s j = field_at (val rv) j)
    /\ (Embedded fm = false ->
        exists e', e = Errorf_wrap (buildFieldPath path (MapKey fm)) e').
Proof.
  induction fields as [|f rest IH]; intros rv s e Hsorted; simpl;
    [discriminate|].
  simpl in Hsorted. apply StronglySorted_inv in Hsorted as [Hrest Hlt].
  destruct (unmarshalStruct_field self m rv path f) as [s1 [e1|]|msg] eqn:E;
    try discriminate.
  - intro H; inversion H; subst. exists f. split; [left; reflexivity|].
    split.
    + intros j Hj. eapply unmarshalStruct_field_keeps; eauto. lia.
    + intro He. eapply unmarshalStruct_field_wraps; eauto.
  - intro H. destruct (IH _ _ _ Hrest H) as [fm [Hin [Hkeep Hwrap]]].
    exists fm. split; [right; exact Hin|]. split; [|exact Hwrap].
    intros j Hj. rewrite (Hkeep j Hj). simpl.
    eapply unmarshalStruct_field_keeps; eauto.
    rewrite Forall_forall in Hlt.
    specialize (Hlt (Index fm) (in_map Index _ _ Hin)). lia.
Qed.

End FieldLoopStops.

Section StructFailure.

Variable ParseWithName : string -> tagparser.Tag * option error.
Variable u : Unmarshaler.

(** X17.  The field loop stops at the first field that fails and does
    not go back.  When decoding a map into a struct slot with no
    converter for its type returns an error, the error is that of one
    descriptor entry; every field declared after that entry's holds what
    it held before the call; and, the entry being a plain field, the
    error is the field's own error wrapped in the field's path. *)
Theorem X17_fields_after_failure
  (m : option (list (value * value))) (rv : Value) (path : string)
  (s : value) (e : error) :
  Value_Kind rv = KStruct ->
  Find (converters u) (typ rv) = None ->
  unmarshalValue ParseWithName u (VMap mapStringAny m) rv path
  = Return s (Some e) ->
  exists fm,
    In fm (Fields (GetMetadata ParseWithName (fieldCache u) (typ rv)))
    /\ (forall j, (Index fm < j)%nat -> field_at s j = field_at (val rv) j)
    /\ (Embedded fm = false ->
        exists e', e = Errorf_wrap (buildFieldPath path (MapKey fm)) e').
Proof.
  intros Hk Hf.
  rewrite unmarshalValue_unfold. unfold unmarshalValue_body.
  destruct (negb (CanSet rv)); [discriminate|].
  rewrite (notAssignable_test _ _ (struct_notAssignable rv _ Hk)), Hf, Hk.
  unfold unmarshalStruct. simpl asMapStringAny. cbv iota.
  apply unmarshalStruct_fields_stops.
  apply buildMetadata_fields_sorted.
Qed.

End StructFailure.

(* ================================================================== *)
(** ** The further properties at work on the sample programs *)
(* ================================================================== *)

(** X1 on a [*int] slot: nil makes the pointer nil; "42" into the nil
    pointer allocates an [int] and decodes into it; "x" leaves the
    allocated zero behind its error; "42" into a pointer to 7 overwrites
    the 7. *)
Lemma X1_witness :
  let nilPtr := slot (TPointer goInt) (VPtr (TPointer goInt) None) in
  let ptr7 := slot (TPointer goInt) (VPtr (TPointer goInt) (Some (VInt goInt 7))) in
  CanSet nilPtr = true /\ Value_Kind nilPtr = KPointer
  /\ Find (converters sampleUnmarshaler) (typ nilPtr) = None
  /\ unmarshalValue sampleParseWithName sampleUnmarshaler VNil ptr7 "p"
     = Return (VPtr (TPointer goInt) None) None
  /\ unmarshalValue sampleParseWithName sampleUnmarshaler (GoString "42") nilPtr "p"
     = Return (VPtr (TPointer goInt) (Some (VInt goInt 42))) None
  /\ unmarshalValue sampleParseWithName sampleUnmarshaler (GoString "x") nilPtr "p"
     = Return (VPtr (TPointer goInt) (Some (VInt goInt 0)))
              (Some (ConversionError "p" (GoString "x") goInt
                                     (Some (ErrorString "invalid syntax"))))
  /\ unmarshalValue sampleParseWithName sampleUnmarshaler (GoString "42") ptr7 "p"
     = Return (VPtr (TPointer goInt) (Some (VInt goInt 42))) None.
Proof.
  cbv zeta. split; [reflexivity|]. split; [reflexivity|]. split; [reflexivity|].
  split; [|split; [|split]].
  - destruct (X1_pointer_slot sampleParseWithName sampleUnmarshaler VNil
                (slot (TPointer goInt) (VPtr (TPointer goInt) (Some (VInt goInt 7))))
                "p" goInt eq_refl eq_refl eq_refl eq_refl I) as [Hnil _].
    exact (Hnil eq_refl).
  - destruct (X1_pointer_slot sampleParseWithName sampleUnmarshaler (GoString "42")
                (slot (TPointer goInt) (VPtr (TPointer goInt) None))
                "p" goInt eq_refl eq_refl eq_refl eq_refl eq_refl)
      as [_ [Hfresh _]].
    rewrite Hfresh; [reflexivity|discriminate|reflexivity].
  - destruct (X1_pointer_slot sampleParseWithName sampleUnmarshaler (GoString "x")
                (slot (TPointer goInt) (VPtr (TPointer goInt) None))
                "p" goInt eq_refl eq_refl eq_refl eq_refl eq_refl)
      as [_ [Hfresh _]].
    rewrite Hfresh; [reflexivity|discriminate|reflexivity].
  - destruct (X1_pointer_slot sampleParseWithName sampleUnmarshaler (GoString "42")
                (slot (TPointer goInt) (VPtr (TPointer goInt) (Some (VInt goInt 7))))
                "p" goInt eq_refl eq_refl eq_refl eq_refl eq_refl)
      as [_ [_ Hplace]].
    rewrite (Hplace ltac:(discriminate) (TPointer goInt) (VInt goInt 7) eq_refl).
    reflexivity.
Defined.

(** X2 on an [any] slot and a [map[string]string] slot: a string is
    stored in the [any] slot as it is; nil is not, for want of a
    converter; and a string into the map slot, for whose type there is
    no converter, is the no-converter error. *)
Lemma X2_witness :
  CanSet (slot TInterface (GoString "old")) = true
  /\ CanSet (slot mapStringString (zero mapStringString)) = true
  /\ unmarshalValue sampleParseWithName sampleUnmarshaler (GoString "a")
                    (slot TInterface (GoString "old")) "v"
     = Return (GoString "a") None
  /\ unmarshalValue sampleParseWithName sampleUnmarshaler VNil
                    (slot TInterface (GoString "old")) "v"
     = Return (GoString "old") (Some (Errorf_noConverter "v" TInterface))
  /\ unmarshalValue sampleParseWithName sampleUnmarshaler (GoString "x")
                    (slot mapStringString (zero mapStringString)) "labels"
     = Return (VMap mapStringString None)
              (Some (Errorf_noConverter "labels" mapStringString)).
Proof.
  split; [reflexivity|]. split; [reflexivity|]. split; [|split].
  - destruct (X2_other_kinds sampleParseWithName sampleUnmarshaler (GoString "a")
                (slot TInterface (GoString "old")) "v" eq_refl) as [Hany _].
    apply Hany; [reflexivity|discriminate].
  - destruct (X2_other_kinds sampleParseWithName sampleUnmarshaler VNil
                (slot TInterface (GoString "old")) "v" eq_refl) as [_ Hother].
    apply Hother; try discriminate; [reflexivity|exact I].
  - destruct (X2_other_kinds sampleParseWithName sampleUnmarshaler (GoString "x")
                (slot mapStringString (zero mapStringString)) "labels" eq_refl)
      as [_ Hother].
    apply Hother; try discriminate; reflexivity.
Defined.

(** X3 on an [[]int] slot holding [1]: the second element of
    [2, "x"] fails, and the slot still holds [1]. *)
Lemma X3_witness :
  let rv := slot (TSlice goInt) (intSlice [1]) in
  let data := anySlice [VInt goInt 2; GoString "x"] in
  let err := ConversionError "Values[1]" (GoString "x") goInt
                             (Some (ErrorString "invalid syntax")) in
  Value_Kind rv <> KPointer /\ Value_Kind rv <> KStruct
  /\ unmarshalValue sampleParseWithName sampleUnmarshaler data rv "Values"
     = Return (intSlice [1]) (Some err)
  /\ intSlice [1] = val rv.
Proof.
  cbv zeta. split; [discriminate|]. split; [discriminate|].
  split; [reflexivity|].
  apply (X3_error_leaves_destination sampleParseWithName sampleUnmarshaler
           (anySlice [VInt goInt 2; GoString "x"])
           (slot (TSlice goInt) (intSlice [1])) "Values" (intSlice [1])
           (ConversionError "Values[1]" (GoString "x") goInt
                            (Some (ErrorString "invalid syntax"))));
    [discriminate|discriminate|reflexivity].
Defined.

(** X4 on an [[]any] slot given the [[]int] [1, 2], and on an [[]int]
    slot given the array [[2]int{1, 2}]: the elements are taken over. *)
Lemma X4_witness :
  let anys := slot (TSlice TInterface) (VSlice (TSlice TInterface) None) in
  let ints := slot (TSlice goInt) (intSlice [9]) in
  let array := VArray (TArray 2 goInt) [VInt goInt 1; VInt goInt 2] in
  CanSet anys = true /\ CanSet ints = true
  /\ Find (converters sampleUnmarshaler) (typ anys) = None
  /\ Find (converters sampleUnmarshaler) (typ ints) = None
  /\ sequenceOf (intSlice [1; 2]) (TSlice goInt) [VInt goInt 1; VInt goInt 2]
  /\ sequenceOf array (TArray 2 goInt) [VInt goInt 1; VInt goInt 2]
  /\ unmarshalValue sampleParseWithName sampleUnmarshaler (intSlice [1; 2])
                    anys "Values"
     = Return (VSlice (TSlice TInterface) (Some [VInt goInt 1; VInt goInt 2])) None
  /\ unmarshalValue sampleParseWithName sampleUnmarshaler array ints "Values"
     = Return (VSlice (TSlice goInt) (Some [VInt goInt 1; VInt goInt 2])) None.
Proof.
  cbv zeta.
  assert (Hs : sequenceOf (intSlice [1; 2]) (TSlice goInt)
                          [VInt goInt 1; VInt goInt 2]).
  { left. split; reflexivity. }
  assert (Ha : sequenceOf (VArray (TArray 2 goInt) [VInt goInt 1; VInt goInt 2])
                          (TArray 2 goInt) [VInt goInt 1; VInt goInt 2]).
  { right. split; reflexivity. }
  split; [reflexivity|]. split; [reflexivity|]. split; [reflexivity|].
  split; [reflexivity|]. split; [exact Hs|]. split; [exact Ha|]. split.
  - apply (X4_elements_taken_over sampleParseWithName sampleUnmarshaler
             (intSlice [1; 2])
             (slot (TSlice TInterface) (VSlice (TSlice TInterface) None))
             "Values" (TSlice goInt) TInterface goInt
             [VInt goInt 1; VInt goInt 2]
             eq_refl eq_refl eq_refl Hs eq_refl).
    right; right; reflexivity.
  - apply (X4_elements_taken_over sampleParseWithName sampleUnmarshaler
             (VArray (TArray 2 goInt) [VInt goInt 1; VInt goInt 2])
             (slot (TSlice goInt) (intSlice [9]))
             "Values" (TArray 2 goInt) goInt goInt
             [VInt goInt 1; VInt goInt 2]
             eq_refl eq_refl eq_refl Ha eq_refl).
    right; left; reflexivity.
Defined.

(** X5 on an [[]int] slot given the [[]any] ["1", 2]: each element is
    decoded on its own, the string by the integer converter. *)
Lemma X5_witness :
  let rv := slot (TSlice goInt) (intSlice [9]) in
  let data := anySlice [GoString "1"; VInt goInt 2] in
  CanSet rv = true
  /\ Find (converters sampleUnmarshaler) (typ rv) = None
  /\ sequenceOf data (TSlice TInterface) [GoString "1"; VInt goInt 2]
  /\ AssignableTo (TSlice TInterface) (typ rv) = false
  /\ Type_Kind goInt <> KInterface
  /\ unmarshalValue sampleParseWithName sampleUnmarshaler data rv "Values"
     = Return (intSlice [1; 2]) None.
Proof.
  cbv zeta.
  assert (Hs : sequenceOf (anySlice [GoString "1"; VInt goInt 2])
                          (TSlice TInterface) [GoString "1"; VInt goInt 2]).
  { left. split; reflexivity. }
  assert (Hk : Type_Kind goInt <> KInterface) by discriminate.
  split; [reflexivity|]. split; [reflexivity|]. split; [exact Hs|].
  split; [reflexivity|]. split; [exact Hk|].
  rewrite (proj1 (X5_elementwise_path sampleParseWithName sampleUnmarshaler
                    (anySlice [GoString "1"; VInt goInt 2])
                    (slot (TSlice goInt) (intSlice [9])) "Values"
                    (TSlice TInterface) goInt TInterface
                    [GoString "1"; VInt goInt 2]
                    eq_refl eq_refl eq_refl Hs eq_refl eq_refl eq_refl Hk)).
  reflexivity.
Defined.

(** X7 on [Audited] with a cache that does not read tags: [Count] is
    under "Count", not "count", and [Ignored], tagged [schema:"-"], has
    its entry. *)
Lemma X7_witness :
  tagName untaggedCache = "-"
  /\ map (fun fm => (StructFieldName fm, MapKey fm))
         (Fields (buildMetadata sampleParseWithName untaggedCache Audited))
     = [("Metadata", "Metadata"); ("Count", "Count"); ("Ignored", "Ignored")].
Proof.
  split; [reflexivity|].
  rewrite (X7_tags_disabled sampleParseWithName untaggedCache Audited eq_refl).
  reflexivity.
Defined.

(** X8 on [Audited] with the default cache: the key of [Count]. *)
Lemma X8_witness :
  (forall f, In f (Type_Fields Audited) ->
             Name f <> EmptyString /\ Name f <> "-")
  /\ MapKey Audited_Count <> EmptyString /\ MapKey Audited_Count <> "-".
Proof.
  assert (Hnames : forall f, In f (Type_Fields Audited) ->
                             Name f <> EmptyString /\ Name f <> "-").
  { simpl. intros f [<-|[<-|[<-|[]]]]; split; discriminate. }
  split; [exact Hnames|].
  apply (X8_keys_not_empty sampleParseWithName (fieldCache sampleUnmarshaler)
           Audited Hnames Audited_Count).
  right; left; reflexivity.
Defined.

(** X9 on the empty table: the first question for [Nested] stores its
    descriptor, the second finds it. *)
Lemma X9_witness :
  let c := fieldCache sampleUnmarshaler in
  let first := GetMetadata_stored sampleParseWithName c [] Nested in
  coherent sampleParseWithName c []
  /\ fst first = buildMetadata sampleParseWithName c Nested
  /\ snd first = [(Nested, buildMetadata sampleParseWithName c Nested)]
  /\ GetMetadata_stored sampleParseWithName c (snd first) Nested = first.
Proof.
  cbv zeta.
  assert (Hc : coherent sampleParseWithName (fieldCache sampleUnmarshaler) []).
  { intros t m H. discriminate H. }
  destruct (X9_cache_table sampleParseWithName (fieldCache sampleUnmarshaler)
              [] Nested Hc) as [Hfst [_ [_ Hagain]]].
  split; [exact Hc|]. split; [exact Hfst|]. split; [reflexivity|exact Hagain].
Defined.

(** X11 on [Nested] decoded under the path "doc": the error of the
    innermost field carries "doc.inner.value", the path of the call
    followed by the selectors [.inner] and [.value]. *)
Lemma X11_witness :
  let data := anyMap [("inner", anyMap [("value", GoString "invalid")])] in
  let rv := slot Nested (zero Nested) in
  "doc" <> EmptyString
  /\ ("doc" ++ selectorsText [FieldSelector "inner"; FieldSelector "value"])%string
     = "doc.inner.value"
  /\ exists s e,
       unmarshalValue sampleParseWithName sampleUnmarshaler data rv "doc"
       = Return s (Some e)
       /\ errorPath e = Some "doc.inner.value"
       /\ exists p sels,
            errorPath e = Some p /\ p = ("doc" ++ selectorsText sels)%string.
Proof.
  cbv zeta.
  assert (Hp : "doc" <> EmptyString) by discriminate.
  split; [exact Hp|]. split; [reflexivity|].
  eexists. eexists. split; [vm_compute; reflexivity|]. split; [reflexivity|].
  eapply (X11_error_path_extends sampleParseWithName sampleUnmarshaler
            (anyMap [("inner", anyMap [("value", GoString "invalid")])])
            (slot Nested (zero Nested)) "doc"); [exact Hp|].
  vm_compute. reflexivity.
Defined.

(** X12 on a [*[]int] destination: a map is no slice, and the
    conversion error of the top is at "root". *)
Lemma X12_witness :
  let result := newOf (TSlice goInt) in
  let err := ConversionError "root" (anyMap []) (TSlice goInt) None in
  Unmarshal sampleParseWithName sampleUnmarshaler (mapOf []) result
  = Return result (Some err)
  /\ AsConversionError err = Some err
  /\ "root" <> EmptyString.
Proof.
  cbv zeta. split; [reflexivity|]. split; [reflexivity|].
  apply (X12_conversion_error_path_not_empty sampleParseWithName sampleUnmarshaler
           (mapOf []) (newOf (TSlice goInt)) (newOf (TSlice goInt))
           (ConversionError "root" (anyMap []) (TSlice goInt) None)
           "root" (anyMap []) (TSlice goInt) None);
    reflexivity.
Defined.

(** X14 on [Account]: the key "secret" of the map does not reach the
    unexported field. *)
Lemma X14_witness :
  let rv := slot Account (VStruct Account [GoString EmptyString; GoString "hidden"]) in
  let data := anyMap [("Name", GoString "Ann"); ("secret", GoString "leak")] in
  let s := VStruct Account [GoString "Ann"; GoString "hidden"] in
  Value_Kind rv = KStruct
  /\ Find (converters sampleUnmarshaler) (typ rv) = None
  /\ notAssignable data (typ rv)
  /\ Type_Field (typ rv) 1 = Some (toStructField (unexported "secret" [] goString))
  /\ IsExported (toStructField (unexported "secret" [] goString)) = false
  /\ unmarshalValue sampleParseWithName sampleUnmarshaler data rv EmptyString
     = Return s None
  /\ field_at s 1 = field_at (val rv) 1.
Proof.
  cbv zeta. split; [reflexivity|]. split; [reflexivity|]. split; [reflexivity|].
  split; [reflexivity|]. split; [reflexivity|]. split; [reflexivity|].
  apply (X14_unexported_untouched sampleParseWithName sampleUnmarshaler
           (anyMap [("Name", GoString "Ann"); ("secret", GoString "leak")])
           (slot Account (VStruct Account [GoString EmptyString; GoString "hidden"]))
           EmptyString 1 (toStructField (unexported "secret" [] goString))
           (VStruct Account [GoString "Ann"; GoString "hidden"]) None);
    reflexivity.
Defined.

(** X15 on the struct with one [int] field tagged [schema:"value"]: the
    key "extra" changes nothing. *)
Lemma X15_witness :
  let rv := slot NestedInner (zero NestedInner) in
  let m := mapOf [("extra", GoString "zzz"); ("value", VInt goInt 5)] in
  let m' := mapOf [("value", VInt goInt 5)] in
  Value_Kind rv = KStruct
  /\ Find (converters sampleUnmarshaler) (typ rv) = None
  /\ unmarshalValue sampleParseWithName sampleUnmarshaler (VMap mapStringAny m)
                    rv "inner"
     = unmarshalValue sampleParseWithName sampleUnmarshaler (VMap mapStringAny m')
                      rv "inner".
Proof.
  cbv zeta. split; [reflexivity|]. split; [reflexivity|].
  apply (X15_unknown_keys_ignored sampleParseWithName sampleUnmarshaler
           (mapOf [("extra", GoString "zzz"); ("value", VInt goInt 5)])
           (mapOf [("value", VInt goInt 5)])
           (slot NestedInner (zero NestedInner)) "inner" eq_refl eq_refl).
  intros fm Hin. vm_compute in Hin. destruct Hin as [<-|[]].
  split; reflexivity.
Defined.

(** X16 on [Document] holding the title "old": the map has no "title",
    the field has no default, and the title stays while the content is
    decoded. *)
Lemma X16_witness :
  let rv := slot Document
                 (VStruct Document [zero Metadata; GoString "old";
                                    GoString EmptyString]) in
  let m := mapOf [("content", GoString "c")] in
  let s := VStruct Document [zero Metadata; GoString "old"; GoString "c"] in
  Value_Kind rv = KStruct
  /\ Find (converters sampleUnmarshaler) (typ rv) = None
  /\ unmarshalValue sampleParseWithName sampleUnmarshaler (VMap mapStringAny m)
                    rv EmptyString
     = Return s None
  /\ field_at s 1 = field_at (val rv) 1.
Proof.
  cbv zeta. split; [reflexivity|]. split; [reflexivity|]. split; [reflexivity|].
  apply (X16_absent_key_keeps_field sampleParseWithName sampleUnmarshaler
           (mapOf [("content", GoString "c")])
           (slot Document
                 (VStruct Document [zero Metadata; GoString "old";
                                    GoString EmptyString]))
           EmptyString 1
           (VStruct Document [zero Metadata; GoString "old"; GoString "c"]) None
           eq_refl eq_refl); [|reflexivity].
  intros fm Hin Hi. vm_compute in Hin.
  destruct Hin as [<-|[<-|[<-|[]]]]; try discriminate Hi.
  left. split; [|split]; reflexivity.
Defined.

(** X17 on a [Point] holding (0, 9): "bad" for [X] fails in the
    integer converter, and [Y], declared after it, is not decoded: it
    still holds 9, not the 5 of the map. *)
Lemma X17_witness :
  let rv := slot Point (VStruct Point [VInt goInt 0; VInt goInt 9]) in
  let m := mapOf [("x", GoString "bad"); ("y", VInt goInt 5)] in
  let err := Errorf_wrap "x"
               (ConversionError "x" (GoString "bad") goInt
                                (Some (ErrorString "invalid syntax"))) in
  Value_Kind rv = KStruct
  /\ Find (converters sampleUnmarshaler) (typ rv) = None
  /\ unmarshalValue sampleParseWithName sampleUnmarshaler (VMap mapStringAny m)
                    rv EmptyString
     = Return (VStruct Point [VInt goInt 0; VInt goInt 9]) (Some err)
  /\ exists fm,
       In fm (Fields (GetMetadata sampleParseWithName
                        (fieldCache sampleUnmarshaler) Point))
       /\ (forall j, (Index fm < j)%nat ->
             field_at (VStruct Point [VInt goInt 0; VInt goInt 9]) j
             = field_at (val rv) j)
       /\ (Embedded fm = false ->
           exists e', err = Errorf_wrap (buildFieldPath EmptyString (MapKey fm)) e').
Proof.
  cbv zeta. split; [reflexivity|]. split; [reflexivity|]. split; [reflexivity|].
  apply (X17_fields_after_failure sampleParseWithName sampleUnmarshaler
           (mapOf [("x", GoString "bad"); ("y", VInt goInt 5)])
           (slot Point (VStruct Point [VInt goInt 0; VInt goInt 9]))
           EmptyString
           (VStruct Point [VInt goInt 0; VInt goInt 9])
           (Errorf_wrap "x"
              (ConversionError "x" (GoString "bad") goInt
                               (Some (ErrorString "invalid syntax"))))
           eq_refl eq_refl).
  reflexivity.
Defined.
